(** * PanelManager: the dockable panel layout engine

    A shallow embedding of [PanelManager.js] (class [PanelManager]) and of the
    widget code that creates panels through it ([CodeEditor.createPanel]),
    followed by the properties of the engine.

    Conventions of the embedding.

    - A JS number is a rational [Q].  The engine only adds, subtracts,
      compares, takes [Math.abs] and [Math.max] of pixel values, which is
      exact on the values at hand; rounding of doubles is not modelled.
    - The DOM is an explicit store: [document] is the list of every panel
      element ever created and an element reference is its index.  The
      registry ([this.panels]), [this.dragState] and [this.resizeState] hold
      references, so an element mutated through one of them is seen through
      the others, as in the browser.
    - An inline style length is kept as the number [v] of the CSS text
      [`${v}px`] the code writes; [parseInt] reads that text back.
    - A plain object ([{}], the result of [JSON.parse]) is the list of its
      own properties in the order [JSON.stringify] lists them, with
      [Object.prototype] behind it.
    - The page style sheet is not part of the sources, so the rectangle the
      browser renders for an element, [getBoundingClientRect], is a parameter
      of the development, as is the rectangle of the workspace container. *)

From Stdlib Require Import ZArith NArith QArith Qabs Qminmax Lqa Lia.
From Stdlib Require Import Ascii String Bool Sorted.
From stdpp Require Import base list.

Local Open Scope string_scope.
Local Open Scope list_scope.

(** ** Numbers *)

(** [a < b] on JS numbers. *)
Definition Qltb (a b : Q) : bool := negb (Qle_bool b a).

(** [Math.max(a, b)]. *)
Definition Math_max (a b : Q) : Q := Qmax a b.

(** [Math.abs(a)]. *)
Definition Math_abs (a : Q) : Q := Qabs a.

(** JS prints the number [v] with an exponent ([1.5e-7], [1e+21]) when
    [0 < |v| < 1e-6] or [|v| >= 1e21], and in positional notation otherwise. *)
Definition exponent_notation (v : Q) : bool :=
  let a := Qabs v in
  (Qltb 0 a && Qltb a (1 # 1000000)) || Qle_bool (inject_Z (10 ^ 21)) a.

(** The first digit of the decimal numeral of [z >= 1]; [fuel] is at least
    the number of its digits less one. *)
Fixpoint leading_digit (fuel : nat) (z : Z) : Z :=
  match fuel with
  | O => z
  | S fuel => if (z <? 10)%Z then z else leading_digit fuel (z / 10)
  end.

(** [a * 10^k] for the least [k] that brings [a > 0] to 1 or above; [fuel]
    is at least that [k]. *)
Fixpoint scale_up (fuel : nat) (a : Q) : Q :=
  match fuel with
  | O => a
  | S fuel => if Qle_bool 1 a then a else scale_up fuel (a * 10)
  end.

(** The first significant decimal digit of [a > 0]. *)
Definition first_digit (a : Q) : Z :=
  let a := scale_up (S (Z.to_nat (Z.log2 (Zpos (Qden a))))) a in
  let z := (Qnum a / Zpos (Qden a))%Z in
  leading_digit (Z.to_nat (Z.log2 z)) z.

(** [parseInt(`${v}px`)]: the sign and the digits up to the first character
    that is not a digit.  In positional notation these are the digits before
    the decimal point, that is [v] truncated toward zero; with an exponent
    they are the single digit before the point of the mantissa. *)
Definition parseInt_px (v : Q) : Q :=
  if exponent_notation v then inject_Z (Z.sgn (Qnum v) * first_digit (Qabs v))
  else inject_Z (Z.quot (Qnum v) (Zpos (Qden v))).

(** [a ?? d] where [a] may be [undefined]. *)
Definition nullish {A} (a : option A) (d : A) : A :=
  match a with Some v => v | None => d end.

(** ** The DOM *)

(** What [getBoundingClientRect()] returns. *)
Record DOMRect := mkRect {
  rect_left : Q; rect_top : Q; rect_width : Q; rect_height : Q }.

(** [style.left], [style.top], [style.width], [style.height] of a panel, and
    also the shape of [state.prevBounds]. *)
Record Bounds := mkBounds {
  left_px : Q; top_px : Q; width_px : Q; height_px : Q }.

(** The classes the engine adds to and removes from a panel element. *)
Record ClassList := mkClassList {
  hidden : bool; maximizedClass : bool; focused : bool;
  dragging : bool; resizing : bool }.

(** A reference to a panel element: its index in [document]. *)
Abbreviation ElementRef := nat (only parsing).

(** A panel element: its [id], inline style, class list, whether its
    [innerHTML] has the resize handles, and whether it is still in the page. *)
Record Element := mkElement {
  el_id : string;
  style : Bounds;
  zIndex : option Z;
  classList : ClassList;
  hasHandles : bool;
  inPage : bool }.

Definition with_style (b : Bounds) (el : Element) : Element :=
  mkElement (el_id el) b (zIndex el) (classList el) (hasHandles el) (inPage el).
Definition with_zIndex (z : Z) (el : Element) : Element :=
  mkElement (el_id el) (style el) (Some z) (classList el) (hasHandles el) (inPage el).
Definition with_classList (c : ClassList) (el : Element) : Element :=
  mkElement (el_id el) (style el) (zIndex el) c (hasHandles el) (inPage el).
Definition removed (el : Element) : Element :=
  mkElement (el_id el) (style el) (zIndex el) (classList el) (hasHandles el) false.

Definition set_hidden (v : bool) (el : Element) : Element :=
  let c := classList el in
  with_classList (mkClassList v (maximizedClass c) (focused c) (dragging c) (resizing c)) el.
Definition set_maximizedClass (v : bool) (el : Element) : Element :=
  let c := classList el in
  with_classList (mkClassList (hidden c) v (focused c) (dragging c) (resizing c)) el.
Definition set_focused (v : bool) (el : Element) : Element :=
  let c := classList el in
  with_classList (mkClassList (hidden c) (maximizedClass c) v (dragging c) (resizing c)) el.
Definition set_dragging (v : bool) (el : Element) : Element :=
  let c := classList el in
  with_classList (mkClassList (hidden c) (maximizedClass c) (focused c) v (resizing c)) el.
Definition set_resizing (v : bool) (el : Element) : Element :=
  let c := classList el in
  with_classList (mkClassList (hidden c) (maximizedClass c) (focused c) (dragging c) v) el.

Definition set_left_top (x y : Q) (el : Element) : Element :=
  with_style (mkBounds x y (width_px (style el)) (height_px (style el))) el.

(** A snap guide line: the class [visible] and its [style.left] / [style.top]. *)
Record Guide := mkGuide { visible : bool; guidePos : option Q }.

(** A mouse event, as far as the engine reads it. *)
Record MouseEvent := mkMouse { clientX : Q; clientY : Q }.

(** ** The panel registry *)

Record PanelConfig := mkPanelConfig {
  cfg_id : string; cfg_title : string;
  minWidth : Q; minHeight : Q; resizable : bool; closable : bool }.

Record PanelState := mkPanelState {
  minimized : bool; maximized : bool; prevBounds : option Bounds }.

Record PanelData := mkPanelData {
  element : ElementRef; config : PanelConfig; state : PanelState }.

Definition with_state (st : PanelState) (d : PanelData) : PanelData :=
  mkPanelData (element d) (config d) st.

(** A JS [Map] with string keys: the entries in insertion order. *)
Section JsMap.
Context {V : Type}.

Fixpoint Map_get (m : list (string * V)) (k : string) : option V :=
  match m with
  | [] => None
  | (k', v) :: m' => if String.eqb k' k then Some v else Map_get m' k
  end.

(** [m.set(k, v)]: an existing key keeps its place. *)
Fixpoint Map_set (m : list (string * V)) (k : string) (v : V) : list (string * V) :=
  match m with
  | [] => [(k, v)]
  | (k', v') :: m' =>
      if String.eqb k' k then (k', v) :: m' else (k', v') :: Map_set m' k v
  end.

Fixpoint Map_delete (m : list (string * V)) (k : string) : list (string * V) :=
  match m with
  | [] => []
  | (k', v') :: m' =>
      if String.eqb k' k then Map_delete m' k else (k', v') :: Map_delete m' k
  end.
End JsMap.

(** ** Plain objects

    The own properties of an object, in the order [JSON.stringify] and
    [Object.keys] list them: first the keys that are array indices, in
    ascending numeric order, then the other keys in the order they were
    created. *)

(** The value of a decimal digit. *)
Definition digit_value (c : ascii) : option N :=
  let n := N_of_ascii c in
  if (48 <=? n)%N && (n <=? 57)%N then Some (n - 48)%N else None.

(** The number a string of decimal digits writes. *)
Fixpoint digits_value (acc : N) (s : string) : option N :=
  match s with
  | EmptyString => Some acc
  | String c s =>
      match digit_value c with
      | Some d => digits_value (acc * 10 + d) s
      | None => None
      end
  end.

(** A key that is an array index: the canonical decimal numeral of an
    integer from 0 to 2^32 - 2. *)
Definition array_index (k : string) : option N :=
  match k with
  | EmptyString => None
  | String c rest =>
      if Ascii.eqb c "0"%char && negb (String.eqb rest "") then None
      else
        match digits_value 0 k with
        | Some i => if (i <=? 4294967294)%N then Some i else None
        | None => None
        end
  end.

Section JsObject.
Context {V : Type}.

(** A new property whose key is the array index [i] goes before the first
    property that is not an array index below [i]. *)
Fixpoint Obj_insert_index (i : N) (k : string) (v : V) (o : list (string * V))
    : list (string * V) :=
  match o with
  | [] => [(k, v)]
  | (k', v') :: o' =>
      match array_index k' with
      | Some j =>
          if (j <? i)%N then (k', v') :: Obj_insert_index i k v o'
          else (k, v) :: o
      | None => (k, v) :: o
      end
  end.

(** [o[k] = v] for an object [v].  The key [__proto__] reaches the setter
    of [Object.prototype]: the prototype of [o] is replaced and no property
    is created.  An existing property keeps its place. *)
Definition Obj_set (o : list (string * V)) (k : string) (v : V)
    : list (string * V) :=
  if String.eqb k "__proto__" then o
  else
    match array_index k, Map_get o k with
    | Some i, None => Obj_insert_index i k v o
    | _, _ => Map_set o k v
    end.
End JsObject.

(** The names of the properties of [Object.prototype]. *)
Definition Object_prototype : list string :=
  [ "constructor"; "__defineGetter__"; "__defineSetter__"; "hasOwnProperty";
    "__lookupGetter__"; "__lookupSetter__"; "isPrototypeOf";
    "propertyIsEnumerable"; "toString"; "valueOf"; "__proto__";
    "toLocaleString" ].

(** ** Persisted layout *)

(** One entry of the persisted document. *)
Record SavedPanel := mkSaved {
  saved_x : Q; saved_y : Q; saved_width : Q; saved_height : Q;
  saved_minimized : bool; saved_maximized : bool }.

Definition Layout := list (string * SavedPanel).

(** What [savedStates[id]] evaluates to when it is not [undefined]: an entry
    of the document, or the member of [Object.prototype] of that name (a
    function, or [Object.prototype] itself for [__proto__]). *)
Inductive SavedValue :=
| Entry (sv : SavedPanel)
| Inherited (name : string).

(** [saved?.x]: [undefined] unless [saved] is an entry. *)
Definition optional_chain {A} (f : SavedPanel -> A) (saved : option SavedValue)
    : option A :=
  match saved with
  | Some (Entry sv) => Some (f sv)
  | Some (Inherited _) => None
  | None => None
  end.

(** The text under the key ['orbrya_panels']: either something [JSON.parse]
    rejects, or the JSON of a layout document ([JSON.stringify] followed by
    [JSON.parse] gives back the numbers and booleans it was given). *)
Inductive StoredText :=
| Unparsable
| Json (doc : Layout).

(** ** Interaction sessions *)

Inductive Direction :=
| dir_n | dir_s | dir_e | dir_w | dir_nw | dir_ne | dir_sw | dir_se.

(** The second class name of a resize handle, [handle.className.split(' ')[1]]. *)
Definition direction_name (d : Direction) : string :=
  match d with
  | dir_n => "n" | dir_s => "s" | dir_e => "e" | dir_w => "w"
  | dir_nw => "nw" | dir_ne => "ne" | dir_sw => "sw" | dir_se => "se"
  end.

(** [str.includes(sub)]. *)
Fixpoint includes (str sub : string) : bool :=
  String.prefix sub str ||
  match str with
  | EmptyString => false
  | String _ rest => includes rest sub
  end.

Record DragState := mkDrag {
  drag_panel : ElementRef; drag_id : string;
  drag_startX : Q; drag_startY : Q;
  drag_startLeft : Q; drag_startTop : Q;
  drag_width : Q; drag_height : Q }.

Record ResizeState := mkResize {
  rs_panel : ElementRef; rs_id : string; rs_direction : Direction;
  rs_startX : Q; rs_startY : Q;
  rs_startLeft : Q; rs_startTop : Q;
  rs_startWidth : Q; rs_startHeight : Q;
  rs_minWidth : Q; rs_minHeight : Q }.

(** ** The engine state

    The fields of a [PanelManager] instance, together with the parts of the
    browser it reads and writes: the panel elements, the two guide lines,
    [document.body.style.cursor] and the [localStorage] item. *)
Record PanelManager := mkPM {
  panels : list (string * PanelData);
  activePanel : option string;
  dragState : option DragState;
  resizeState : option ResizeState;
  baseZIndex : Z;
  topZIndex : Z;
  snapThreshold : Q;
  savedStates : option Layout;
  document : list Element;
  guideV : Guide;
  guideH : Guide;
  bodyCursor : string;
  localStorage : option StoredText }.

Definition with_panels p (m : PanelManager) : PanelManager :=
  mkPM p (activePanel m) (dragState m) (resizeState m) (baseZIndex m) (topZIndex m)
       (snapThreshold m) (savedStates m) (document m) (guideV m) (guideH m)
       (bodyCursor m) (localStorage m).
Definition with_activePanel a (m : PanelManager) : PanelManager :=
  mkPM (panels m) a (dragState m) (resizeState m) (baseZIndex m) (topZIndex m)
       (snapThreshold m) (savedStates m) (document m) (guideV m) (guideH m)
       (bodyCursor m) (localStorage m).
Definition with_dragState d (m : PanelManager) : PanelManager :=
  mkPM (panels m) (activePanel m) d (resizeState m) (baseZIndex m) (topZIndex m)
       (snapThreshold m) (savedStates m) (document m) (guideV m) (guideH m)
       (bodyCursor m) (localStorage m).
Definition with_resizeState r (m : PanelManager) : PanelManager :=
  mkPM (panels m) (activePanel m) (dragState m) r (baseZIndex m) (topZIndex m)
       (snapThreshold m) (savedStates m) (document m) (guideV m) (guideH m)
       (bodyCursor m) (localStorage m).
Definition with_topZIndex z (m : PanelManager) : PanelManager :=
  mkPM (panels m) (activePanel m) (dragState m) (resizeState m) (baseZIndex m) z
       (snapThreshold m) (savedStates m) (document m) (guideV m) (guideH m)
       (bodyCursor m) (localStorage m).
Definition with_savedStates sv (m : PanelManager) : PanelManager :=
  mkPM (panels m) (activePanel m) (dragState m) (resizeState m) (baseZIndex m) (topZIndex m)
       (snapThreshold m) sv (document m) (guideV m) (guideH m)
       (bodyCursor m) (localStorage m).
Definition with_document d (m : PanelManager) : PanelManager :=
  mkPM (panels m) (activePanel m) (dragState m) (resizeState m) (baseZIndex m) (topZIndex m)
       (snapThreshold m) (savedStates m) d (guideV m) (guideH m)
       (bodyCursor m) (localStorage m).
Definition with_guideV g (m : PanelManager) : PanelManager :=
  mkPM (panels m) (activePanel m) (dragState m) (resizeState m) (baseZIndex m) (topZIndex m)
       (snapThreshold m) (savedStates m) (document m) g (guideH m)
       (bodyCursor m) (localStorage m).
Definition with_guideH g (m : PanelManager) : PanelManager :=
  mkPM (panels m) (activePanel m) (dragState m) (resizeState m) (baseZIndex m) (topZIndex m)
       (snapThreshold m) (savedStates m) (document m) (guideV m) g
       (bodyCursor m) (localStorage m).
Definition with_bodyCursor c (m : PanelManager) : PanelManager :=
  mkPM (panels m) (activePanel m) (dragState m) (resizeState m) (baseZIndex m) (topZIndex m)
       (snapThreshold m) (savedStates m) (document m) (guideV m) (guideH m)
       c (localStorage m).
Definition with_localStorage l (m : PanelManager) : PanelManager :=
  mkPM (panels m) (activePanel m) (dragState m) (resizeState m) (baseZIndex m) (topZIndex m)
       (snapThreshold m) (savedStates m) (document m) (guideV m) (guideH m)
       (bodyCursor m) l.

(** [el.f(...)] on the element behind a reference. *)
Definition update_element (f : Element -> Element) (r : ElementRef)
    (m : PanelManager) : PanelManager :=
  with_document (alter f r (document m)) m.

(** How a call ends: it returns, or a [TypeError] escapes it; either way the
    mutations made so far stay. *)
Inductive Outcome :=
| Returns (m : PanelManager)
| Throws (m : PanelManager).

Definition final (o : Outcome) : PanelManager :=
  match o with Returns m => m | Throws m => m end.

(** What [calculateSnap] returns. *)
Record Snap := mkSnap {
  snapX : Q; snapY : Q; snappedV : bool; snappedH : bool;
  snapPosV : Q; snapPosH : Q }.

(** The three assignments in the body of a horizontal-axis rule. *)
Definition snap_x (x pos : Q) (r : Snap) : Snap :=
  mkSnap x (snapY r) true (snappedH r) pos (snapPosH r).

(** The three assignments in the body of a vertical-axis rule. *)
Definition snap_y (y pos : Q) (r : Snap) : Snap :=
  mkSnap (snapX r) y (snappedV r) true (snapPosV r) pos.

(** [if (c) { body }] *)
Definition when {A} (c : bool) (body : A -> A) (a : A) : A :=
  if c then body a else a.

(** The [config] argument of [createPanel]; [None] is a property left
    [undefined].  [icon] and [content] only reach the element's markup. *)
Record Config := mkConfig {
  c_id : string; c_title : string;
  c_x : option Q; c_y : option Q; c_width : option Q; c_height : option Q;
  c_minWidth : option Q; c_minHeight : option Q;
  c_resizable : option bool; c_closable : option bool }.

Section Engine.

(** [document.getElementById('workspace').getBoundingClientRect()] *)
Variable workspaceRect : DOMRect.

(** [el.getBoundingClientRect()] for a panel element, as the browser lays
    it out from its inline style and classes. *)
Variable getBoundingClientRect : Element -> DOMRect.

Local Open Scope Q_scope.

(** *** Snapping *)

(** The body of the [forEach] callback of [calculateSnap]. *)
Definition snap_to_panel (doc : list Element) (thr : Q) (panelId : string)
    (newX newY width height : Q) (r : Snap) (entry : string * PanelData) : Snap :=
  let '(id, data) := entry in
  if String.eqb id panelId then r else
  match doc !! element data with
  | None => r
  | Some el =>
    if hidden (classList el) || maximizedClass (classList el) then r else
    let rect := getBoundingClientRect el in
    let pLeft := rect_left rect - rect_left workspaceRect in
    let pTop := rect_top rect - rect_top workspaceRect in
    let pRight := pLeft + rect_width rect in
    let pBottom := pTop + rect_height rect in
    let r := when (Qltb (Math_abs (newX - pRight)) thr) (snap_x pRight pRight) r in
    let r := when (Qltb (Math_abs (newX + width - pLeft)) thr) (snap_x (pLeft - width) pLeft) r in
    let r := when (Qltb (Math_abs (newX - pLeft)) thr) (snap_x pLeft pLeft) r in
    let r := when (Qltb (Math_abs (newX + width - pRight)) thr) (snap_x (pRight - width) pRight) r in
    let r := when (Qltb (Math_abs (newY - pBottom)) thr) (snap_y pBottom pBottom) r in
    let r := when (Qltb (Math_abs (newY + height - pTop)) thr) (snap_y (pTop - height) pTop) r in
    let r := when (Qltb (Math_abs (newY - pTop)) thr) (snap_y pTop pTop) r in
    let r := when (Qltb (Math_abs (newY + height - pBottom)) thr) (snap_y (pBottom - height) pBottom) r in
    r
  end.

Definition calculateSnap (m : PanelManager) (panelId : string)
    (newX newY width height : Q) : Snap :=
  let wW := rect_width workspaceRect in
  let wH := rect_height workspaceRect in
  let thr := snapThreshold m in
  let r := mkSnap newX newY false false 0 0 in
  let r := when (Qltb (Math_abs newX) thr) (snap_x 0 0) r in
  let r := when (Qltb (Math_abs (newX + width - wW)) thr) (snap_x (wW - width) wW) r in
  let r := when (Qltb (Math_abs newY) thr) (snap_y 0 0) r in
  let r := when (Qltb (Math_abs (newY + height - wH)) thr) (snap_y (wH - height) wH) r in
  fold_left (snap_to_panel (document m) thr panelId newX newY width height) (panels m) r.

Definition showSnapGuide_vertical (position : Q) (m : PanelManager) : PanelManager :=
  with_guideV (mkGuide true (Some position)) m.
Definition showSnapGuide_horizontal (position : Q) (m : PanelManager) : PanelManager :=
  with_guideH (mkGuide true (Some position)) m.
Definition hide_guideV (m : PanelManager) : PanelManager :=
  with_guideV (mkGuide false (guidePos (guideV m))) m.
Definition hide_guideH (m : PanelManager) : PanelManager :=
  with_guideH (mkGuide false (guidePos (guideH m))) m.
Definition hideSnapGuides (m : PanelManager) : PanelManager :=
  hide_guideH (hide_guideV m).

(** *** Persistence *)

Definition savePanelStates (m : PanelManager) : PanelManager :=
  let states :=
    fold_left (fun (states : Layout) (entry : string * PanelData) =>
      let '(id, data) := entry in
      match document m !! element data with
      | None => states
      | Some el =>
        let rect := getBoundingClientRect el in
        Obj_set states id
          (mkSaved (parseInt_px (left_px (style el)))
                   (parseInt_px (top_px (style el)))
                   (rect_width rect) (rect_height rect)
                   (minimized (state data)) (maximized (state data)))
      end) (panels m) [] in
  with_localStorage (Some (Json states)) m.

Definition loadPanelStates (m : PanelManager) : PanelManager :=
  match localStorage m with
  | Some (Json saved) => with_savedStates (Some saved) m
  | Some Unparsable => m
  | None => m
  end.

(** [this.savedStates?.[id]]: the own property, or else what
    [Object.prototype] has under that name. *)
Definition getSavedState (m : PanelManager) (id : string) : option SavedValue :=
  match savedStates m with
  | Some saved =>
      match Map_get saved id with
      | Some sv => Some (Entry sv)
      | None =>
          if existsb (String.eqb id) Object_prototype then Some (Inherited id)
          else None
      end
  | None => None
  end.

(** [new PanelManager()], in a page whose storage item is [storage] and
    that has the workspace container. *)
Definition new_PanelManager (storage : option StoredText) : PanelManager :=
  loadPanelStates
    (mkPM [] None None None 100%Z 100%Z 15 None []
          (mkGuide false None) (mkGuide false None) "" storage).

(** *** Panels *)

Definition createPanel (m : PanelManager) (cfg : Config) : PanelManager * ElementRef :=
  let id := c_id cfg in
  let x := nullish (c_x cfg) 100 in
  let y := nullish (c_y cfg) 100 in
  let width := nullish (c_width cfg) 300 in
  let height := nullish (c_height cfg) 400 in
  let minWidth := nullish (c_minWidth cfg) 200 in
  let minHeight := nullish (c_minHeight cfg) 150 in
  let resizable := nullish (c_resizable cfg) true in
  let closable := nullish (c_closable cfg) true in
  let panel := mkElement id (mkBounds x y width height) None
                 (mkClassList false false false false false) resizable true in
  let ref := length (document m) in
  let m := with_document (document m ++ [panel]) m in
  let m := with_panels
             (Map_set (panels m) id
                (mkPanelData ref
                   (mkPanelConfig id (c_title cfg) minWidth minHeight resizable closable)
                   (mkPanelState false false None))) m in
  (m, ref).

(** [this.panels.forEach((data) => data.element.classList.remove('focused'))] *)
Definition unfocus_all (ps : list (string * PanelData)) (doc : list Element)
    : list Element :=
  fold_left (fun d (entry : string * PanelData) =>
               alter (set_focused false) (element (snd entry)) d) ps doc.

Definition focusPanel (m : PanelManager) (id : string) : PanelManager :=
  let m := with_document (unfocus_all (panels m) (document m)) m in
  match Map_get (panels m) id with
  | Some panelData =>
    let m := with_topZIndex (topZIndex m + 1)%Z m in
    let m := update_element (with_zIndex (topZIndex m)) (element panelData) m in
    let m := update_element (set_focused true) (element panelData) m in
    with_activePanel (Some id) m
  | None => m
  end.

Definition minimizePanel (m : PanelManager) (id : string) : PanelManager :=
  match Map_get (panels m) id with
  | None => m
  | Some panelData =>
    let m := update_element (set_hidden true) (element panelData) m in
    with_panels
      (Map_set (panels m) id
         (with_state (mkPanelState true (maximized (state panelData))
                        (prevBounds (state panelData))) panelData)) m
  end.

(** The host notification [panelresize] dispatched at the end reaches only
    the listeners of the host and is not part of the engine state. *)
Definition toggleMaximize (m : PanelManager) (id : string) : Outcome :=
  match Map_get (panels m) id with
  | None => Returns m
  | Some panelData =>
    let panel := element panelData in
    if maximized (state panelData) then
      match prevBounds (state panelData) with
      | None => Throws m
      | Some prev =>
        let m := update_element (with_style prev) panel m in
        let m := update_element (set_maximizedClass false) panel m in
        Returns (with_panels
                   (Map_set (panels m) id
                      (with_state (mkPanelState (minimized (state panelData)) false
                                     (prevBounds (state panelData))) panelData)) m)
      end
    else
      match document m !! panel with
      | None => Returns m
      | Some el =>
        let m := update_element (set_maximizedClass true) panel m in
        Returns (with_panels
                   (Map_set (panels m) id
                      (with_state (mkPanelState (minimized (state panelData)) true
                                     (Some (style el))) panelData)) m)
      end
  end.

Definition closePanel (m : PanelManager) (id : string) : PanelManager :=
  match Map_get (panels m) id with
  | None => m
  | Some panelData =>
    let m := update_element removed (element panelData) m in
    let m := with_panels (Map_delete (panels m) id) m in
    savePanelStates m
  end.

Definition showPanel (m : PanelManager) (id : string) : PanelManager :=
  match Map_get (panels m) id with
  | None => m
  | Some panelData =>
    let m := update_element (set_hidden false) (element panelData) m in
    let m := with_panels
               (Map_set (panels m) id
                  (with_state (mkPanelState false (maximized (state panelData))
                                 (prevBounds (state panelData))) panelData)) m in
    focusPanel m id
  end.

Definition getPanel (m : PanelManager) (id : string) : option PanelData :=
  Map_get (panels m) id.

(** *** Dragging and resizing *)

Definition startDrag (m : PanelManager) (ev : MouseEvent) (panel : ElementRef)
    (id : string) : PanelManager :=
  let m := focusPanel m id in
  match document m !! panel with
  | None => m
  | Some el =>
    let rect := getBoundingClientRect el in
    let workspace := workspaceRect in
    let m := with_dragState
               (Some (mkDrag panel id (clientX ev) (clientY ev)
                        (rect_left rect - rect_left workspace)
                        (rect_top rect - rect_top workspace)
                        (rect_width rect) (rect_height rect))) m in
    let m := with_bodyCursor "move" m in
    update_element (set_dragging true) panel m
  end.

(** [panelData.config] raises a [TypeError] when the id is not registered,
    after [focusPanel] has run and before [this.resizeState] is assigned. *)
Definition startResize (m : PanelManager) (ev : MouseEvent) (panel : ElementRef)
    (id : string) (direction : Direction) : Outcome :=
  let m := focusPanel m id in
  match document m !! panel with
  | None => Returns m
  | Some el =>
    let rect := getBoundingClientRect el in
    let workspace := workspaceRect in
    match Map_get (panels m) id with
    | None => Throws m
    | Some panelData =>
      let m := with_resizeState
                 (Some (mkResize panel id direction (clientX ev) (clientY ev)
                          (rect_left rect - rect_left workspace)
                          (rect_top rect - rect_top workspace)
                          (rect_width rect) (rect_height rect)
                          (minWidth (config panelData))
                          (minHeight (config panelData)))) m in
      Returns (update_element (set_resizing true) panel m)
    end
  end.

Definition handleDrag (m : PanelManager) (ds : DragState) (ev : MouseEvent)
    : PanelManager :=
  let dx := clientX ev - drag_startX ds in
  let dy := clientY ev - drag_startY ds in
  let newX := drag_startLeft ds + dx in
  let newY := drag_startTop ds + dy in
  let snap := calculateSnap m (drag_id ds) newX newY (drag_width ds) (drag_height ds) in
  let newX := snapX snap in
  let newY := snapY snap in
  let m := if snappedV snap then showSnapGuide_vertical (snapPosV snap) m
           else hide_guideV m in
  let m := if snappedH snap then showSnapGuide_horizontal (snapPosH snap) m
           else hide_guideH m in
  update_element (set_left_top newX newY) (drag_panel ds) m.

(** The new rectangle [handleResize] computes, as
    [(newLeft, newTop, newWidth, newHeight)]. *)
Definition resize_bounds (rs : ResizeState) (ev : MouseEvent) : Bounds :=
  let direction := direction_name (rs_direction rs) in
  let dx := clientX ev - rs_startX rs in
  let dy := clientY ev - rs_startY rs in
  let newLeft := rs_startLeft rs in
  let newTop := rs_startTop rs in
  let newWidth := rs_startWidth rs in
  let newHeight := rs_startHeight rs in
  let newWidth :=
    if includes direction "e" then Math_max (rs_minWidth rs) (rs_startWidth rs + dx)
    else newWidth in
  let '(newWidth, newLeft) :=
    if includes direction "w" then
      let newWidth := Math_max (rs_minWidth rs) (rs_startWidth rs - dx) in
      (newWidth, if Qltb (rs_minWidth rs) newWidth then rs_startLeft rs + dx else newLeft)
    else (newWidth, newLeft) in
  let newHeight :=
    if includes direction "s" then Math_max (rs_minHeight rs) (rs_startHeight rs + dy)
    else newHeight in
  let '(newHeight, newTop) :=
    if includes direction "n" then
      let newHeight := Math_max (rs_minHeight rs) (rs_startHeight rs - dy) in
      (newHeight, if Qltb (rs_minHeight rs) newHeight then rs_startTop rs + dy else newTop)
    else (newHeight, newTop) in
  mkBounds newLeft newTop newWidth newHeight.

(** The [panelresize] notification carries [newWidth] and [newHeight] to
    the host; it is not part of the engine state. *)
Definition handleResize (m : PanelManager) (rs : ResizeState) (ev : MouseEvent)
    : PanelManager :=
  update_element (with_style (resize_bounds rs ev)) (rs_panel rs) m.

Definition handleMouseMove (m : PanelManager) (ev : MouseEvent) : PanelManager :=
  match dragState m with
  | Some ds => handleDrag m ds ev
  | None =>
    match resizeState m with
    | Some rs => handleResize m rs ev
    | None => m
    end
  end.

Definition handleMouseUp (m : PanelManager) : PanelManager :=
  let m :=
    match dragState m with
    | Some ds =>
      let m := with_bodyCursor "" m in
      let m := update_element (set_dragging false) (drag_panel ds) m in
      let m := hideSnapGuides m in
      savePanelStates m
    | None => m
    end in
  let m :=
    match resizeState m with
    | Some rs =>
      let m := update_element (set_resizing false) (rs_panel rs) m in
      savePanelStates m
    | None => m
    end in
  let m := with_dragState None m in
  with_resizeState None m.

(** *** A widget that creates its panel: [CodeEditor.createPanel] *)

Definition CodeEditor_createPanel (innerWidth : Q) (m : PanelManager)
    : PanelManager * ElementRef :=
  let saved := getSavedState m "code-editor-panel" in
  createPanel m
    (mkConfig "code-editor-panel" "Code Editor"
       (Some (nullish (optional_chain saved_x saved) (innerWidth - 560)))
       (Some (nullish (optional_chain saved_y saved) 50))
       (Some (nullish (optional_chain saved_width saved) 450))
       (Some (nullish (optional_chain saved_height saved) 500))
       (Some 350) (Some 250) None None).

(** The copy of the class that has the validation toolbar asks for another
    default rectangle and minimum size. *)
Definition CodeEditor_createPanel_alt (innerWidth : Q) (m : PanelManager)
    : PanelManager * ElementRef :=
  let saved := getSavedState m "code-editor-panel" in
  createPanel m
    (mkConfig "code-editor-panel" "Code Editor"
       (Some (nullish (optional_chain saved_x saved) (innerWidth - 500)))
       (Some (nullish (optional_chain saved_y saved) 50))
       (Some (nullish (optional_chain saved_width saved) 480))
       (Some (nullish (optional_chain saved_height saved) 520))
       (Some 380) (Some 300) None None).

(** *** What can happen to an engine

    The public operations may be called with any argument at any time.
    The listeners installed by [attachPanelEvents] are bound to one element
    and to the id it was created with; the browser runs them for elements
    that are in the page.  [mousemove] and [mouseup] are heard on the
    document. *)
Inductive Action :=
| CreatePanel (cfg : Config)
| ClosePanel (id : string)
| ShowPanel (id : string)
| MinimizePanel (id : string)
| ToggleMaximize (id : string)
| FocusPanel (id : string)
| SavePanelStates
| LoadPanelStates
| HeaderMouseDown (ev : MouseEvent) (panel : ElementRef)
| HandleMouseDown (ev : MouseEvent) (panel : ElementRef) (direction : Direction)
| PanelMouseDown (panel : ElementRef)
| MouseMove (ev : MouseEvent)
| MouseUp.

(** May the browser deliver the action in this state? *)
Definition enabled (m : PanelManager) (a : Action) : Prop :=
  match a with
  | HeaderMouseDown _ panel | PanelMouseDown panel =>
      exists el, document m !! panel = Some el /\ inPage el = true
  | HandleMouseDown _ panel _ =>
      exists el, document m !! panel = Some el /\ inPage el = true
                 /\ hasHandles el = true
  | _ => True
  end.

(** The id a listener of [attachPanelEvents] is bound to. *)
Definition bound_id (m : PanelManager) (panel : ElementRef) : string :=
  match document m !! panel with
  | Some el => el_id el
  | None => ""
  end.

Definition perform (m : PanelManager) (a : Action) : Outcome :=
  match a with
  | CreatePanel cfg => Returns (fst (createPanel m cfg))
  | ClosePanel id => Returns (closePanel m id)
  | ShowPanel id => Returns (showPanel m id)
  | MinimizePanel id => Returns (minimizePanel m id)
  | ToggleMaximize id => toggleMaximize m id
  | FocusPanel id => Returns (focusPanel m id)
  | SavePanelStates => Returns (savePanelStates m)
  | LoadPanelStates => Returns (loadPanelStates m)
  | HeaderMouseDown ev panel =>
      (* the header listener, then the panel listener as the event bubbles *)
      let id := bound_id m panel in
      Returns (focusPanel (startDrag m ev panel id) id)
  | HandleMouseDown ev panel direction =>
      (* [stopPropagation]: the panel listener does not run *)
      startResize m ev panel (bound_id m panel) direction
  | PanelMouseDown panel => Returns (focusPanel m (bound_id m panel))
  | MouseMove ev => Returns (handleMouseMove m ev)
  | MouseUp => Returns (handleMouseUp m)
  end.

(** The states an engine goes through from its construction on, when the
    actions it receives are those [allowed] says. *)
Inductive reachable_by (allowed : PanelManager -> Action -> Prop)
    (storage : option StoredText) : PanelManager -> Prop :=
| reach_new : reachable_by allowed storage (new_PanelManager storage)
| reach_step m a :
    reachable_by allowed storage m -> allowed m a ->
    reachable_by allowed storage (final (perform m a)).

Definition reachable := reachable_by enabled.

(** Runs a script of actions. *)
Definition run (m : PanelManager) (script : list Action) : PanelManager :=
  fold_left (fun m a => final (perform m a)) script m.

End Engine.

(** ** A concrete page

    The layout of a page without style rules for the panel classes: an
    element is rendered at its inline rectangle, inside the workspace. *)
Definition inline_layout (workspace : DOMRect) (el : Element) : DOMRect :=
  mkRect (rect_left workspace + left_px (style el))
         (rect_top workspace + top_px (style el))
         (width_px (style el)) (height_px (style el)).

(** The layout of a page whose style sheet takes a [hidden] panel out of
    the flow and gives a [maximized] panel the rectangle of the workspace. *)
Definition stylesheet_layout (workspace : DOMRect) (el : Element) : DOMRect :=
  if hidden (classList el) then mkRect 0 0 0 0
  else if maximizedClass (classList el) then workspace
  else inline_layout workspace el.

(** A workspace of 1000 x 800 whose corner is the corner of the viewport. *)
Definition workspace_1000x800 : DOMRect := mkRect 0 0 1000 800.

(** ** Predicates on engine states *)

(** The panels of the registry, as [forEach] visits them. *)
Definition registered (m : PanelManager) (id : string) (data : PanelData) : Prop :=
  (id, data) ∈ panels m.

(** The registry and the page fit together: ids are unique, the element of
    each panel exists and carries the panel's id, no element is stacked
    above [topZIndex], a maximized panel has saved bounds, and a resize
    session points to an existing element. *)
Record consistent (ps : list (string * PanelData)) (doc : list Element)
    (top : Z) (rs : option ResizeState) : Prop := mkConsistent {
  ids_unique : NoDup ps.*1;
  elements_exist : forall id data, (id, data) ∈ ps ->
      exists el, doc !! element data = Some el /\ el_id el = id;
  zIndex_below_top : forall r el z,
      doc !! r = Some el -> zIndex el = Some z -> (z <= top)%Z;
  maximized_has_prevBounds : forall id data, (id, data) ∈ ps ->
      maximized (state data) = true -> is_Some (prevBounds (state data));
  resize_element_exists : forall r, rs = Some r -> (rs_panel r < length doc)%nat }.

Definition wf (m : PanelManager) : Prop :=
  consistent (panels m) (document m) (topZIndex m) (resizeState m).

(** *** Minimum size *)

(** A rectangle respects the minimum size of a panel. *)
Definition fits (c : PanelConfig) (b : Bounds) : Prop :=
  (minWidth c <= width_px b)%Q /\ (minHeight c <= height_px b)%Q.

(** The panel [id0], and every rectangle saved for it, respects its minimum
    size; a resize session on it knows its minimum size and started from a
    size that respects it. *)
Record sized (id0 : string) (ps : list (string * PanelData)) (doc : list Element)
    (rs : option ResizeState) : Prop := mkSized {
  panel_fits : forall data el, (id0, data) ∈ ps ->
      doc !! element data = Some el -> fits (config data) (style el);
  prevBounds_fit : forall data b, (id0, data) ∈ ps ->
      prevBounds (state data) = Some b -> fits (config data) b;
  resize_fits : forall r data, rs = Some r -> (id0, data) ∈ ps ->
      element data = rs_panel r ->
      rs_minWidth r = minWidth (config data) /\
      rs_minHeight r = minHeight (config data) /\
      (rs_minWidth r <= rs_startWidth r)%Q /\
      (rs_minHeight r <= rs_startHeight r)%Q }.

Definition min_size_holds (id0 : string) (m : PanelManager) : Prop :=
  sized id0 (panels m) (document m) (resizeState m).

(** The minimum size [createPanel] gives the panel is not negative, and the
    size it gives it is at least that minimum, defaults included. *)
Definition config_fits (cfg : Config) : Prop :=
  (0 <= nullish (c_minWidth cfg) 200)%Q /\
  (0 <= nullish (c_minHeight cfg) 150)%Q /\
  (nullish (c_minWidth cfg) 200 <= nullish (c_width cfg) 300)%Q /\
  (nullish (c_minHeight cfg) 150 <= nullish (c_height cfg) 400)%Q.

(** The page renders the element no smaller than its inline size. *)
Definition renders_no_smaller (getBoundingClientRect : Element -> DOMRect)
    (el : Element) : Prop :=
  (width_px (style el) <= rect_width (getBoundingClientRect el))%Q /\
  (height_px (style el) <= rect_height (getBoundingClientRect el))%Q.

(** What is asked of the host for the panel [id]: [createPanel] is called for
    this id with a size that fits, and a resize handle of the panel is
    pressed only while the page renders the panel, as [startResize] finds
    it, no smaller than its inline size. *)
Definition enabled_sized (getBoundingClientRect : Element -> DOMRect)
    (id : string) (m : PanelManager) (a : Action) : Prop :=
  enabled m a /\
  match a with
  | CreatePanel cfg => c_id cfg = id -> config_fits cfg
  | HandleMouseDown _ panel _ =>
      bound_id m panel = id ->
      forall el, document (focusPanel m id) !! panel = Some el ->
                 renders_no_smaller getBoundingClientRect el
  | _ => True
  end.

(** *** Panels that are never maximized *)

(** Actions of a host that never calls [toggleMaximize] with the id. *)
Definition never_toggles (id : string) (m : PanelManager) (a : Action) : Prop :=
  enabled m a /\ a <> ToggleMaximize id.

(** *** Sessions *)

Definition idle (m : PanelManager) : Prop :=
  dragState m = None /\ resizeState m = None.

Definition exclusive (m : PanelManager) : Prop :=
  dragState m = None \/ resizeState m = None.

Definition starts_session (a : Action) : bool :=
  match a with
  | HeaderMouseDown _ _ | HandleMouseDown _ _ _ => true
  | _ => false
  end.

(** Actions of a host that presses a button on a panel only while no
    session is under way. *)
Definition enabled_one_press (m : PanelManager) (a : Action) : Prop :=
  enabled m a /\ (starts_session a = true -> idle m).

(** *** The snap rules, as the specification words them

    A rule compares the distance between two edges with the threshold and,
    when it matches, moves the panel along one axis and places a guide. *)
Inductive Axis := AxisX | AxisY.

Record SnapRule := mkRule {
  rule_axis : Axis; rule_gap : Q; rule_snap : Q; rule_guide : Q }.

Definition on_axis (a : Axis) (r : SnapRule) : bool :=
  match a, rule_axis r with
  | AxisX, AxisX | AxisY, AxisY => true
  | _, _ => false
  end.

Definition rule_matches (thr : Q) (r : SnapRule) : bool :=
  Qltb (Math_abs (rule_gap r)) thr.

Section SnapRules.
Variable workspaceRect : DOMRect.
Variable getBoundingClientRect : Element -> DOMRect.
Variables newX newY width height : Q.
Local Open Scope Q_scope.

(** workspace-left, workspace-right, workspace-top, workspace-bottom *)
Definition workspace_rules : list SnapRule :=
  let wW := rect_width workspaceRect in
  let wH := rect_height workspaceRect in
  [ mkRule AxisX newX 0 0;
    mkRule AxisX (newX + width - wW) (wW - width) wW;
    mkRule AxisY newY 0 0;
    mkRule AxisY (newY + height - wH) (wH - height) wH ].

(** For a sibling with the given edges: left to right, right to left, left
    to left, right to right, then top to bottom, bottom to top, top to top,
    bottom to bottom. *)
Definition sibling_rules (edges : Q * Q * Q * Q) : list SnapRule :=
  let '(pLeft, pTop, pRight, pBottom) := edges in
  [ mkRule AxisX (newX - pRight) pRight pRight;
    mkRule AxisX (newX + width - pLeft) (pLeft - width) pLeft;
    mkRule AxisX (newX - pLeft) pLeft pLeft;
    mkRule AxisX (newX + width - pRight) (pRight - width) pRight;
    mkRule AxisY (newY - pBottom) pBottom pBottom;
    mkRule AxisY (newY + height - pTop) (pTop - height) pTop;
    mkRule AxisY (newY - pTop) pTop pTop;
    mkRule AxisY (newY + height - pBottom) (pBottom - height) pBottom ].

(** The edges of the panels that are snap targets for the panel [panelId],
    in registry order: the other panels that are neither hidden nor
    maximized. *)
Definition sibling_edges (m : PanelManager) (panelId : string)
    : list (Q * Q * Q * Q) :=
  omap (fun entry : string * PanelData =>
          if String.eqb (fst entry) panelId then None else
          match document m !! element (snd entry) with
          | None => None
          | Some el =>
            if hidden (classList el) || maximizedClass (classList el) then None else
            let rect := getBoundingClientRect el in
            let pLeft := rect_left rect - rect_left workspaceRect in
            let pTop := rect_top rect - rect_top workspaceRect in
            Some (pLeft, pTop, pLeft + rect_width rect, pTop + rect_height rect)
          end) (panels m).

(** All the rules, in the order they are evaluated. *)
Definition snap_rules (m : PanelManager) (panelId : string) : list SnapRule :=
  workspace_rules ++ flat_map sibling_rules (sibling_edges m panelId).

(** The last rule of the list that matches on the axis. *)
Definition last_match (thr : Q) (a : Axis) (rules : list SnapRule)
    : option SnapRule :=
  last (List.filter (fun r => on_axis a r && rule_matches thr r) rules).

(** The snap result when, on each axis, the last matching rule decides. *)
Definition last_match_wins (thr : Q) (rules : list SnapRule) : Snap :=
  let hx := last_match thr AxisX rules in
  let hy := last_match thr AxisY rules in
  mkSnap (from_option rule_snap newX hx) (from_option rule_snap newY hy)
         (bool_decide (is_Some hx)) (bool_decide (is_Some hy))
         (from_option rule_guide 0 hx) (from_option rule_guide 0 hy).
End SnapRules.

(** *** Element updates that keep the page consistent *)

(** [f] keeps the id of an element and does not stack it above [top]. *)
Definition tame (top : Z) (f : Element -> Element) : Prop :=
  forall el, el_id (f el) = el_id el /\
             forall z, zIndex (f el) = Some z -> zIndex el = Some z \/ (z <= top)%Z.

(** One rule applied to the running result: the [if] of the rule. *)
Definition apply_rule (thr : Q) (r : Snap) (rule : SnapRule) : Snap :=
  when (rule_matches thr rule)
       (match rule_axis rule with
        | AxisX => snap_x (rule_snap rule) (rule_guide rule)
        | AxisY => snap_y (rule_snap rule) (rule_guide rule)
        end) r.

(** *** What is persisted for a panel *)

(** The entry [savePanelStates] writes for a panel whose element is [el]. *)
Definition snapshot (getBoundingClientRect : Element -> DOMRect)
    (el : Element) (data : PanelData) : SavedPanel :=
  mkSaved (parseInt_px (left_px (style el))) (parseInt_px (top_px (style el)))
          (rect_width (getBoundingClientRect el))
          (rect_height (getBoundingClientRect el))
          (minimized (state data)) (maximized (state data)).

(** *** The order of the persisted document *)

Definition is_index (k : string) : bool :=
  match array_index k with Some _ => true | None => false end.

(** The order of the own keys of an object: a key that is an array index
    is followed only by array indices that are not smaller and by keys that
    are not array indices; a key that is not an array index is followed only
    by keys that are not array indices. *)
Fixpoint object_order (keys : list string) : Prop :=
  match keys with
  | [] => True
  | k :: rest =>
      match array_index k with
      | Some i =>
          Forall (fun k' => match array_index k' with
                            | Some j => (i <= j)%N
                            | None => True
                            end) rest /\
          object_order rest
      | None => Forall (fun k' => is_index k' = false) rest
      end
  end.

(** An id that [savePanelStates] stores under. *)
Definition stored_id (id : string) : bool := negb (String.eqb id "__proto__").

(** *** Scripts *)

(** Every action of the script is allowed in the state it is performed in. *)
Fixpoint allowed_along (workspaceRect : DOMRect)
    (getBoundingClientRect : Element -> DOMRect)
    (allowed : PanelManager -> Action -> Prop)
    (m : PanelManager) (script : list Action) : Prop :=
  match script with
  | [] => True
  | a :: script =>
      allowed m a /\
      allowed_along workspaceRect getBoundingClientRect allowed
        (final (perform workspaceRect getBoundingClientRect m a)) script
  end.

(** A script played on a fresh engine in the concrete page, with nothing
    in storage. *)
Definition play (script : list Action) : PanelManager :=
  run workspace_1000x800 (inline_layout workspace_1000x800)
      (new_PanelManager None) script.

(** [{ id, title: 'Panel', x, y, width, height }] *)
Definition panel_at (id : string) (x y width height : Q) : Config :=
  mkConfig id "Panel" (Some x) (Some y) (Some width) (Some height)
           None None None None.

(** *** Focus *)

(** A registered panel that carries the [focused] class is the one
    [activePanel] names. *)
Definition focus_follows_active (ps : list (string * PanelData))
    (doc : list Element) (active : option string) : Prop :=
  forall id data el,
    (id, data) ∈ ps -> doc !! element data = Some el ->
    focused (classList el) = true -> active = Some id.

Definition focus_ok (m : PanelManager) : Prop :=
  focus_follows_active (panels m) (document m) (activePanel m).

(** *** Stacking order *)

(** No two elements have the same [zIndex], and every [zIndex] assigned is
    above the base of 100 and at most [topZIndex]. *)
Record stacked (doc : list Element) (top : Z) : Prop := mkStacked {
  stack_distinct : forall r1 r2 el1 el2 z,
      doc !! r1 = Some el1 -> doc !! r2 = Some el2 ->
      zIndex el1 = Some z -> zIndex el2 = Some z -> r1 = r2;
  stack_range : forall r el z,
      doc !! r = Some el -> zIndex el = Some z -> (100 < z <= top)%Z;
  stack_base : (100 <= top)%Z }.

(** *** Registered panels are in the page *)

Definition registered_in_page (ps : list (string * PanelData))
    (doc : list Element) : Prop :=
  forall id data el,
    (id, data) ∈ ps -> doc !! element data = Some el -> inPage el = true.

(** *** Feedback of a drag *)

(** The [move] cursor is set exactly while a drag session is active, and
    outside a drag session both guide lines are hidden. *)
Definition drag_feedback (m : PanelManager) : Prop :=
  match dragState m with
  | Some _ => bodyCursor m = "move"
  | None =>
      bodyCursor m = "" /\
      visible (guideV m) = false /\ visible (guideH m) = false
  end.

(** *** Actions that move a panel *)

(** The action writes the rectangle of the element [r]: a pointer move
    writes that of the session it serves, and [toggleMaximize] that of the
    maximized panel it restores. *)
Definition writes_geometry (m : PanelManager) (a : Action) (r : ElementRef) : Prop :=
  match a with
  | MouseMove _ =>
      match dragState m with
      | Some ds => r = drag_panel ds
      | None =>
        match resizeState m with
        | Some rs => r = rs_panel rs
        | None => False
        end
      end
  | ToggleMaximize id =>
      exists data, Map_get (panels m) id = Some data /\ r = element data /\
                   maximized (state data) = true
  | _ => False
  end.

(** Every element of [doc] is in [doc'] with the same id and rectangle. *)
Definition keeps_boxes (doc doc' : list Element) : Prop :=
  forall r el, doc !! r = Some el ->
    exists el', doc' !! r = Some el' /\ el_id el' = el_id el /\ style el' = style el.

(** *** The element of a drag session *)

(** Every element of [doc] is in [doc'] with the same id. *)
Definition keeps_ids (doc doc' : list Element) : Prop :=
  forall r el, doc !! r = Some el ->
    exists el', doc' !! r = Some el' /\ el_id el' = el_id el.

(** A drag session is on an existing element and is bound to its id. *)
Definition drag_bound (m : PanelManager) : Prop :=
  forall ds, dragState m = Some ds ->
    exists el, document m !! drag_panel ds = Some el /\ el_id el = drag_id ds.

(** ** The callers of the engine *)

(** [Math.min(a, b)]. *)
Definition Math_min (a b : Q) : Q := Qmin a b.

(** *** [OrbryaEngine.createViewportPanel] (main.js)

    The factors [0.5] and [0.8] are the rationals 1/2 and 4/5. *)
Definition createViewportPanel (workspaceRect : DOMRect) (m : PanelManager)
    : PanelManager :=
  let saved := getSavedState m "viewport-panel" in
  let defaultWidth := Math_min 800 (rect_width workspaceRect * (1 # 2)) in
  let defaultHeight := Math_min 600 (rect_height workspaceRect * (4 # 5)) in
  let defaultX := ((rect_width workspaceRect - defaultWidth) / 2 - 100)%Q in
  let defaultY := ((rect_height workspaceRect - defaultHeight) / 2)%Q in
  fst (createPanel m
         (mkConfig "viewport-panel" "Scene Viewport"
            (Some (nullish (optional_chain saved_x saved) defaultX))
            (Some (nullish (optional_chain saved_y saved) defaultY))
            (Some (nullish (optional_chain saved_width saved) defaultWidth))
            (Some (nullish (optional_chain saved_height saved) defaultHeight))
            (Some 400%Q) (Some 300%Q) None (Some false))).

(** *** The [T] shortcut of [OrbryaEngine.setupKeyboardShortcuts] (main.js) *)

Definition levels : list Q := [25; 50; 100; 175; 300]%Q.

(** [array.indexOf(x)], with [-1] when [x] is not in the array. *)
Fixpoint indexOf (array : list Q) (x : Q) : Z :=
  match array with
  | [] => -1
  | y :: array =>
      if Qeq_bool y x then 0
      else let i := indexOf array x in if (i <? 0)%Z then -1 else (i + 1)
  end%Z.

(** [levels[(idx + 1) % levels.length]]: the tree count the listener passes
    to [spawnTrees] when the scene has [current] trees. *)
Definition next_level (current : Q) : option Q :=
  let idx := indexOf levels current in
  levels !! Z.to_nat (Z.rem (idx + 1) (Z.of_nat (length levels))).

(** The [keydown] listener: what it asks the scene for, if anything, and
    what becomes of the engine.  [contentEditable] is that property of
    [document.activeElement], [None] when the active element has none. *)
Definition keydown (key : string) (contentEditable : option string)
    (current : Q) (m : PanelManager) : option Q * Outcome :=
  let spawnTrees :=
    if String.eqb key "t" || String.eqb key "T" then
      if negb (match contentEditable with
               | Some value => String.eqb value "true"
               | None => false
               end)
      then next_level current
      else None
    else None in
  let outcome :=
    if String.eqb key "F11" then toggleMaximize m "viewport-panel"
    else Returns m in
  (spawnTrees, outcome).

(** *** [VisualProfiler] (VisualProfiler.js) *)

Inductive Metric := metric_fps | metric_memory | metric_drawCalls.

Record Thresholds := mkThresholds { green : Q; yellow : Q }.

(** [this.thresholds[metric]] *)
Definition thresholds (metric : Metric) : Thresholds :=
  match metric with
  | metric_fps => mkThresholds 45 30
  | metric_memory => mkThresholds 300 350
  | metric_drawCalls => mkThresholds 50 80
  end.

Record Health := mkHealth {
  health_class : string; health_icon : string; health_label : string }.

Definition getHealthStatus (metric : Metric) (value : Q) : Health :=
  let t := thresholds metric in
  match metric with
  | metric_fps =>
      if Qle_bool (green t) value then mkHealth "healthy" "✅" "Excellent"
      else if Qle_bool (yellow t) value then mkHealth "warning" "⚠️" "Moderate"
      else mkHealth "critical" "❌" "Poor"
  | _ =>
      if Qltb value (green t) then mkHealth "healthy" "✅" "Good"
      else if Qltb value (yellow t) then mkHealth "warning" "⚠️" "Warning"
      else mkHealth "critical" "❌" "Critical"
  end.

(** How bad a health class is. *)
Definition severity (class : string) : nat :=
  if String.eqb class "healthy" then 0
  else if String.eqb class "warning" then 1
  else 2.

(** The intervals of the page: the handles [setInterval] has given out and
    not yet cleared, and the next handle.  Handles are positive. *)
Record Timers := mkTimers { nextHandle : nat; intervals : list nat }.

Definition setInterval (t : Timers) : Timers * nat :=
  (mkTimers (S (nextHandle t)) (intervals t ++ [nextHandle t]), nextHandle t).

Definition clearInterval (handle : nat) (t : Timers) : Timers :=
  mkTimers (nextHandle t) (List.filter (fun h => negb (h =? handle)%nat) (intervals t)).

(** The fields of a [VisualProfiler] that [show], [hide], [startUpdates] and
    [stopUpdates] read and write: whether [panelManager] is set, the panel
    element, the class [hidden] of the standalone container when there is
    one, [visible] and [updateInterval]. *)
Record VisualProfiler := mkProfiler {
  vp_panelManager : bool;
  vp_panel : option ElementRef;
  vp_container : option bool;
  vp_visible : bool;
  vp_updateInterval : option nat }.

(** [if (this.updateInterval)]: a handle that is neither [null] nor [0]. *)
Definition truthy (handle : option nat) : bool :=
  match handle with
  | Some h => negb (h =? 0)%nat
  | None => false
  end.

(** The engine, the timers of the page and the profiler. *)
Definition ProfilerWorld : Type := PanelManager * Timers * VisualProfiler.

Definition startUpdates (w : ProfilerWorld) : ProfilerWorld :=
  let '(m, t, vp) := w in
  if truthy (vp_updateInterval vp) then w
  else
    let '(t, handle) := setInterval t in
    (m, t, mkProfiler (vp_panelManager vp) (vp_panel vp) (vp_container vp)
                      (vp_visible vp) (Some handle)).

Definition stopUpdates (w : ProfilerWorld) : ProfilerWorld :=
  let '(m, t, vp) := w in
  match vp_updateInterval vp with
  | Some handle =>
      if truthy (Some handle) then
        (m, clearInterval handle t,
         mkProfiler (vp_panelManager vp) (vp_panel vp) (vp_container vp)
                    (vp_visible vp) None)
      else w
  | None => w
  end.

Definition VisualProfiler_show (w : ProfilerWorld) : ProfilerWorld :=
  let '(m, t, vp) := w in
  let vp := mkProfiler (vp_panelManager vp) (vp_panel vp) (vp_container vp)
                       true (vp_updateInterval vp) in
  let '(m, vp) :=
    match vp_panel vp with
    | Some _ =>
        (if vp_panelManager vp then showPanel m "profiler-panel" else m, vp)
    | None =>
        match vp_container vp with
        | Some _ =>
            (m, mkProfiler (vp_panelManager vp) (vp_panel vp) (Some false)
                           (vp_visible vp) (vp_updateInterval vp))
        | None => (m, vp)
        end
    end in
  startUpdates (m, t, vp).

Definition VisualProfiler_hide (w : ProfilerWorld) : ProfilerWorld :=
  let '(m, t, vp) := w in
  let vp := mkProfiler (vp_panelManager vp) (vp_panel vp) (vp_container vp)
                       false (vp_updateInterval vp) in
  let '(m, vp) :=
    match vp_panel vp with
    | Some _ =>
        (if vp_panelManager vp then minimizePanel m "profiler-panel" else m, vp)
    | None =>
        match vp_container vp with
        | Some _ =>
            (m, mkProfiler (vp_panelManager vp) (vp_panel vp) (Some true)
                           (vp_visible vp) (vp_updateInterval vp))
        | None => (m, vp)
        end
    end in
  stopUpdates (m, t, vp).

(** The panel part of [VisualProfiler.createPanel]. *)
Definition VisualProfiler_createPanel (innerWidth : Q) (w : ProfilerWorld)
    : ProfilerWorld :=
  let '(m, t, vp) := w in
  let saved := getSavedState m "profiler-panel" in
  let '(m, panel) :=
    createPanel m
      (mkConfig "profiler-panel" "Performance"
         (Some (nullish (optional_chain saved_x saved) (innerWidth - 280)%Q))
         (Some (nullish (optional_chain saved_y saved) 50%Q))
         (Some (nullish (optional_chain saved_width saved) 260%Q))
         (Some (nullish (optional_chain saved_height saved) 480%Q))
         (Some 220%Q) (Some 300%Q) None None) in
  (m, t, mkProfiler (vp_panelManager vp) (Some panel) (vp_container vp)
                    (vp_visible vp) (vp_updateInterval vp)).

(** What a host does with a profiler. *)
Inductive ProfilerCall := CallShow | CallHide | CallStartUpdates | CallStopUpdates.

Definition profiler_call (w : ProfilerWorld) (c : ProfilerCall) : ProfilerWorld :=
  match c with
  | CallShow => VisualProfiler_show w
  | CallHide => VisualProfiler_hide w
  | CallStartUpdates => startUpdates w
  | CallStopUpdates => stopUpdates w
  end.

(** The interval the profiler holds, as a list. *)
Definition own_interval (vp : VisualProfiler) : list nat :=
  match vp_updateInterval vp with
  | Some handle => [handle]
  | None => []
  end.

(** A sequence of calls on a profiler. *)
Definition profiler_calls (w : ProfilerWorld) (calls : list ProfilerCall)
    : ProfilerWorld :=
  fold_left profiler_call calls w.

(** What holds of the timers and the profiler between calls: the intervals
    of the page are those of the others, [base], followed by the one the
    profiler holds; no handle is given out twice, the handles given out are
    below the next one, and the profiler's is positive. *)
Record timers_ok (base : list nat) (t : Timers) (vp : VisualProfiler)
    : Prop := mkTimersOk {
  next_positive : (0 < nextHandle t)%nat;
  handles_below_next : Forall (fun h => (h < nextHandle t)%nat) (intervals t);
  handles_distinct : NoDup (intervals t);
  intervals_split : intervals t = base ++ own_interval vp;
  own_positive : forall h, vp_updateInterval vp = Some h -> (0 < h)%nat }.

(** *** The console of [CodeEditor] (CodeEditor.js)

    The child nodes of [consoleOutput]: the text between the tags of its
    markup, and the lines. *)
Inductive ConsoleNode :=
| TextNode (text : string)
| ConsoleLine (type message : string).

Definition is_line (node : ConsoleNode) : bool :=
  match node with ConsoleLine _ _ => true | TextNode _ => false end.

(** [consoleOutput.children]: the element children. *)
Definition children (nodes : list ConsoleNode) : list ConsoleNode :=
  List.filter is_line nodes.

(** [while (children.length > 50) removeChild(firstChild)] *)
Fixpoint limit_lines (nodes : list ConsoleNode) : list ConsoleNode :=
  match nodes with
  | [] => []
  | node :: rest =>
      if (50 <? length (children nodes))%nat then limit_lines rest else nodes
  end.

Definition CodeEditor_log (nodes : list ConsoleNode) (type message : string)
    : list ConsoleNode :=
  limit_lines (nodes ++ [ConsoleLine type message]).

(** ** Panels created from the persisted layout *)

(** The rectangle of a persisted entry. *)
Definition saved_bounds (sv : SavedPanel) : Bounds :=
  mkBounds (saved_x sv) (saved_y sv) (saved_width sv) (saved_height sv).

(** The engine has the panel [id] registered with the element [panel], and
    the rectangle of that element is [b]. *)
Definition created_with (m : PanelManager) (panel : ElementRef) (id : string)
    (b : Bounds) : Prop :=
  exists data el,
    Map_get (panels m) id = Some data /\ element data = panel /\
    document m !! panel = Some el /\ style el = b.

(** * Properties *)

(** ** The registry as a map *)

Section JsMapFacts.
Context {V : Type}.
Implicit Types (m : list (string * V)) (k : string) (v : V).

Lemma Map_get_elem_of m k v : Map_get m k = Some v -> (k, v) ∈ m.
Proof.
  induction m as [|[k0 v0] m IH]; simpl; [discriminate|].
  destruct (String.eqb_spec k0 k) as [->|Hne]; intros H.
  - injection H as ->. apply elem_of_cons; by left.
  - apply elem_of_cons; right; auto.
Qed.

Lemma Map_get_None m k : Map_get m k = None <-> k ∉ m.*1.
Proof.
  induction m as [|[k0 v0] m IH]; simpl.
  - split; [intros _; apply not_elem_of_nil | done].
  - rewrite not_elem_of_cons.
    destruct (String.eqb_spec k0 k) as [->|Hne]; split.
    + discriminate.
    + intros [? _]; congruence.
    + intros H; split; [congruence | by apply IH].
    + intros [_ H]; by apply IH.
Qed.

Lemma Map_get_is_Some m k : is_Some (Map_get m k) <-> k ∈ m.*1.
Proof.
  destruct (Map_get m k) as [v|] eqn:H.
  - split; [intros _|by eexists]. apply Map_get_elem_of in H.
    apply list_elem_of_fmap. by exists (k, v).
  - split; [by intros [? ?]|]. intros Hin. by apply Map_get_None in H.
Qed.

Lemma elem_of_Map_get m k v : NoDup m.*1 -> (k, v) ∈ m -> Map_get m k = Some v.
Proof.
  induction m as [|[k0 v0] m IH]; simpl; intros Hnd Hin.
  - by apply elem_of_nil in Hin.
  - apply NoDup_cons in Hnd as [Hk0 Hnd].
    apply elem_of_cons in Hin as [Heq|Hin].
    + injection Heq as -> ->. by rewrite String.eqb_refl.
    + destruct (String.eqb_spec k0 k) as [->|Hne]; [|auto].
      exfalso; apply Hk0. apply list_elem_of_fmap. exists (k, v); auto.
Qed.

Lemma Map_get_set m k v k' :
  Map_get (Map_set m k v) k' = if String.eqb k k' then Some v else Map_get m k'.
Proof.
  induction m as [|[k0 v0] m IH]; simpl.
  - reflexivity.
  - destruct (String.eqb_spec k0 k) as [->|Hne]; simpl.
    + destruct (String.eqb_spec k k'); reflexivity.
    + rewrite IH. destruct (String.eqb_spec k0 k') as [->|];
        destruct (String.eqb_spec k k'); congruence.
Qed.

Lemma Map_get_delete m k k' :
  Map_get (Map_delete m k) k' = if String.eqb k k' then None else Map_get m k'.
Proof.
  induction m as [|[k0 v0] m IH]; simpl.
  - by destruct (String.eqb k k').
  - destruct (String.eqb_spec k0 k) as [->|Hne]; simpl.
    + rewrite IH. destruct (String.eqb_spec k k'); reflexivity.
    + rewrite IH. destruct (String.eqb_spec k0 k') as [->|];
        destruct (String.eqb_spec k k'); congruence.
Qed.

Lemma Map_set_keys m k v :
  (Map_set m k v).*1 = match Map_get m k with Some _ => m.*1 | None => m.*1 ++ [k] end.
Proof.
  induction m as [|[k0 v0] m IH]; [reflexivity|].
  cbn [Map_set Map_get].
  destruct (String.eqb_spec k0 k) as [->|Hne]; [reflexivity|].
  rewrite !fmap_cons, IH. by destruct (Map_get m k).
Qed.

Lemma NoDup_Map_set m k v : NoDup m.*1 -> NoDup (Map_set m k v).*1.
Proof.
  intros Hnd. rewrite Map_set_keys.
  destruct (Map_get m k) eqn:Hget; [done|].
  apply NoDup_app; repeat split; [done| |apply NoDup_singleton].
  intros x Hx Hx'. apply list_elem_of_singleton in Hx' as ->.
  by apply Map_get_None in Hget.
Qed.

Lemma Map_get_insert_index m i k v k' :
  Map_get m k = None ->
  Map_get (Obj_insert_index i k v m) k'
  = if String.eqb k k' then Some v else Map_get m k'.
Proof.
  induction m as [|[k0 v0] m IH]; simpl; intros Hk; [reflexivity|].
  destruct (String.eqb_spec k0 k) as [->|Hne]; [discriminate|].
  destruct (array_index k0) as [j|]; [destruct (j <? i)%N|]; simpl; try reflexivity.
  rewrite IH by done.
  destruct (String.eqb_spec k0 k'), (String.eqb_spec k k'); congruence.
Qed.

Lemma Map_get_Obj_set m k v k' :
  Map_get (Obj_set m k v) k'
  = if String.eqb k "__proto__" then Map_get m k'
    else if String.eqb k k' then Some v else Map_get m k'.
Proof.
  unfold Obj_set. destruct (String.eqb k "__proto__"); [done|].
  destruct (array_index k) as [i|], (Map_get m k) eqn:Hk; try apply Map_get_set.
  by apply Map_get_insert_index.
Qed.

(** Where a new array index goes: after the indices below it. *)
Lemma insert_index_keys m i k v :
  exists before after,
    m.*1 = before ++ after /\
    (Obj_insert_index i k v m).*1 = before ++ k :: after /\
    Forall (fun k0 => exists j, array_index k0 = Some j /\ (j < i)%N) before /\
    match after with
    | [] => True
    | k0 :: _ =>
        match array_index k0 with Some j => (i <= j)%N | None => True end
    end.
Proof.
  induction m as [|[k0 v0] m (before & after & Hm & Hins & Hbefore & Hafter)].
  - by exists [], [].
  - cbn [Obj_insert_index]. destruct (array_index k0) as [j|] eqn:Hk0.
    + destruct (N.ltb_spec j i) as [Hlt|Hge].
      * exists (k0 :: before), after. rewrite !fmap_cons, Hm, Hins. cbn.
        split; [done|]. split; [done|]. split; [|done].
        apply Forall_cons. split; [by exists j|done].
      * exists [], (k0 :: m.*1). cbn. rewrite Hk0. by repeat split.
    + exists [], (k0 :: m.*1). cbn. rewrite Hk0. by repeat split.
Qed.

Lemma Obj_set_keys m k v :
  or ((Obj_set m k v).*1 = m.*1)
     (String.eqb k "__proto__" = false /\ (k ∉ m.*1) /\
      exists before after, m.*1 = before ++ after /\
                           (Obj_set m k v).*1 = before ++ k :: after).
Proof.
  unfold Obj_set. destruct (String.eqb k "__proto__"); [by left|].
  destruct (Map_get m k) eqn:Hk.
  - left. destruct (array_index k); by rewrite Map_set_keys, Hk.
  - right. split; [done|]. split; [by apply Map_get_None|].
    destruct (array_index k) as [i|].
    + destruct (insert_index_keys m i k v) as (before & after & ? & ? & _).
      by exists before, after.
    + exists m.*1, []. by rewrite Map_set_keys, Hk, app_nil_r.
Qed.

Lemma NoDup_Obj_set m k v : NoDup m.*1 -> NoDup (Obj_set m k v).*1.
Proof.
  intros Hnd.
  destruct (Obj_set_keys m k v) as [->|(_ & Hk & before & after & Hm & ->)]; [done|].
  rewrite Hm in Hnd, Hk.
  apply NoDup_app in Hnd as (Hb & Hdis & Ha).
  apply not_elem_of_app in Hk as [Hkb Hka].
  apply NoDup_app. split; [done|]. split.
  - intros x Hx Hx'. apply elem_of_cons in Hx' as [->|Hx']; [done|]. by eapply Hdis.
  - by apply NoDup_cons.
Qed.

Lemma elem_of_Map_delete m k k' v' :
  (k', v') ∈ Map_delete m k -> (k', v') ∈ m /\ k' <> k.
Proof.
  induction m as [|[k0 v0] m IH]; simpl; intros Hin.
  - by apply elem_of_nil in Hin.
  - destruct (String.eqb_spec k0 k) as [->|Hne].
    + destruct (IH Hin). split; [apply elem_of_cons; by right | done].
    + apply elem_of_cons in Hin as [Heq|Hin].
      * injection Heq as -> ->. split; [apply elem_of_cons; by left | done].
      * destruct (IH Hin). split; [apply elem_of_cons; by right | done].
Qed.

Lemma NoDup_Map_delete m k : NoDup m.*1 -> NoDup (Map_delete m k).*1.
Proof.
  induction m as [|[k0 v0] m IH]; simpl; intros Hnd; [done|].
  apply NoDup_cons in Hnd as [Hk0 Hnd].
  destruct (String.eqb_spec k0 k) as [->|Hne]; simpl; [auto|].
  apply NoDup_cons; split; [|auto].
  intros Hin. apply Hk0. apply list_elem_of_fmap in Hin as [[k1 v1] [Heq Hin]].
  simpl in Heq; subst k1. apply elem_of_Map_delete in Hin as [Hin _].
  apply list_elem_of_fmap. exists (k0, v1); auto.
Qed.

Lemma elem_of_Map_set m k v k' v' :
  NoDup m.*1 -> (k', v') ∈ Map_set m k v ->
  (k' = k /\ v' = v) \/ (k' <> k /\ (k', v') ∈ m).
Proof.
  intros Hnd Hin.
  apply (elem_of_Map_get _ _ _ (NoDup_Map_set m k v Hnd)) in Hin.
  rewrite Map_get_set in Hin.
  destruct (String.eqb_spec k k') as [->|Hne].
  - left. by injection Hin as ->.
  - right. split; [congruence | by apply Map_get_elem_of].
Qed.
End JsMapFacts.

(** ** Consistency of the registry with the page *)

Section Consistency.
Implicit Types (ps : list (string * PanelData)) (doc : list Element).
Implicit Types (top : Z) (rs : option ResizeState) (f : Element -> Element).

Lemma lookup_alter_Some f doc r j el' :
  alter f r doc !! j = Some el' ->
  exists el, doc !! j = Some el /\ (el' = el \/ (r = j /\ el' = f el)).
Proof.
  rewrite list_lookup_alter. destruct (decide (r = j)) as [->|Hne].
  - destruct (doc !! j) as [el|]; simpl; [|discriminate].
    intros [= <-]. eauto.
  - intros H. eauto.
Qed.

Lemma lookup_alter_keeps f doc r j el :
  doc !! j = Some el ->
  exists el', alter f r doc !! j = Some el' /\ (el' = el \/ (r = j /\ el' = f el)).
Proof.
  intros H. rewrite list_lookup_alter. destruct (decide (r = j)) as [->|Hne].
  - rewrite H. simpl. eauto.
  - eauto.
Qed.

Lemma tame_weaken top top' f : (top <= top')%Z -> tame top f -> tame top' f.
Proof.
  intros Hle Hf el. destruct (Hf el) as [Hid Hz]. split; [done|].
  intros z Hzf. destruct (Hz z Hzf); [by left | right; lia].
Qed.

Lemma consistent_alter ps doc top rs f r :
  tame top f -> consistent ps doc top rs -> consistent ps (alter f r doc) top rs.
Proof.
  intros Hf [Hnd Hel Hz Hmax Hrs]. split; auto.
  - intros id data Hin. destruct (Hel id data Hin) as (el & Hlook & Hid).
    destruct (lookup_alter_keeps f doc r _ el Hlook) as (el' & Hlook' & [->|[_ ->]]).
    + eauto.
    + exists (f el). split; [done|]. by rewrite (proj1 (Hf el)).
  - intros j el' z Hlook' Hzf.
    destruct (lookup_alter_Some f doc r j el' Hlook') as (el & Hlook & [->|[_ ->]]).
    + eauto.
    + destruct (proj2 (Hf el) z Hzf); [eauto | done].
  - intros r0 Hr0. rewrite length_alter. auto.
Qed.

Lemma consistent_top ps doc top top' rs :
  (top <= top')%Z -> consistent ps doc top rs -> consistent ps doc top' rs.
Proof.
  intros Hle [Hnd Hel Hz Hmax Hrs]. split; auto.
  intros r el z Hlook Hzel. specialize (Hz r el z Hlook Hzel). lia.
Qed.

Lemma consistent_unfocus ps' ps doc top rs :
  consistent ps doc top rs -> consistent ps (unfocus_all ps' doc) top rs.
Proof.
  unfold unfocus_all. revert doc.
  induction ps' as [|entry ps' IH]; simpl; intros doc H; [done|].
  apply IH, consistent_alter; [|done].
  intros el. split; [reflexivity | intros z Hz; by left].
Qed.

Lemma consistent_set_state ps doc top rs id data st :
  Map_get ps id = Some data ->
  (maximized st = true -> is_Some (prevBounds st)) ->
  consistent ps doc top rs ->
  consistent (Map_set ps id (with_state st data)) doc top rs.
Proof.
  intros Hget Hst [Hnd Hel Hz Hmax Hrs]. split; auto.
  - by apply NoDup_Map_set.
  - intros id' data' Hin.
    apply elem_of_Map_set in Hin as [[-> ->]|[_ Hin]]; [|eauto|done].
    apply (Hel id data). by apply Map_get_elem_of.
  - intros id' data' Hin.
    apply elem_of_Map_set in Hin as [[-> ->]|[_ Hin]]; [|eauto|done].
    exact Hst.
Qed.

Lemma consistent_delete ps doc top rs id :
  consistent ps doc top rs -> consistent (Map_delete ps id) doc top rs.
Proof.
  intros [Hnd Hel Hz Hmax Hrs]. split; auto.
  - by apply NoDup_Map_delete.
  - intros id' data' Hin. apply elem_of_Map_delete in Hin as [Hin _]. eauto.
  - intros id' data' Hin. apply elem_of_Map_delete in Hin as [Hin _]. eauto.
Qed.

Lemma consistent_create ps doc top rs id c b cl h :
  consistent ps doc top rs ->
  consistent (Map_set ps id (mkPanelData (length doc) c (mkPanelState false false None)))
             (doc ++ [mkElement id b None cl h true]) top rs.
Proof.
  intros [Hnd Hel Hz Hmax Hrs]. split.
  - by apply NoDup_Map_set.
  - intros id' data' Hin.
    apply elem_of_Map_set in Hin as [[-> ->]|[_ Hin]]; [| |done].
    + exists (mkElement id b None cl h true). split; [|done]. simpl.
      rewrite lookup_app_r; [|lia]. by rewrite Nat.sub_diag.
    + destruct (Hel id' data' Hin) as (el & Hlook & Hid).
      exists el. split; [|done]. by apply lookup_app_l_Some.
  - intros r el z Hlook Hzel.
    apply lookup_app_Some in Hlook as [Hlook|[_ Hlook]]; [eauto|].
    apply list_lookup_singleton_Some in Hlook as [_ <-]. discriminate.
  - intros id' data' Hin.
    apply elem_of_Map_set in Hin as [[-> ->]|[_ Hin]]; [| |done].
    + discriminate.
    + eauto.
  - intros r Hr. rewrite length_app. specialize (Hrs r Hr). simpl. lia.
Qed.

Lemma consistent_resize ps doc top rs r :
  (rs_panel r < length doc)%nat ->
  consistent ps doc top rs -> consistent ps doc top (Some r).
Proof.
  intros Hr [Hnd Hel Hz Hmax Hrs]. split; auto. by intros r0 [= <-].
Qed.

Lemma consistent_no_resize ps doc top rs :
  consistent ps doc top rs -> consistent ps doc top None.
Proof. intros [Hnd Hel Hz Hmax Hrs]. split; auto. discriminate. Qed.
End Consistency.

(** ** The engine keeps the registry consistent *)

Lemma tame_set_focused top v : tame top (set_focused v).
Proof. intros el. split; [reflexivity | intros z Hz; by left]. Qed.
Lemma tame_set_hidden top v : tame top (set_hidden v).
Proof. intros el. split; [reflexivity | intros z Hz; by left]. Qed.
Lemma tame_set_maximizedClass top v : tame top (set_maximizedClass v).
Proof. intros el. split; [reflexivity | intros z Hz; by left]. Qed.
Lemma tame_set_dragging top v : tame top (set_dragging v).
Proof. intros el. split; [reflexivity | intros z Hz; by left]. Qed.
Lemma tame_set_resizing top v : tame top (set_resizing v).
Proof. intros el. split; [reflexivity | intros z Hz; by left]. Qed.
Lemma tame_with_style top b : tame top (with_style b).
Proof. intros el. split; [reflexivity | intros z Hz; by left]. Qed.
Lemma tame_set_left_top top x y : tame top (set_left_top x y).
Proof. intros el. split; [reflexivity | intros z Hz; by left]. Qed.
Lemma tame_removed top : tame top removed.
Proof. intros el. split; [reflexivity | intros z Hz; by left]. Qed.
Lemma tame_with_zIndex top : tame top (with_zIndex top).
Proof. intros el. split; [reflexivity | intros z [= <-]; right; lia]. Qed.

Create HintDb tame.
#[local] Hint Resolve tame_set_focused tame_set_hidden tame_set_maximizedClass
  tame_set_dragging tame_set_resizing tame_with_style tame_set_left_top
  tame_removed tame_with_zIndex : tame.

(** Peels the element updates and state updates off a consistency goal. *)
Ltac consistency :=
  repeat first
    [ assumption
    | apply consistent_alter; [solve [auto with tame]|]
    | apply consistent_unfocus
    | apply consistent_delete ].

Section EngineFacts.
Variable workspaceRect : DOMRect.
Variable getBoundingClientRect : Element -> DOMRect.

Local Abbreviation savePanelStates := (savePanelStates getBoundingClientRect).
Local Abbreviation closePanel := (closePanel getBoundingClientRect).
Local Abbreviation startDrag := (startDrag workspaceRect getBoundingClientRect).
Local Abbreviation startResize := (startResize workspaceRect getBoundingClientRect).
Local Abbreviation handleDrag := (handleDrag workspaceRect getBoundingClientRect).
Local Abbreviation handleMouseMove := (handleMouseMove workspaceRect getBoundingClientRect).
Local Abbreviation handleMouseUp := (handleMouseUp getBoundingClientRect).
Local Abbreviation perform := (perform workspaceRect getBoundingClientRect).
Local Abbreviation reachable_by := (reachable_by workspaceRect getBoundingClientRect).
Local Abbreviation reachable := (reachable workspaceRect getBoundingClientRect).
Local Abbreviation calculateSnap := (calculateSnap workspaceRect getBoundingClientRect).
Local Abbreviation run := (run workspaceRect getBoundingClientRect).

Lemma wf_new storage : wf (new_PanelManager storage).
Proof.
  unfold wf, new_PanelManager, loadPanelStates.
  assert (consistent [] [] 100 None) as H.
  { split.
    - apply NoDup_nil_2.
    - intros id data Hin. by apply elem_of_nil in Hin.
    - intros r el z Hlook. by rewrite lookup_nil in Hlook.
    - intros id data Hin. by apply elem_of_nil in Hin.
    - discriminate. }
  destruct storage as [[|doc]|]; exact H.
Qed.

Lemma wf_focusPanel m id : wf m -> wf (focusPanel m id).
Proof.
  unfold wf, focusPanel. intros H. cbn.
  destruct (Map_get (panels m) id) as [data|]; cbn; [|by consistency].
  apply consistent_alter; [auto with tame|].
  apply consistent_alter; [auto with tame|].
  apply consistent_top with (top := topZIndex m); [lia|]. by consistency.
Qed.

Lemma wf_savePanelStates m : wf m -> wf (savePanelStates m).
Proof. exact id. Qed.

Lemma wf_loadPanelStates m : wf m -> wf (loadPanelStates m).
Proof. unfold loadPanelStates. by destruct (localStorage m) as [[|doc]|]. Qed.

Lemma wf_minimizePanel m id : wf m -> wf (minimizePanel m id).
Proof.
  unfold wf, minimizePanel. intros H.
  destruct (Map_get (panels m) id) as [data|] eqn:Hget; [|done]. cbn.
  apply consistent_set_state; [done| |by consistency].
  simpl. apply (maximized_has_prevBounds _ _ _ _ H id). by apply Map_get_elem_of.
Qed.

Lemma wf_showPanel m id : wf m -> wf (showPanel m id).
Proof.
  unfold showPanel. intros H.
  destruct (Map_get (panels m) id) as [data|] eqn:Hget; [|done].
  apply wf_focusPanel. unfold wf. cbn.
  apply consistent_set_state; [done| |by consistency].
  simpl. apply (maximized_has_prevBounds _ _ _ _ H id). by apply Map_get_elem_of.
Qed.

Lemma wf_toggleMaximize m id : wf m -> wf (final (toggleMaximize m id)).
Proof.
  unfold wf, toggleMaximize. intros H.
  destruct (Map_get (panels m) id) as [data|] eqn:Hget; [|done].
  destruct (maximized (state data)).
  - destruct (prevBounds (state data)) as [prev|]; [|done]. cbn.
    apply consistent_set_state; [done|discriminate|by consistency].
  - destruct (document m !! element data) as [el|]; [|done]. cbn.
    apply consistent_set_state; [done|eauto|by consistency].
Qed.

Lemma wf_closePanel m id : wf m -> wf (closePanel m id).
Proof.
  unfold wf, closePanel. intros H.
  destruct (Map_get (panels m) id) as [data|]; [|done]. cbn. by consistency.
Qed.

Lemma wf_createPanel m cfg : wf m -> wf (fst (createPanel m cfg)).
Proof. unfold wf, createPanel. intros H. cbn. by apply consistent_create. Qed.

Lemma wf_startDrag m ev panel id : wf m -> wf (startDrag m ev panel id).
Proof.
  intros H. apply (wf_focusPanel m id) in H. unfold startDrag.
  destruct (document (focusPanel m id) !! panel); [|done].
  unfold wf in *. cbn. by consistency.
Qed.

Lemma wf_startResize m ev panel id direction :
  wf m -> wf (final (startResize m ev panel id direction)).
Proof.
  intros H. apply (wf_focusPanel m id) in H. unfold startResize.
  destruct (document (focusPanel m id) !! panel) as [el|] eqn:Hel; [|done].
  destruct (Map_get (panels (focusPanel m id)) id); [|done].
  unfold wf in *. cbn. apply consistent_alter; [auto with tame|].
  apply consistent_resize with (rs := resizeState (focusPanel m id)); [|done].
  simpl. by apply lookup_lt_Some in Hel.
Qed.

Lemma wf_handleMouseMove m ev : wf m -> wf (handleMouseMove m ev).
Proof.
  unfold handleMouseMove, handleDrag, handleResize. intros H.
  destruct (dragState m) as [ds|].
  - destruct (snappedV _), (snappedH _); unfold wf in *; cbn; by consistency.
  - destruct (resizeState m) as [rs|]; [|done].
    unfold wf in *; cbn; by consistency.
Qed.

Lemma wf_handleMouseUp m : wf m -> wf (handleMouseUp m).
Proof.
  unfold handleMouseUp. intros H.
  apply consistent_no_resize with (rs := resizeState m) in H.
  destruct (dragState m) as [ds|]; cbn;
    destruct (resizeState m) as [rs|]; unfold wf; cbn; by consistency.
Qed.

Lemma wf_perform m a : wf m -> wf (final (perform m a)).
Proof.
  intros H. destruct a; unfold perform; cbn [final];
    auto using wf_createPanel, wf_closePanel, wf_showPanel, wf_minimizePanel,
      wf_toggleMaximize, wf_focusPanel, wf_savePanelStates, wf_loadPanelStates,
      wf_startDrag, wf_startResize, wf_handleMouseMove, wf_handleMouseUp.
Qed.

Lemma reachable_by_wf allowed storage m :
  reachable_by allowed storage m -> wf m.
Proof. induction 1; [apply wf_new | by apply wf_perform]. Qed.

(** *** What [focusPanel] touches *)

Lemma unfocus_all_lookup ps doc r el' :
  unfocus_all ps doc !! r = Some el' ->
  exists el, doc !! r = Some el /\ (el' = el \/ el' = set_focused false el).
Proof.
  unfold unfocus_all. revert doc el'.
  induction ps as [|entry ps IH]; simpl; intros doc el' H; [eauto|].
  destruct (IH _ _ H) as (el1 & H1 & Hel').
  destruct (lookup_alter_Some _ _ _ _ _ H1) as (el & Hlook & [->|[_ ->]]).
  - eauto.
  - exists el. split; [done|]. right. by destruct Hel' as [->| ->].
Qed.

Lemma unfocus_all_keeps ps doc r el :
  doc !! r = Some el ->
  exists el', unfocus_all ps doc !! r = Some el' /\
              (el' = el \/ el' = set_focused false el).
Proof.
  intros H.
  destruct (unfocus_all ps doc !! r) as [el'|] eqn:Hlook.
  - destruct (unfocus_all_lookup _ _ _ _ Hlook) as (el0 & Hlook0 & Hel').
    rewrite H in Hlook0. injection Hlook0 as <-. eauto.
  - exfalso. apply lookup_ge_None in Hlook. apply lookup_lt_Some in H.
    assert (length (unfocus_all ps doc) = length doc) as Hlen; [|lia].
    clear. unfold unfocus_all. revert doc.
    induction ps as [|entry ps IH]; simpl; intros doc; [done|].
    by rewrite IH, length_alter.
Qed.

Lemma unfocus_all_unfocused ps doc id data el' :
  (id, data) ∈ ps ->
  unfocus_all ps doc !! element data = Some el' ->
  focused (classList el') = false.
Proof.
  unfold unfocus_all. revert doc.
  induction ps as [|entry ps IH]; simpl; intros doc Hin H.
  - by apply elem_of_nil in Hin.
  - apply elem_of_cons in Hin as [<-|Hin]; [|eauto].
    destruct (unfocus_all_lookup _ _ _ _ H) as (el1 & H1 & Hel').
    simpl in H1. rewrite list_lookup_alter_eq in H1.
    apply fmap_Some in H1 as (el & _ & ->).
    by destruct Hel' as [->| ->].
Qed.

Lemma focusPanel_panels m id : panels (focusPanel m id) = panels m.
Proof. unfold focusPanel. cbn. by destruct (Map_get (panels m) id). Qed.

Lemma focusPanel_sessions m id :
  dragState (focusPanel m id) = dragState m /\
  resizeState (focusPanel m id) = resizeState m.
Proof. unfold focusPanel. cbn. by destruct (Map_get (panels m) id). Qed.

Lemma focusPanel_lookup m id r el' :
  document (focusPanel m id) !! r = Some el' ->
  exists el, document m !! r = Some el /\ el_id el' = el_id el /\
             style el' = style el /\ hasHandles el' = hasHandles el /\
             inPage el' = inPage el.
Proof.
  unfold focusPanel. cbn. intros H.
  assert (forall el1, unfocus_all (panels m) (document m) !! r = Some el1 ->
            exists el, document m !! r = Some el /\ el_id el1 = el_id el /\
              style el1 = style el /\ hasHandles el1 = hasHandles el /\
              inPage el1 = inPage el) as Hun.
  { intros el1 H1. destruct (unfocus_all_lookup _ _ _ _ H1) as (el & ? & [->| ->]);
      exists el; done. }
  destruct (Map_get (panels m) id) as [data|]; cbn in H; [|eauto].
  destruct (lookup_alter_Some _ _ _ _ _ H) as (el2 & H2 & Hel2).
  destruct (lookup_alter_Some _ _ _ _ _ H2) as (el1 & H1 & Hel1).
  destruct (Hun _ H1) as (el & ? & ? & ? & ? & ?). exists el.
  destruct Hel2 as [->|[_ ->]], Hel1 as [->|[_ ->]]; done.
Qed.

(** *** The minimum size is kept *)

Lemma sized_alter id0 ps doc rs f r :
  (forall el c, fits c (style el) -> fits c (style (f el))) ->
  sized id0 ps doc rs -> sized id0 ps (alter f r doc) rs.
Proof.
  intros Hf [Hfit Hprev Hrs]. split; auto.
  intros data el' Hin Hlook.
  destruct (lookup_alter_Some _ _ _ _ _ Hlook) as (el & Hl & [->|[_ ->]]); eauto.
Qed.

Lemma sized_unfocus id0 ps' ps doc rs :
  sized id0 ps doc rs -> sized id0 ps (unfocus_all ps' doc) rs.
Proof.
  unfold unfocus_all. revert doc.
  induction ps' as [|entry ps' IH]; simpl; intros doc H; [done|].
  apply IH, sized_alter; [|done]. intros el c Hc; exact Hc.
Qed.

Lemma sized_set_style id0 ps doc rs b r :
  (forall data, (id0, data) ∈ ps -> element data = r -> fits (config data) b) ->
  sized id0 ps doc rs -> sized id0 ps (alter (with_style b) r doc) rs.
Proof.
  intros Hb [Hfit Hprev Hrs]. split; auto.
  intros data el' Hin Hlook.
  destruct (lookup_alter_Some _ _ _ _ _ Hlook) as (el & Hl & [->|[Hr ->]]); eauto.
Qed.

Lemma sized_set_state id0 ps doc rs id data st :
  NoDup ps.*1 -> Map_get ps id = Some data ->
  (id = id0 -> forall b, prevBounds st = Some b -> fits (config data) b) ->
  sized id0 ps doc rs -> sized id0 (Map_set ps id (with_state st data)) doc rs.
Proof.
  intros Hnd Hget Hst [Hfit Hprev Hrs].
  apply Map_get_elem_of in Hget.
  split.
  - intros data' el Hin Hlook.
    apply elem_of_Map_set in Hin as [[-> ->]|[_ Hin]]; [|eauto|done].
    exact (Hfit data el Hget Hlook).
  - intros data' b Hin Hb.
    apply elem_of_Map_set in Hin as [[-> ->]|[_ Hin]]; [|eauto|done].
    exact (Hst eq_refl b Hb).
  - intros r data' Hr Hin Hel.
    apply elem_of_Map_set in Hin as [[-> ->]|[_ Hin]]; [|eauto|done].
    exact (Hrs r data Hr Hget Hel).
Qed.

Lemma sized_delete id0 ps doc rs id :
  sized id0 ps doc rs -> sized id0 (Map_delete ps id) doc rs.
Proof.
  intros [Hfit Hprev Hrs]. split.
  - intros data' el Hin. apply elem_of_Map_delete in Hin as [Hin _]. eauto.
  - intros data' b Hin. apply elem_of_Map_delete in Hin as [Hin _]. eauto.
  - intros r data' Hr Hin. apply elem_of_Map_delete in Hin as [Hin _]. eauto.
Qed.

Lemma sized_create id0 ps doc top rs id c b cl h :
  consistent ps doc top rs -> (id = id0 -> fits c b) -> sized id0 ps doc rs ->
  sized id0
        (Map_set ps id (mkPanelData (length doc) c (mkPanelState false false None)))
        (doc ++ [mkElement id b None cl h true]) rs.
Proof.
  intros [Hnd Hel Hz Hmax Hvalid] Hcb [Hfit Hprev Hrs]. split.
  - intros data' el Hin Hlook.
    apply elem_of_Map_set in Hin as [[-> ->]|[_ Hin]]; [| |done].
    + simpl in Hlook. rewrite lookup_app_r in Hlook; [|lia].
      rewrite Nat.sub_diag in Hlook. injection Hlook as <-. by apply Hcb.
    + destruct (Hel id0 data' Hin) as (el0 & Hl0 & _).
      rewrite (lookup_app_l_Some _ _ _ _ Hl0) in Hlook. injection Hlook as <-. eauto.
  - intros data' b' Hin Hb'.
    apply elem_of_Map_set in Hin as [[-> ->]|[_ Hin]]; [| |done].
    + discriminate.
    + eauto.
  - intros r data' Hr Hin Helr.
    apply elem_of_Map_set in Hin as [[-> ->]|[_ Hin]]; [| |done].
    + simpl in Helr. specialize (Hvalid r Hr). lia.
    + eauto.
Qed.

Lemma sized_resize id0 ps doc rs r :
  (forall data, (id0, data) ∈ ps -> element data = rs_panel r ->
     rs_minWidth r = minWidth (config data) /\
     rs_minHeight r = minHeight (config data) /\
     (rs_minWidth r <= rs_startWidth r)%Q /\
     (rs_minHeight r <= rs_startHeight r)%Q) ->
  sized id0 ps doc rs -> sized id0 ps doc (Some r).
Proof.
  intros Hr [Hfit Hprev Hrs]. split; auto.
  intros r0 data [= <-] Hin Hel. exact (Hr data Hin Hel).
Qed.

Lemma sized_no_resize id0 ps doc rs : sized id0 ps doc rs -> sized id0 ps doc None.
Proof. intros [Hfit Hprev Hrs]. split; auto. discriminate. Qed.

(** Peels the size-preserving element updates off a goal. *)
Ltac sizes :=
  repeat first
    [ assumption
    | apply sized_alter; [solve [let Hc := fresh in intros ? ? Hc; exact Hc]|]
    | apply sized_unfocus
    | apply sized_delete ].

Lemma min_size_focusPanel id0 m id :
  min_size_holds id0 m -> min_size_holds id0 (focusPanel m id).
Proof.
  unfold min_size_holds, focusPanel. intros H. cbn.
  destruct (Map_get (panels m) id) as [data|]; cbn; by sizes.
Qed.

Lemma min_size_minimizePanel id0 m id :
  wf m -> min_size_holds id0 m -> min_size_holds id0 (minimizePanel m id).
Proof.
  unfold min_size_holds, minimizePanel. intros Hwf H.
  destruct (Map_get (panels m) id) as [data|] eqn:Hget; [|done]. cbn.
  apply sized_set_state; [apply Hwf|done| |by sizes].
  simpl. intros <- b Hb. apply (prevBounds_fit _ _ _ _ H); [|done].
  by apply Map_get_elem_of.
Qed.

Lemma min_size_showPanel id0 m id :
  wf m -> min_size_holds id0 m -> min_size_holds id0 (showPanel m id).
Proof.
  unfold showPanel. intros Hwf H.
  destruct (Map_get (panels m) id) as [data|] eqn:Hget; [|done].
  apply min_size_focusPanel. unfold min_size_holds. cbn.
  apply sized_set_state; [apply Hwf|done| |by sizes].
  simpl. intros <- b Hb. apply (prevBounds_fit _ _ _ _ H); [|done].
  by apply Map_get_elem_of.
Qed.

(** The panel registered for an element is the one its id names. *)
Lemma registered_by_element m id data id' data' :
  wf m -> Map_get (panels m) id = Some data -> (id', data') ∈ panels m ->
  element data' = element data -> id' = id /\ data' = data.
Proof.
  intros Hwf Hget Hin' Hel.
  pose proof (Map_get_elem_of _ _ _ Hget) as Hin.
  destruct (elements_exist _ _ _ _ Hwf _ _ Hin) as (el & Hl & Hid).
  destruct (elements_exist _ _ _ _ Hwf _ _ Hin') as (el' & Hl' & Hid').
  rewrite Hel, Hl in Hl'. injection Hl' as <-.
  assert (id' = id) as -> by congruence. split; [done|].
  apply (elem_of_Map_get _ _ _ (ids_unique _ _ _ _ Hwf)) in Hin'. congruence.
Qed.

Lemma min_size_toggleMaximize id0 m id :
  wf m -> min_size_holds id0 m -> min_size_holds id0 (final (toggleMaximize m id)).
Proof.
  unfold min_size_holds, toggleMaximize. intros Hwf H.
  destruct (Map_get (panels m) id) as [data|] eqn:Hget; [|done].
  pose proof (Map_get_elem_of _ _ _ Hget) as Hin.
  destruct (maximized (state data)).
  - destruct (prevBounds (state data)) as [prev|] eqn:Hprev; [|done]. cbn.
    apply sized_set_state; [apply Hwf|done| |].
    + simpl. intros <- b Hb. apply (prevBounds_fit _ _ _ _ H); [done|congruence].
    + apply sized_alter; [intros ? ? Hc; exact Hc|].
      apply sized_set_style; [|done].
      intros data' Hin' Hel.
      destruct (registered_by_element m id data id0 data' Hwf Hget Hin' Hel) as [-> ->].
      by apply (prevBounds_fit _ _ _ _ H).
  - destruct (document m !! element data) as [el|] eqn:Hel; [|done]. cbn.
    apply sized_set_state; [apply Hwf|done| |by sizes].
    simpl. intros <- b [= <-]. by apply (panel_fits _ _ _ _ H).
Qed.

Lemma min_size_closePanel id0 m id :
  min_size_holds id0 m -> min_size_holds id0 (closePanel m id).
Proof.
  unfold min_size_holds, closePanel. intros H.
  destruct (Map_get (panels m) id) as [data|]; [|done]. cbn. by sizes.
Qed.

Lemma min_size_createPanel id0 m cfg :
  wf m -> (c_id cfg = id0 -> config_fits cfg) -> min_size_holds id0 m ->
  min_size_holds id0 (fst (createPanel m cfg)).
Proof.
  unfold min_size_holds, createPanel. intros Hwf Hcfg H. cbn.
  apply sized_create with (top := topZIndex m); [done| |done].
  intros Hid. destruct (Hcfg Hid) as (_ & _ & Hw & Hh). by split.
Qed.

Lemma min_size_startDrag id0 m ev panel id :
  min_size_holds id0 m -> min_size_holds id0 (startDrag m ev panel id).
Proof.
  intros H. apply (min_size_focusPanel id0 m id) in H. unfold startDrag.
  destruct (document (focusPanel m id) !! panel); [|done].
  unfold min_size_holds in *. cbn. by sizes.
Qed.

Lemma resize_bounds_fits rs ev :
  (rs_minWidth rs <= rs_startWidth rs)%Q ->
  (rs_minHeight rs <= rs_startHeight rs)%Q ->
  (rs_minWidth rs <= width_px (resize_bounds rs ev))%Q /\
  (rs_minHeight rs <= height_px (resize_bounds rs ev))%Q.
Proof.
  intros Hw Hh. unfold resize_bounds, Math_max.
  destruct (rs_direction rs); cbn; split;
    first [assumption | apply Q.le_max_l].
Qed.

(** Along an axis its handle moves, the clamp alone gives the bound. *)
Lemma resize_bounds_clamps rs ev :
  (includes (direction_name (rs_direction rs)) "e"
   || includes (direction_name (rs_direction rs)) "w" = true ->
   (rs_minWidth rs <= width_px (resize_bounds rs ev))%Q) /\
  (includes (direction_name (rs_direction rs)) "s"
   || includes (direction_name (rs_direction rs)) "n" = true ->
   (rs_minHeight rs <= height_px (resize_bounds rs ev))%Q).
Proof.
  unfold resize_bounds, Math_max.
  destruct (rs_direction rs); cbn; split; intros H;
    first [discriminate | apply Q.le_max_l].
Qed.

Lemma min_size_startResize id0 m ev panel direction :
  (bound_id m panel = id0 ->
   forall el, document (focusPanel m id0) !! panel = Some el ->
              renders_no_smaller getBoundingClientRect el) ->
  wf m -> min_size_holds id0 m ->
  min_size_holds id0 (final (startResize m ev panel (bound_id m panel) direction)).
Proof.
  intros Hlayout Hwf H. set (id := bound_id m panel) in *.
  pose proof (wf_focusPanel m id Hwf) as Hwf1.
  pose proof (min_size_focusPanel id0 m id H) as H1.
  unfold startResize.
  destruct (document (focusPanel m id) !! panel) as [el|] eqn:Hel; [|done].
  destruct (Map_get (panels (focusPanel m id)) id) as [panelData|] eqn:Hget; [|done].
  unfold min_size_holds in *. cbn.
  apply sized_alter; [intros ? ? Hc; exact Hc|].
  apply sized_resize with (rs := resizeState (focusPanel m id)); [|done].
  cbn. intros data' Hin' Helr.
  assert (id0 = id) as ->.
  { destruct (elements_exist _ _ _ _ Hwf1 _ _ Hin') as (el' & Hl' & <-).
    rewrite Helr, Hel in Hl'. injection Hl' as <-.
    destruct (focusPanel_lookup _ _ _ _ Hel) as (el0 & Hl0 & Hid & _).
    unfold id, bound_id. by rewrite Hl0. }
  apply (elem_of_Map_get _ _ _ (ids_unique _ _ _ _ Hwf1)) in Hin' as Hget'.
  assert (data' = panelData) as -> by congruence.
  destruct (panel_fits _ _ _ _ H1 panelData el Hin') as [Hw Hh]; [by rewrite Helr|].
  destruct (Hlayout eq_refl el Hel) as [Hrw Hrh].
  repeat split; [by apply Qle_trans with (width_px (style el))
                |by apply Qle_trans with (height_px (style el))].
Qed.

Lemma min_size_handleMouseMove id0 m ev :
  min_size_holds id0 m -> min_size_holds id0 (handleMouseMove m ev).
Proof.
  unfold handleMouseMove, handleDrag, handleResize. intros H.
  destruct (dragState m) as [ds|].
  - destruct (snappedV _), (snappedH _); unfold min_size_holds in *; cbn; by sizes.
  - destruct (resizeState m) as [rs|] eqn:Hrs; [|done].
    unfold min_size_holds in *. cbn. rewrite Hrs.
    apply sized_set_style; [|by rewrite <- Hrs].
    intros data Hin Hel.
    destruct (resize_fits _ _ _ _ H rs data Hrs Hin Hel) as (Hmw & Hmh & Hw & Hh).
    unfold fits. rewrite <- Hmw, <- Hmh. by apply resize_bounds_fits.
Qed.

Lemma min_size_handleMouseUp id0 m :
  min_size_holds id0 m -> min_size_holds id0 (handleMouseUp m).
Proof.
  unfold handleMouseUp, min_size_holds. intros H.
  apply sized_no_resize in H.
  destruct (dragState m) as [ds|]; cbn;
    destruct (resizeState m) as [rs|]; cbn; by sizes.
Qed.

Lemma min_size_perform id0 m a :
  wf m -> enabled_sized getBoundingClientRect id0 m a -> min_size_holds id0 m ->
  min_size_holds id0 (final (perform m a)).
Proof.
  intros Hwf [_ Ha] H. destruct a; unfold perform; cbn [final].
  - by apply min_size_createPanel.
  - by apply min_size_closePanel.
  - by apply min_size_showPanel.
  - by apply min_size_minimizePanel.
  - by apply min_size_toggleMaximize.
  - by apply min_size_focusPanel.
  - exact H.
  - unfold loadPanelStates. by destruct (localStorage m) as [[|doc]|].
  - by apply min_size_focusPanel, min_size_startDrag.
  - by apply min_size_startResize.
  - by apply min_size_focusPanel.
  - by apply min_size_handleMouseMove.
  - by apply min_size_handleMouseUp.
Qed.

Lemma reachable_min_size id0 storage m :
  reachable_by (enabled_sized getBoundingClientRect id0) storage m ->
  min_size_holds id0 m.
Proof.
  induction 1 as [|m a Hreach IH Ha].
  - unfold min_size_holds, new_PanelManager, loadPanelStates.
    assert (sized id0 [] [] None) as H.
    { split.
      - intros data el Hin. by apply elem_of_nil in Hin.
      - intros data b Hin. by apply elem_of_nil in Hin.
      - discriminate. }
    destruct storage as [[|doc]|]; exact H.
  - apply min_size_perform; [|done|done].
    by apply reachable_by_wf in Hreach.
Qed.

(** *** Sessions *)

Lemma sessions_kept m a :
  starts_session a = false -> a <> MouseUp ->
  dragState (final (perform m a)) = dragState m /\
  resizeState (final (perform m a)) = resizeState m.
Proof.
  intros Hs Hup. destruct a; try discriminate; try done; unfold perform; cbn [final].
  - unfold closePanel. by destruct (Map_get (panels m) id).
  - unfold showPanel. destruct (Map_get (panels m) id); [|done].
    split; [rewrite (proj1 (focusPanel_sessions _ _))
           |rewrite (proj2 (focusPanel_sessions _ _))]; reflexivity.
  - unfold minimizePanel. by destruct (Map_get (panels m) id).
  - unfold toggleMaximize. destruct (Map_get (panels m) id) as [data|]; [|done].
    destruct (maximized (state data)).
    + by destruct (prevBounds (state data)).
    + by destruct (document m !! element data).
  - apply focusPanel_sessions.
  - unfold loadPanelStates. by destruct (localStorage m) as [[|doc]|].
  - apply focusPanel_sessions.
  - unfold handleMouseMove.
    destruct (dragState m) as [ds|] eqn:Hd.
    + unfold handleDrag. destruct (snappedV _), (snappedH _); cbn; by rewrite Hd.
    + destruct (resizeState m) as [rs|] eqn:Hr; cbn; by rewrite ?Hd, ?Hr.
Qed.

Lemma startDrag_resizeState m ev panel id :
  resizeState (startDrag m ev panel id) = resizeState m.
Proof.
  unfold startDrag. destruct (focusPanel_sessions m id) as [_ Hr].
  by destruct (document (focusPanel m id) !! panel).
Qed.

Lemma startResize_dragState m ev panel id direction :
  dragState (final (startResize m ev panel id direction)) = dragState m.
Proof.
  unfold startResize. destruct (focusPanel_sessions m id) as [Hd _].
  destruct (document (focusPanel m id) !! panel); [|done].
  by destruct (Map_get (panels (focusPanel m id)) id).
Qed.

Lemma handleMouseUp_idle m : idle (handleMouseUp m).
Proof. by split. Qed.

Lemma exclusive_perform m a :
  enabled_one_press m a -> exclusive m -> exclusive (final (perform m a)).
Proof.
  intros [_ Hpress] Hex.
  assert (starts_session a = false -> a <> MouseUp ->
          exclusive (final (perform m a))) as Hkept.
  { intros Hs Hup. unfold exclusive.
    destruct (sessions_kept m a Hs Hup) as [-> ->]. exact Hex. }
  destruct a; try (apply Hkept; [reflexivity|discriminate]).
  - destruct (Hpress eq_refl) as [Hd Hr]. right. unfold perform; cbn [final].
    rewrite (proj2 (focusPanel_sessions _ _)). by rewrite startDrag_resizeState.
  - destruct (Hpress eq_refl) as [Hd Hr]. left. unfold perform.
    by rewrite startResize_dragState.
  - left. apply handleMouseUp_idle.
Qed.

Lemma reachable_exclusive storage m :
  reachable_by enabled_one_press storage m -> exclusive m.
Proof.
  induction 1 as [|m a Hreach IH Ha].
  - left. unfold new_PanelManager, loadPanelStates.
    by destruct storage as [[|doc]|].
  - by apply exclusive_perform.
Qed.

(** *** Saving and loading *)

Lemma save_fold_get (ps : list (string * PanelData)) (doc : list Element) acc id :
  NoDup ps.*1 ->
  Map_get
    (fold_left (fun (states : Layout) (entry : string * PanelData) =>
       let '(id, data) := entry in
       match doc !! element data with
       | None => states
       | Some el => Obj_set states id (snapshot getBoundingClientRect el data)
       end) ps acc) id
  = match Map_get ps id with
    | Some data =>
      match doc !! element data with
      | Some el =>
          if String.eqb id "__proto__" then Map_get acc id
          else Some (snapshot getBoundingClientRect el data)
      | None => Map_get acc id
      end
    | None => Map_get acc id
    end.
Proof.
  revert acc. induction ps as [|[k0 d0] ps IH]; intros acc Hnd; [reflexivity|].
  rewrite fmap_cons in Hnd. apply NoDup_cons in Hnd as [Hk0 Hnd]. simpl in Hk0.
  cbn [fold_left Map_get]. rewrite (IH _ Hnd).
  destruct (String.eqb_spec k0 id) as [->|Hne].
  - apply Map_get_None in Hk0. rewrite Hk0.
    destruct (doc !! element d0); [|done].
    rewrite Map_get_Obj_set, String.eqb_refl. by destruct (String.eqb id "__proto__").
  - destruct (doc !! element d0); [|done].
    rewrite Map_get_Obj_set.
    destruct (String.eqb k0 "__proto__"), (String.eqb_spec k0 id); try done;
      by destruct (Map_get ps id) as [d|]; [destruct (doc !! element d)|].
Qed.

Lemma save_then_load m id data el :
  wf m -> Map_get (panels m) id = Some data ->
  document m !! element data = Some el ->
  getSavedState (loadPanelStates (savePanelStates m)) id
  = if String.eqb id "__proto__" then Some (Inherited id)
    else Some (Entry (snapshot getBoundingClientRect el data)).
Proof.
  intros Hwf Hget Hel. unfold getSavedState, loadPanelStates, savePanelStates. cbn.
  pose proof (save_fold_get (panels m) (document m) [] id (ids_unique _ _ _ _ Hwf))
    as Hfold.
  unfold snapshot in Hfold. rewrite Hfold, Hget, Hel. clear Hfold.
  destruct (String.eqb_spec id "__proto__") as [->|_]; reflexivity.
Qed.

(** A whole number below 1e21 in magnitude is printed in positional
    notation. *)
Lemma exponent_notation_whole v k :
  (v == inject_Z k)%Q -> (Z.abs k < 10 ^ 21)%Z -> exponent_notation v = false.
Proof.
  intros Hv Hk. unfold exponent_notation.
  assert (Qabs v == inject_Z (Z.abs k))%Q as Ha by (by rewrite Hv).
  apply orb_false_iff. split.
  - apply andb_false_iff.
    destruct (Qltb (Qabs v) (1 # 1000000)) eqn:Hsmall; [left|by right].
    apply negb_false_iff, Qle_bool_iff. apply negb_true_iff in Hsmall.
    rewrite Ha in *.
    destruct (Z.eq_dec (Z.abs k) 0%Z) as [->|Hne]; [apply Qle_refl|].
    exfalso. assert (Qle_bool (1 # 1000000) (inject_Z (Z.abs k)) = true);
      [|congruence].
    apply Qle_bool_iff. unfold Qle. cbn. lia.
  - destruct (Qle_bool (inject_Z (10 ^ 21)) (Qabs v)) eqn:Hbig; [|done].
    apply Qle_bool_iff in Hbig. rewrite Ha in Hbig.
    rewrite <- Zle_Qle in Hbig. lia.
Qed.

Lemma parseInt_px_whole v k :
  (v == inject_Z k)%Q -> (Z.abs k < 10 ^ 21)%Z -> (parseInt_px v == v)%Q.
Proof.
  intros Hv Hk. unfold parseInt_px. rewrite (exponent_notation_whole v k Hv Hk).
  transitivity (inject_Z k); [|by symmetry].
  unfold Qeq in Hv. simpl in Hv. rewrite Z.mul_1_r in Hv.
  rewrite Hv, Z.quot_mul by done. reflexivity.
Qed.

(** *** Snapping: the last matching rule decides *)

Lemma last_match_snoc thr a rules rule :
  last_match thr a (rules ++ [rule])
  = if on_axis a rule && rule_matches thr rule then Some rule
    else last_match thr a rules.
Proof.
  unfold last_match. rewrite List.filter_app. simpl.
  destruct (on_axis a rule && rule_matches thr rule).
  - apply last_snoc.
  - by rewrite app_nil_r.
Qed.

Lemma fold_rules_last_match newX newY thr rules :
  fold_left (apply_rule thr) rules (mkSnap newX newY false false 0 0)
  = last_match_wins newX newY thr rules.
Proof.
  induction rules as [|rule rules IH] using rev_ind; [reflexivity|].
  rewrite fold_left_app. cbn [fold_left]. rewrite IH.
  unfold last_match_wins. rewrite !last_match_snoc.
  unfold apply_rule, when, on_axis.
  destruct (rule_axis rule), (rule_matches thr rule); reflexivity.
Qed.

Lemma snap_to_panel_rules doc thr panelId newX newY width height r entry :
  snap_to_panel workspaceRect getBoundingClientRect doc thr panelId
                newX newY width height r entry
  = fold_left (apply_rule thr)
      (flat_map (sibling_rules newX newY width height)
         (omap (fun entry : string * PanelData =>
            if String.eqb (fst entry) panelId then None else
            match doc !! element (snd entry) with
            | None => None
            | Some el =>
              if hidden (classList el) || maximizedClass (classList el) then None else
              let rect := getBoundingClientRect el in
              let pLeft := (rect_left rect - rect_left workspaceRect)%Q in
              let pTop := (rect_top rect - rect_top workspaceRect)%Q in
              Some (pLeft, pTop, (pLeft + rect_width rect)%Q,
                    (pTop + rect_height rect)%Q)
            end) [entry])) r.
Proof.
  destruct entry as [id data]. unfold snap_to_panel. cbn [omap list_omap fst snd].
  destruct (String.eqb id panelId); [reflexivity|].
  destruct (doc !! element data) as [el|]; [|reflexivity].
  destruct (hidden (classList el) || maximizedClass (classList el)); reflexivity.
Qed.

Lemma calculateSnap_fold m panelId newX newY width height :
  calculateSnap m panelId newX newY width height
  = fold_left (apply_rule (snapThreshold m))
      (snap_rules workspaceRect getBoundingClientRect newX newY width height m panelId)
      (mkSnap newX newY false false 0 0).
Proof.
  unfold calculateSnap, snap_rules, sibling_edges. rewrite fold_left_app.
  change (fold_left (apply_rule (snapThreshold m))
            (workspace_rules workspaceRect newX newY width height)
            (mkSnap newX newY false false 0 0))
    with (when (Qltb (Math_abs (newY + height - rect_height workspaceRect)) (snapThreshold m))
            (snap_y (rect_height workspaceRect - height) (rect_height workspaceRect))
         (when (Qltb (Math_abs newY) (snapThreshold m)) (snap_y 0 0)
         (when (Qltb (Math_abs (newX + width - rect_width workspaceRect)) (snapThreshold m))
            (snap_x (rect_width workspaceRect - width) (rect_width workspaceRect))
         (when (Qltb (Math_abs newX) (snapThreshold m)) (snap_x 0 0)
            (mkSnap newX newY false false 0 0))))).
  cbv zeta. generalize (when (Qltb (Math_abs (newY + height - rect_height workspaceRect)) (snapThreshold m))
            (snap_y (rect_height workspaceRect - height) (rect_height workspaceRect))
         (when (Qltb (Math_abs newY) (snapThreshold m)) (snap_y 0 0)
         (when (Qltb (Math_abs (newX + width - rect_width workspaceRect)) (snapThreshold m))
            (snap_x (rect_width workspaceRect - width) (rect_width workspaceRect))
         (when (Qltb (Math_abs newX) (snapThreshold m)) (snap_x 0 0)
            (mkSnap newX newY false false 0 0))))) as r.
  induction (panels m) as [|entry ps IH]; intros r; [reflexivity|].
  cbn [fold_left]. rewrite IH, snap_to_panel_rules.
  rewrite <- fold_left_app. f_equal.
  cbn [omap list_omap].
  destruct (if String.eqb entry.1 panelId then None else _) as [edges|];
    [|reflexivity].
  cbn [flat_map]. by rewrite app_nil_r.
Qed.

(** *** Showing a panel *)

Lemma showPanel_known m id data :
  Map_get (panels m) id = Some data ->
  let data' := with_state (mkPanelState false (maximized (state data))
                             (prevBounds (state data))) data in
  let ps := Map_set (panels m) id data' in
  let top := (topZIndex m + 1)%Z in
  panels (showPanel m id) = ps /\
  topZIndex (showPanel m id) = top /\
  activePanel (showPanel m id) = Some id /\
  document (showPanel m id)
  = alter (set_focused true) (element data)
      (alter (with_zIndex top) (element data)
         (unfocus_all ps (alter (set_hidden false) (element data) (document m)))).
Proof.
  intros Hget. unfold showPanel. rewrite Hget. unfold focusPanel. cbn.
  rewrite Map_get_set, String.eqb_refl. cbn. done.
Qed.

(** *** Scripts reach reachable states *)

Lemma reachable_by_run allowed storage m script :
  reachable_by allowed storage m ->
  allowed_along workspaceRect getBoundingClientRect allowed m script ->
  reachable_by allowed storage (run m script).
Proof.
  revert m. induction script as [|a script IH]; intros m Hm Hs; [exact Hm|].
  destruct Hs as [Ha Hs]. apply IH; [|exact Hs]. by apply reach_step.
Qed.

End EngineFacts.

(** * The claims *)

Local Open Scope Q_scope.

(** C10. [showPanel(id)] on a known panel clears its [minimized] flag and its
    [hidden] class and focuses it, whether it was visible or not: the engine
    counter [topZIndex] is incremented and given to the panel as its
    [zIndex], the panel gets the [focused] class, and every other registered
    panel is without the [focused] class and has a strictly smaller
    [zIndex]. *)
Theorem showPanel_shows_and_focuses workspaceRect getBoundingClientRect storage
    m id data :
  reachable workspaceRect getBoundingClientRect storage m ->
  Map_get (panels m) id = Some data ->
  let m' := showPanel m id in
  topZIndex m' = (topZIndex m + 1)%Z /\
  (exists data' el',
     Map_get (panels m') id = Some data' /\
     minimized (state data') = false /\
     document m' !! element data' = Some el' /\
     hidden (classList el') = false /\
     focused (classList el') = true /\
     zIndex el' = Some (topZIndex m + 1)%Z) /\
  (forall id2 data2 el2,
     id2 <> id -> Map_get (panels m') id2 = Some data2 ->
     document m' !! element data2 = Some el2 ->
     focused (classList el2) = false /\
     forall z, zIndex el2 = Some z -> (z < topZIndex m + 1)%Z).
Proof.
  intros Hreach Hget m'.
  pose proof (reachable_by_wf _ _ _ _ _ Hreach) as Hwf.
  destruct (showPanel_known m id data Hget) as (Hps & Htop & _ & Hdoc).
  fold m' in Hps, Htop, Hdoc.
  pose proof (Map_get_elem_of _ _ _ Hget) as Hin.
  destruct (elements_exist _ _ _ _ Hwf _ _ Hin) as (el & Hel & Hid).
  split; [done|]. split.
  - assert (alter (set_hidden false) (element data) (document m) !! element data
            = Some (set_hidden false el)) as Hel1
      by (by rewrite list_lookup_alter_eq, Hel).
    destruct (unfocus_all_keeps
                (Map_set (panels m) id
                   (with_state (mkPanelState false (maximized (state data))
                                  (prevBounds (state data))) data))
                _ _ _ Hel1) as (el2 & Hel2 & Hk2).
    eexists _, _. rewrite Hps, Map_get_set, String.eqb_refl.
    split; [reflexivity|]. split; [reflexivity|]. cbn [element with_state].
    rewrite Hdoc, list_lookup_alter_eq, list_lookup_alter_eq, Hel2. cbn.
    split; [reflexivity|].
    by destruct Hk2 as [->| ->].
  - intros id2 data2 el2 Hne Hget2 Hel2.
    rewrite Hps, Map_get_set in Hget2.
    destruct (String.eqb_spec id id2) as [->|_]; [done|].
    pose proof (Map_get_elem_of _ _ _ Hget2) as Hin2.
    assert (element data2 <> element data) as Hr.
    { intros Heq.
      destruct (registered_by_element m id data id2 data2 Hwf Hget Hin2 Heq). done. }
    rewrite Hdoc in Hel2.
    rewrite list_lookup_alter_ne, list_lookup_alter_ne in Hel2 by done.
    split.
    + eapply unfocus_all_unfocused with (id := id2); [|exact Hel2].
      apply Map_get_elem_of. rewrite Map_get_set.
      by destruct (String.eqb_spec id id2).
    + intros z Hz.
      destruct (unfocus_all_lookup _ _ _ _ Hel2) as (el1 & Hel1 & Hk1).
      destruct (lookup_alter_Some _ _ _ _ _ Hel1) as (el0 & Hel0 & Hk0).
      assert (zIndex el0 = Some z) as Hz0.
      { destruct Hk1 as [->| ->], Hk0 as [->|[_ ->]]; exact Hz. }
      pose proof (zIndex_below_top _ _ _ _ Hwf _ _ _ Hel0 Hz0). lia.
Qed.

(** Proves that a script played on the concrete page is made of allowed
    actions, and so reaches a reachable state. *)
Ltac along :=
  repeat match goal with
  | |- allowed_along _ _ _ _ _ => cbn [allowed_along]
  | |- enabled_sized _ _ _ _ => split
  | |- enabled_one_press _ _ => split
  | |- never_toggles _ _ _ => split
  | |- _ <> _ => discriminate
  | |- enabled _ _ => cbn [enabled]
  | |- _ = _ -> config_fits _ => first [ discriminate | intros _ ]
  | |- bound_id _ _ = _ -> _ =>
      first [ (let H := fresh in intros H; vm_compute in H; discriminate H)
            | intros _ ]
  | |- forall el, _ !! _ = Some el -> renders_no_smaller _ el =>
      let el := fresh in
      let H := fresh in
      intros el H; vm_compute in H; injection H as <-
  | |- renders_no_smaller _ _ => split
  | |- config_fits _ => split
  | |- _ /\ _ => split
  | |- True => exact I
  | |- exists _, _ => eexists
  | |- (_ <= _)%Q => vm_compute; discriminate
  | |- starts_session _ = true -> _ => first [ discriminate | intros _ ]
  | |- idle _ => split
  | |- _ = _ => vm_compute; reflexivity
  end.

Ltac played :=
  unfold play, reachable; apply reachable_by_run; [apply reach_new | along].

Lemma showPanel_shows_and_focuses_witness :
  let m := play [CreatePanel (panel_at "a" 50 50 300 200);
                 CreatePanel (panel_at "b" 400 50 300 200);
                 FocusPanel "a"; MinimizePanel "b"] in
  reachable workspace_1000x800 (inline_layout workspace_1000x800) None m /\
  (exists data, Map_get (panels m) "b" = Some data) /\
  topZIndex (showPanel m "b") = (topZIndex m + 1)%Z.
Proof.
  intros m.
  assert (reachable workspace_1000x800 (inline_layout workspace_1000x800) None m)
    as Hreach by (subst m; played).
  split; [exact Hreach|]. split; [eexists; vm_compute; reflexivity|].
  eapply (showPanel_shows_and_focuses _ _ None m "b"); [exact Hreach|].
  vm_compute. reflexivity.
Defined.

(** C1, amended.  [createPanel] writes the width and height of its config
    into the element as they are, without comparing them with the minimum
    size.  For a panel that is created with a minimum size that is not
    negative and a size at or above it (defaults included), and whose resize
    handles are pressed only while the page renders it no smaller than its
    inline size, [width >= minWidth] and [height >= minHeight] hold in every
    state the engine reaches, whatever is done to it or to any other panel,
    states in the middle of a resize included.  Nothing is asked of the
    other panels, nor of how the page renders a panel that is not being
    pressed: a hidden or a maximized panel may be rendered at any size. *)
Theorem min_size_invariant workspaceRect getBoundingClientRect storage
    m id data el :
  reachable_by workspaceRect getBoundingClientRect
    (enabled_sized getBoundingClientRect id) storage m ->
  Map_get (panels m) id = Some data ->
  document m !! element data = Some el ->
  (minWidth (config data) <= width_px (style el))%Q /\
  (minHeight (config data) <= height_px (style el))%Q.
Proof.
  intros Hreach Hget Hel.
  pose proof (reachable_min_size _ _ _ _ _ Hreach) as H.
  apply (panel_fits _ _ _ _ H data el); [|done]. by apply Map_get_elem_of.
Qed.

Lemma min_size_invariant_witness :
  let m := run workspace_1000x800 (stylesheet_layout workspace_1000x800)
             (new_PanelManager None)
             [CreatePanel (panel_at "a" 100 100 300 200);
              CreatePanel (mkConfig "b" "Panel" None None (Some 100) None
                                    None None None None);
              MinimizePanel "a"; ShowPanel "a";
              ToggleMaximize "a"; ToggleMaximize "a";
              MinimizePanel "b";
              HandleMouseDown (mkMouse 100 150) 0 dir_w;
              MouseMove (mkMouse 350 150)] in
  exists data el,
    Map_get (panels m) "a" = Some data /\
    document m !! element data = Some el /\
    (minWidth (config data) <= width_px (style el))%Q /\
    (minHeight (config data) <= height_px (style el))%Q.
Proof.
  intros m. eexists _, _.
  assert (Map_get (panels m) "a" = Some _) as Hget by (vm_compute; reflexivity).
  assert (document m !! 0%nat = Some _) as Hel by (vm_compute; reflexivity).
  split; [exact Hget|]. split; [exact Hel|].
  apply (min_size_invariant workspace_1000x800
           (stylesheet_layout workspace_1000x800) None m "a" _ _);
    [|exact Hget|exact Hel].
  subst m. apply reachable_by_run; [apply reach_new | along].
Defined.

(** C1 as it is stated fails: a panel created with a width below its
    minimum width is registered with that width. *)
Lemma created_below_min_size :
  let m := play [CreatePanel (mkConfig "a" "Panel" None None (Some 100) None
                                       None None None None)] in
  reachable workspace_1000x800 (inline_layout workspace_1000x800) None m /\
  exists data el,
    Map_get (panels m) "a" = Some data /\
    document m !! element data = Some el /\
    minWidth (config data) = 200%Q /\ width_px (style el) = 100%Q /\
    ~ (minWidth (config data) <= width_px (style el))%Q.
Proof.
  intros m. split; [subst m; played|].
  eexists _, _. split; [vm_compute; reflexivity|].
  split; [vm_compute; reflexivity|].
  split; [reflexivity|]. split; [reflexivity|].
  vm_compute. intros H. by apply H.
Qed.

(** Nor does the bound survive a resize that starts while the page renders
    the panel smaller than its inline size: in a workspace of 150 x 100 a
    maximized panel is rendered 150 wide, a press on its [n] handle reads
    that width, and the next pointer move writes it to the panel, whose
    minimum width is 200. *)
Lemma resized_while_rendered_smaller :
  let workspace := mkRect 0 0 150 100 in
  let m := run workspace (stylesheet_layout workspace) (new_PanelManager None)
             [CreatePanel (panel_at "a" 0 0 300 200); ToggleMaximize "a";
              HandleMouseDown (mkMouse 75 0) 0 dir_n;
              MouseMove (mkMouse 75 10)] in
  reachable workspace (stylesheet_layout workspace) None m /\
  exists data el,
    Map_get (panels m) "a" = Some data /\
    document m !! element data = Some el /\
    minWidth (config data) = 200%Q /\ width_px (style el) = 150%Q /\
    ~ (minWidth (config data) <= width_px (style el))%Q.
Proof.
  intros workspace m. split.
  { subst m. unfold reachable. apply reachable_by_run; [apply reach_new | along]. }
  eexists _, _. split; [vm_compute; reflexivity|].
  split; [vm_compute; reflexivity|].
  split; [reflexivity|]. split; [reflexivity|].
  vm_compute. intros H. by apply H.
Qed.

(** What an action does to the [maximized] flag and the saved bounds of a
    panel: [createPanel] with its id starts it afresh, [toggleMaximize] of
    its id writes them, and nothing else changes them. *)
Lemma perform_keeps_prevBounds workspaceRect getBoundingClientRect m a id data' :
  Map_get (panels (final (perform workspaceRect getBoundingClientRect m a))) id
  = Some data' ->
  state data' = mkPanelState false false None \/
  a = ToggleMaximize id \/
  exists data,
    Map_get (panels m) id = Some data /\
    maximized (state data') = maximized (state data) /\
    prevBounds (state data') = prevBounds (state data).
Proof.
  assert (forall ps, ps = panels m -> Map_get ps id = Some data' ->
            state data' = mkPanelState false false None \/
            a = ToggleMaximize id \/
            exists data,
              Map_get (panels m) id = Some data /\
              maximized (state data') = maximized (state data) /\
              prevBounds (state data') = prevBounds (state data)) as Hsame.
  { intros ps -> H. right. right. by exists data'. }
  assert (forall id0 d0 st,
            Map_get (panels m) id0 = Some d0 ->
            maximized st = maximized (state d0) ->
            prevBounds st = prevBounds (state d0) ->
            Map_get (Map_set (panels m) id0 (with_state st d0)) id = Some data' ->
            state data' = mkPanelState false false None \/
            a = ToggleMaximize id \/
            exists data,
              Map_get (panels m) id = Some data /\
              maximized (state data') = maximized (state data) /\
              prevBounds (state data') = prevBounds (state data)) as Hstate.
  { intros id0 d0 st H0 Hmax Hprev. rewrite Map_get_set.
    destruct (String.eqb_spec id0 id) as [->|_]; [|by apply Hsame].
    intros [= <-]. right. right. by exists d0. }
  destruct a; unfold perform; cbn [final].
  - unfold createPanel. cbn. rewrite Map_get_set.
    destruct (String.eqb_spec (c_id cfg) id) as [_|_]; [|by apply Hsame].
    intros [= <-]. by left.
  - unfold closePanel. destruct (Map_get (panels m) id0) eqn:H0; cbn;
      [|by apply Hsame].
    rewrite Map_get_delete. destruct (String.eqb id0 id); [done|by apply Hsame].
  - unfold showPanel. destruct (Map_get (panels m) id0) as [d0|] eqn:H0;
      [|by apply Hsame].
    rewrite focusPanel_panels. cbn. by apply Hstate.
  - unfold minimizePanel. destruct (Map_get (panels m) id0) as [d0|] eqn:H0;
      [|by apply Hsame].
    cbn. by apply Hstate.
  - destruct (String.eqb_spec id0 id) as [->|Hne]; [intros _; by right; left|].
    unfold toggleMaximize. destruct (Map_get (panels m) id0) as [d0|] eqn:H0;
      [|by apply Hsame].
    destruct (maximized (state d0)).
    + destruct (prevBounds (state d0)); cbn; [|by apply Hsame].
      rewrite Map_get_set. destruct (String.eqb_spec id0 id); [done|by apply Hsame].
    + destruct (document m !! element d0); cbn; [|by apply Hsame].
      rewrite Map_get_set. destruct (String.eqb_spec id0 id); [done|by apply Hsame].
  - rewrite focusPanel_panels. by apply Hsame.
  - cbn. by apply Hsame.
  - unfold loadPanelStates. destruct (localStorage m) as [[|doc]|]; by apply Hsame.
  - rewrite focusPanel_panels. apply Hsame. unfold startDrag.
    rewrite <- (focusPanel_panels m (bound_id m panel)).
    by destruct (document (focusPanel m (bound_id m panel)) !! panel).
  - unfold startResize.
    destruct (document (focusPanel m (bound_id m panel)) !! panel);
      [|cbn; rewrite focusPanel_panels; by apply Hsame].
    destruct (Map_get (panels (focusPanel m (bound_id m panel))) _); cbn;
      rewrite focusPanel_panels; by apply Hsame.
  - rewrite focusPanel_panels. by apply Hsame.
  - unfold handleMouseMove, handleDrag, handleResize.
    destruct (dragState m) as [ds|].
    + destruct (snappedV _), (snappedH _); cbn; by apply Hsame.
    + destruct (resizeState m); cbn; by apply Hsame.
  - unfold handleMouseUp.
    destruct (dragState m); cbn; destruct (resizeState m); cbn; by apply Hsame.
Qed.

(** C2, amended.  In every state the engine reaches, a maximized panel has
    [prevBounds] set.  The converse holds only for a panel that has never
    been maximized: as long as [toggleMaximize] has not been called with its
    id, a panel is not maximized and its [prevBounds] is [null]; and when
    [toggleMaximize] restores a maximized panel it copies [prevBounds] back
    into the rectangle of the element, removes the [maximized] class, clears
    the [maximized] flag and leaves [prevBounds] as it is, so that a restored
    panel is not maximized and has [prevBounds] set. *)
Theorem prevBounds_set_while_maximized workspaceRect getBoundingClientRect
    allowed storage m id data :
  reachable_by workspaceRect getBoundingClientRect allowed storage m ->
  Map_get (panels m) id = Some data ->
  (maximized (state data) = true ->
   exists prev m' data' el',
     prevBounds (state data) = Some prev /\
     toggleMaximize m id = Returns m' /\
     Map_get (panels m') id = Some data' /\
     maximized (state data') = false /\
     prevBounds (state data') = Some prev /\
     document m' !! element data' = Some el' /\
     style el' = prev /\
     maximizedClass (classList el') = false) /\
  ((forall m0 a, allowed m0 a -> a <> ToggleMaximize id) ->
   maximized (state data) = false /\ prevBounds (state data) = None).
Proof.
  intros Hreach Hget. split.
  - intros Hmax.
    pose proof (reachable_by_wf _ _ _ _ _ Hreach) as Hwf.
    pose proof (Map_get_elem_of _ _ _ Hget) as Hin.
    destruct (maximized_has_prevBounds _ _ _ _ Hwf id data Hin Hmax) as [prev Hprev].
    destruct (elements_exist _ _ _ _ Hwf _ _ Hin) as (el & Hel & _).
    exists prev. unfold toggleMaximize. rewrite Hget, Hmax, Hprev.
    eexists _, _, _. split; [done|]. split; [reflexivity|]. cbn.
    rewrite Map_get_set, String.eqb_refl.
    split; [reflexivity|]. split; [reflexivity|]. split; [done|]. cbn.
    rewrite !list_lookup_alter_eq, Hel. cbn. done.
  - intros Hnever. revert data Hget.
    induction Hreach as [|m a Hreach IH Ha]; intros data Hget.
    + unfold new_PanelManager, loadPanelStates in Hget.
      destruct storage as [[|doc]|]; discriminate Hget.
    + destruct (perform_keeps_prevBounds _ _ _ _ _ _ Hget)
        as [Hfresh|[->|(data0 & Hget0 & -> & ->)]].
      * by rewrite Hfresh.
      * by destruct (Hnever m (ToggleMaximize id) Ha).
      * by apply IH.
Qed.

Lemma prevBounds_set_while_maximized_witness :
  let m := play [CreatePanel (panel_at "a" 20 30 400 300); ToggleMaximize "a";
                 HeaderMouseDown (mkMouse 30 40) 0; MouseMove (mkMouse 90 80);
                 MouseUp] in
  let m0 := play [CreatePanel (panel_at "a" 20 30 400 300);
                  CreatePanel (panel_at "b" 500 30 400 300);
                  MinimizePanel "a"; ToggleMaximize "b"; ShowPanel "a";
                  HandleMouseDown (mkMouse 420 100) 0 dir_e;
                  MouseMove (mkMouse 450 100); MouseUp] in
  (exists m' data' el',
     toggleMaximize m "a" = Returns m' /\
     Map_get (panels m') "a" = Some data' /\
     maximized (state data') = false /\
     prevBounds (state data') = Some (mkBounds 20 30 400 300) /\
     document m' !! element data' = Some el' /\
     style el' = mkBounds 20 30 400 300) /\
  (exists data0,
     Map_get (panels m0) "a" = Some data0 /\
     maximized (state data0) = false /\ prevBounds (state data0) = None).
Proof.
  intros m m0. split.
  - assert (Map_get (panels m) "a"
            = Some (mkPanelData 0 (mkPanelConfig "a" "Panel" 200 150 true true)
                      (mkPanelState false true (Some (mkBounds 20 30 400 300)))))
      as Hget by (vm_compute; reflexivity).
    destruct (prevBounds_set_while_maximized
                workspace_1000x800 (inline_layout workspace_1000x800) enabled None
                m "a" _ ltac:(subst m; played) Hget)
      as [Hrestore _].
    destruct (Hrestore eq_refl)
      as (prev & m' & data' & el' & [= <-] & Htoggle & Hget' & Hmax & Hprev
          & Hel & Hstyle & _).
    by exists m', data', el'.
  - assert (Map_get (panels m0) "a"
            = Some (mkPanelData 0 (mkPanelConfig "a" "Panel" 200 150 true true)
                      (mkPanelState false false None)))
      as Hget by (vm_compute; reflexivity).
    eexists. split; [exact Hget|].
    eapply (prevBounds_set_while_maximized
              workspace_1000x800 (inline_layout workspace_1000x800)
              (never_toggles "a") None m0 "a" _).
    + subst m0. unfold play. apply reachable_by_run; [apply reach_new | along].
    + exact Hget.
    + by intros ? ? [_ ?].
Defined.

(** C2 as it is stated fails: after maximize and restore the panel is not
    maximized and its [prevBounds] is not [null]. *)
Lemma restored_panel_has_prevBounds :
  let m := play [CreatePanel (panel_at "a" 20 30 400 300);
                 ToggleMaximize "a"; ToggleMaximize "a"] in
  reachable workspace_1000x800 (inline_layout workspace_1000x800) None m /\
  exists data,
    Map_get (panels m) "a" = Some data /\
    maximized (state data) = false /\
    prevBounds (state data) = Some (mkBounds 20 30 400 300) /\
    prevBounds (state data) <> None.
Proof.
  intros m. split; [subst m; played|].
  eexists. split; [vm_compute; reflexivity|]. by repeat split.
Qed.

(** C6, amended.  For every panel that is not maximized when the first call
    is made, or that is maximized with its inline rectangle still equal to
    its [prevBounds], and for every rectangle it has, calling
    [toggleMaximize(id)] twice in succession leaves [style.left],
    [style.top], [style.width] and [style.height] exactly as they were. *)
Theorem toggleMaximize_twice_restores m id data el :
  Map_get (panels m) id = Some data ->
  document m !! element data = Some el ->
  maximized (state data) = false \/ prevBounds (state data) = Some (style el) ->
  exists m1 m2 data2 el2,
    toggleMaximize m id = Returns m1 /\
    toggleMaximize m1 id = Returns m2 /\
    Map_get (panels m2) id = Some data2 /\
    element data2 = element data /\
    document m2 !! element data = Some el2 /\
    style el2 = style el.
Proof.
  intros Hget Hel Hstart.
  assert (forall d, alter (with_style (style el)) (element data) d !! element data
                    = with_style (style el) <$> d !! element data) as Hstyle
    by (intros; apply list_lookup_alter_eq).
  unfold toggleMaximize at 1. rewrite Hget.
  destruct (maximized (state data)) eqn:Hmax.
  - destruct Hstart as [Hstart|Hprev]; [discriminate|]. rewrite Hprev.
    eexists _, _, _, _. split; [reflexivity|].
    unfold toggleMaximize. cbn. rewrite Map_get_set, String.eqb_refl. cbn.
    rewrite list_lookup_alter_eq, list_lookup_alter_eq, Hel. cbn.
    split; [reflexivity|]. cbn. rewrite Map_get_set, String.eqb_refl.
    split; [reflexivity|]. split; [reflexivity|].
    rewrite list_lookup_alter_eq, list_lookup_alter_eq, list_lookup_alter_eq, Hel.
    split; reflexivity.
  - rewrite Hel.
    eexists _, _, _, _. split; [reflexivity|].
    unfold toggleMaximize. cbn. rewrite Map_get_set, String.eqb_refl. cbn.
    split; [reflexivity|]. cbn. rewrite Map_get_set, String.eqb_refl.
    split; [reflexivity|]. split; [reflexivity|].
    rewrite list_lookup_alter_eq, list_lookup_alter_eq, list_lookup_alter_eq, Hel.
    split; reflexivity.
Qed.

Lemma toggleMaximize_twice_restores_witness :
  let m := play [CreatePanel (panel_at "a" 20 30 400 300)] in
  exists m1 m2 el2,
    toggleMaximize m "a" = Returns m1 /\
    toggleMaximize m1 "a" = Returns m2 /\
    document m2 !! 0%nat = Some el2 /\
    style el2 = mkBounds 20 30 400 300.
Proof.
  intros m.
  destruct (toggleMaximize_twice_restores m "a"
              (mkPanelData 0 (mkPanelConfig "a" "Panel" 200 150 true true)
                 (mkPanelState false false None))
              (mkElement "a" (mkBounds 20 30 400 300) None
                 (mkClassList false false false false false) true true)
              eq_refl eq_refl (or_introl eq_refl))
    as (m1 & m2 & data2 & el2 & H1 & H2 & _ & _ & Hel2 & Hstyle).
  by exists m1, m2, el2.
Defined.

(** C6 as it is stated fails for a panel that was dragged while maximized:
    the drag writes [style.left] and [style.top], and the two calls put the
    rectangle saved when the panel was maximized in their place. *)
Lemma toggleMaximize_twice_after_drag :
  let m := play [CreatePanel (panel_at "a" 100 100 300 400);
                 ToggleMaximize "a";
                 HeaderMouseDown (mkMouse 150 110) 0;
                 MouseMove (mkMouse 200 160);
                 MouseUp] in
  reachable workspace_1000x800 (inline_layout workspace_1000x800) None m /\
  exists el m1 m2 el2,
    document m !! 0%nat = Some el /\
    style el = mkBounds 150 150 300 400 /\
    toggleMaximize m "a" = Returns m1 /\
    toggleMaximize m1 "a" = Returns m2 /\
    document m2 !! 0%nat = Some el2 /\
    style el2 = mkBounds 100 100 300 400 /\
    style el2 <> style el.
Proof.
  intros m. split; [subst m; played|].
  eexists _, _, _, _. split; [vm_compute; reflexivity|].
  split; [reflexivity|]. split; [vm_compute; reflexivity|].
  split; [vm_compute; reflexivity|]. split; [vm_compute; reflexivity|].
  split; [reflexivity|]. discriminate.
Qed.

(** C7, amended.  The engine does not refuse a press during a session:
    [startDrag] and [startResize] assign their session whatever the other
    one is.  When the host delivers a press on a header or on a resize
    handle only while no session is under way, at most one of [dragState]
    and [resizeState] is set in every state the engine reaches. *)
Theorem sessions_exclusive workspaceRect getBoundingClientRect storage m :
  reachable_by workspaceRect getBoundingClientRect enabled_one_press storage m ->
  dragState m = None \/ resizeState m = None.
Proof. apply reachable_exclusive. Qed.

Lemma sessions_exclusive_witness :
  let m := play [CreatePanel (panel_at "a" 100 100 300 200);
                 HandleMouseDown (mkMouse 400 150) 0 dir_e;
                 MouseMove (mkMouse 450 150);
                 MouseUp;
                 HeaderMouseDown (mkMouse 150 110) 0] in
  dragState m = None \/ resizeState m = None.
Proof.
  intros m.
  apply (sessions_exclusive workspace_1000x800 (inline_layout workspace_1000x800) None).
  subst m. unfold play. apply reachable_by_run; [apply reach_new | along].
Defined.

(** C7 as it is stated fails: a press on the header while a resize session
    is active starts a drag session, and both sessions are then active. *)
Lemma drag_starts_during_resize :
  let m := play [CreatePanel (panel_at "a" 100 100 300 200);
                 HandleMouseDown (mkMouse 400 150) 0 dir_e] in
  let m' := final (perform workspace_1000x800 (inline_layout workspace_1000x800) m
                     (HeaderMouseDown (mkMouse 150 110) 0)) in
  reachable workspace_1000x800 (inline_layout workspace_1000x800) None m' /\
  is_Some (resizeState m) /\ dragState m = None /\
  is_Some (dragState m') /\ is_Some (resizeState m') /\
  ~ (dragState m' = None \/ resizeState m' = None).
Proof.
  intros m m'.
  split.
  { subst m' m. unfold play, reachable.
    apply reach_step; [apply reachable_by_run; [apply reach_new | along] | along]. }
  split; [eexists; vm_compute; reflexivity|].
  split; [vm_compute; reflexivity|].
  split; [eexists; vm_compute; reflexivity|].
  split; [eexists; vm_compute; reflexivity|].
  vm_compute. intros [H|H]; discriminate.
Qed.

(** C8, amended.  For every panel id other than [__proto__] in the registry
    when the states are saved, loading them afterwards yields the panel's
    [minimized] and [maximized] flags exactly, [parseInt] of its [style.left]
    and [style.top] as [x] and [y], and the width and height of its rendered
    rectangle as [width] and [height].  [parseInt] gives the whole part,
    fraction dropped, of a number printed in positional notation, and the
    first digit of one printed with an exponent.  The values loaded are the
    panel's x, y, width and height exactly when its left and top are whole
    numbers below 1e21 in magnitude and the page renders it at its inline
    size.  A panel whose id is [__proto__] is not saved (the assignment to
    [states[id]] replaces the prototype of [states]), and loading answers
    [Object.prototype] for it. *)
Theorem save_load_roundtrip workspaceRect getBoundingClientRect storage
    m id data el :
  reachable workspaceRect getBoundingClientRect storage m ->
  Map_get (panels m) id = Some data ->
  document m !! element data = Some el ->
  let loaded :=
    getSavedState (loadPanelStates (savePanelStates getBoundingClientRect m)) id in
  (id = "__proto__" -> loaded = Some (Inherited "__proto__")) /\
  (id <> "__proto__" ->
   exists sv,
     loaded = Some (Entry sv) /\
     saved_minimized sv = minimized (state data) /\
     saved_maximized sv = maximized (state data) /\
     saved_x sv = parseInt_px (left_px (style el)) /\
     saved_y sv = parseInt_px (top_px (style el)) /\
     saved_width sv = rect_width (getBoundingClientRect el) /\
     saved_height sv = rect_height (getBoundingClientRect el) /\
     (exponent_notation (left_px (style el)) = false ->
      saved_x sv
      = inject_Z (Z.quot (Qnum (left_px (style el)))
                         (Zpos (Qden (left_px (style el)))))) /\
     (exponent_notation (top_px (style el)) = false ->
      saved_y sv
      = inject_Z (Z.quot (Qnum (top_px (style el)))
                         (Zpos (Qden (top_px (style el)))))) /\
     (forall kx ky,
        left_px (style el) == inject_Z kx -> top_px (style el) == inject_Z ky ->
        (Z.abs kx < 10 ^ 21)%Z -> (Z.abs ky < 10 ^ 21)%Z ->
        rect_width (getBoundingClientRect el) == width_px (style el) ->
        rect_height (getBoundingClientRect el) == height_px (style el) ->
        saved_x sv == left_px (style el) /\
        saved_y sv == top_px (style el) /\
        saved_width sv == width_px (style el) /\
        saved_height sv == height_px (style el))).
Proof.
  intros Hreach Hget Hel loaded.
  pose proof (reachable_by_wf _ _ _ _ _ Hreach) as Hwf.
  pose proof (save_then_load getBoundingClientRect m id data el Hwf Hget Hel)
    as Hloaded.
  fold loaded in Hloaded. split.
  - intros ->. exact Hloaded.
  - intros Hid. destruct (String.eqb_spec id "__proto__") as [|_]; [done|].
    exists (snapshot getBoundingClientRect el data).
    split; [exact Hloaded|].
    repeat (split; [reflexivity|]).
    split; [|split].
    + intros Hpos. cbn. unfold parseInt_px. by rewrite Hpos.
    + intros Hpos. cbn. unfold parseInt_px. by rewrite Hpos.
    + intros kx ky Hx Hy Hkx Hky Hw Hh. cbn.
      repeat split; eauto using parseInt_px_whole.
Qed.

Lemma save_load_roundtrip_witness :
  let m := play [CreatePanel (panel_at "p1" 20 30 400 300); MinimizePanel "p1"] in
  getSavedState
    (loadPanelStates (savePanelStates (inline_layout workspace_1000x800) m)) "p1"
  = Some (Entry (mkSaved 20 30 400 300 true false)).
Proof.
  intros m.
  destruct (save_load_roundtrip workspace_1000x800 (inline_layout workspace_1000x800)
              None m "p1"
              (mkPanelData 0 (mkPanelConfig "p1" "Panel" 200 150 true true)
                 (mkPanelState true false None))
              (mkElement "p1" (mkBounds 20 30 400 300) None
                 (mkClassList true false false false false) true true)
              ltac:(subst m; played) eq_refl eq_refl)
    as [_ Hsaved].
  destruct Hsaved as (sv & Hsv & Hmin & Hmax & Hx & Hy & Hw & Hh & _);
    [discriminate|].
  rewrite Hsv. destruct sv; cbn in *. by subst.
Defined.

(** C8 as it is stated fails: a panel at [left = 150.25] is saved, and
    loaded, with [x = 150]. *)
Lemma save_load_drops_fraction :
  let m := play [CreatePanel (panel_at "p1" (601 # 4) 50 500 400)] in
  reachable workspace_1000x800 (inline_layout workspace_1000x800) None m /\
  exists el sv,
    document m !! 0%nat = Some el /\
    left_px (style el) = 601 # 4 /\
    getSavedState
      (loadPanelStates (savePanelStates (inline_layout workspace_1000x800) m)) "p1"
    = Some (Entry sv) /\
    saved_x sv = 150 /\
    ~ saved_x sv == left_px (style el).
Proof.
  intros m. split; [subst m; played|].
  eexists _, _. split; [vm_compute; reflexivity|]. split; [reflexivity|].
  split; [vm_compute; reflexivity|]. split; [reflexivity|].
  vm_compute. discriminate.
Qed.

(** [parseInt] of a length printed with an exponent: ['1e-7px'] gives 1,
    ['-9.99e-7px'] gives -9 and ['2e+21px'] gives 2. *)
Example parseInt_px_of_an_exponent :
  parseInt_px (1 # 10000000) = 1 /\
  parseInt_px (- (999 # 1000000000)) = inject_Z (-9) /\
  parseInt_px (inject_Z (2 * 10 ^ 21)) = 2.
Proof. vm_compute. by repeat split. Qed.

(** A panel whose id is [__proto__] is left out of the stored document, and
    an id that names a member of [Object.prototype] is answered with that
    member when nothing is stored for it. *)
Example saved_state_of_an_inherited_name :
  let m := play [CreatePanel (panel_at "__proto__" 20 30 400 300);
                 CreatePanel (panel_at "p1" 50 60 400 300)] in
  let m' := loadPanelStates (savePanelStates (inline_layout workspace_1000x800) m) in
  localStorage m' = Some (Json [("p1", mkSaved 50 60 400 300 false false)]) /\
  getSavedState m' "__proto__" = Some (Inherited "__proto__") /\
  getSavedState m' "constructor" = Some (Inherited "constructor") /\
  getSavedState m' "p2" = None.
Proof. vm_compute. by repeat split. Qed.

(** C9, amended.  [PanelManager.createPanel] never reads the persisted
    layout: what it registers and renders does not depend on it, and a
    geometry option left out of its config falls back to the hard default.
    The persisted entry is applied by the widgets that create the panels:
    [CodeEditor.createPanel] (both copies of the class),
    [OrbryaEngine.createViewportPanel] and [VisualProfiler.createPanel],
    which take no geometry from their caller, pass the persisted x, y, width
    and height of their id to the engine when an entry exists, and the panel
    starts with exactly that geometry.  Loading the persisted layout changes
    neither the registry nor any element. *)
Theorem persisted_geometry_applied_by_widget innerWidth workspaceRect m t vp :
  (forall sv,
     getSavedState m "code-editor-panel" = Some (Entry sv) ->
     created_with (fst (CodeEditor_createPanel innerWidth m))
                  (snd (CodeEditor_createPanel innerWidth m))
                  "code-editor-panel" (saved_bounds sv) /\
     created_with (fst (CodeEditor_createPanel_alt innerWidth m))
                  (snd (CodeEditor_createPanel_alt innerWidth m))
                  "code-editor-panel" (saved_bounds sv)) /\
  (forall sv,
     getSavedState m "viewport-panel" = Some (Entry sv) ->
     created_with (createViewportPanel workspaceRect m) (length (document m))
                  "viewport-panel" (saved_bounds sv)) /\
  (forall sv,
     getSavedState m "profiler-panel" = Some (Entry sv) ->
     let '(m', _, vp') := VisualProfiler_createPanel innerWidth (m, t, vp) in
     exists panel,
       vp_panel vp' = Some panel /\
       created_with m' panel "profiler-panel" (saved_bounds sv)) /\
  (forall cfg saved,
     fst (createPanel (with_savedStates saved m) cfg)
     = with_savedStates saved (fst (createPanel m cfg))) /\
  panels (loadPanelStates m) = panels m /\
  document (loadPanelStates m) = document m.
Proof.
  assert (forall id title x y w h minW minH r c,
            created_with
              (fst (createPanel m (mkConfig id title (Some x) (Some y) (Some w)
                                            (Some h) minW minH r c)))
              (snd (createPanel m (mkConfig id title (Some x) (Some y) (Some w)
                                            (Some h) minW minH r c)))
              id (mkBounds x y w h)) as Hcreated.
  { intros. unfold created_with, createPanel. cbn.
    eexists _, _. rewrite Map_get_set, String.eqb_refl.
    split; [reflexivity|]. split; [reflexivity|].
    rewrite lookup_app_r, Nat.sub_diag by lia. split; reflexivity. }
  split; [|split; [|split; [|split; [reflexivity|split]]]].
  - intros sv Hsv. unfold CodeEditor_createPanel, CodeEditor_createPanel_alt.
    rewrite Hsv. split; apply Hcreated.
  - intros sv Hsv. unfold createViewportPanel. rewrite Hsv. apply Hcreated.
  - intros sv Hsv. unfold VisualProfiler_createPanel. rewrite Hsv.
    cbn [optional_chain nullish].
    generalize (Hcreated "profiler-panel" "Performance" (saved_x sv) (saved_y sv)
                  (saved_width sv) (saved_height sv) (Some 220) (Some 300)
                  None None).
    destruct (createPanel m _) as [m' panel]. intros H.
    exists panel. split; [reflexivity|exact H].
  - unfold loadPanelStates. by destruct (localStorage m) as [[|doc]|].
  - unfold loadPanelStates. by destruct (localStorage m) as [[|doc]|].
Qed.

Lemma persisted_geometry_applied_by_widget_witness :
  let m := new_PanelManager
             (Some (Json [("code-editor-panel", mkSaved 7 8 333 444 false false)])) in
  exists el,
    document (fst (CodeEditor_createPanel 1280 m)) !! 0%nat = Some el /\
    style el = mkBounds 7 8 333 444.
Proof.
  intros m.
  destruct (persisted_geometry_applied_by_widget 1280 workspace_1000x800 m
              (mkTimers 1 []) (mkProfiler true None None false None))
    as [Hcode _].
  destruct (Hcode (mkSaved 7 8 333 444 false false) eq_refl)
    as [(data & el & Hget & Hpanel & Hel & Hstyle) _].
  exists el. split; [exact Hel | exact Hstyle].
Defined.

(** C9 as it is stated fails: with an entry persisted for the id and no
    position or size in the config, [createPanel] gives the panel the hard
    defaults. *)
Lemma createPanel_ignores_persisted_entry :
  let m := new_PanelManager
             (Some (Json [("p1", mkSaved 7 8 333 444 false false)])) in
  let created := createPanel m (mkConfig "p1" "Panel" None None None None
                                         None None None None) in
  getSavedState m "p1" = Some (Entry (mkSaved 7 8 333 444 false false)) /\
  exists el,
    document (fst created) !! snd created = Some el /\
    style el = mkBounds 100 100 300 400 /\
    style el <> mkBounds 7 8 333 444.
Proof.
  intros m created. split; [reflexivity|].
  eexists. split; [vm_compute; reflexivity|]. split; [reflexivity|discriminate].
Qed.

(** C5.  [calculateSnap] returns, on each axis, what the last matching rule
    sets, the rules being taken in the order: workspace-left,
    workspace-right, workspace-top, workspace-bottom, then for each sibling
    in registry insertion order its four horizontal and its four vertical
    checks.  The last matching rule decides even when an earlier one is
    nearer: a panel moved to [x = 4] is within the threshold of the left
    edge of the workspace (4 away) and of the edges of a sibling (6 away),
    and snaps to the sibling. *)
Theorem calculateSnap_last_match_wins :
  (forall workspaceRect getBoundingClientRect m panelId newX newY width height,
     calculateSnap workspaceRect getBoundingClientRect m panelId
                   newX newY width height
     = last_match_wins newX newY (snapThreshold m)
         (snap_rules workspaceRect getBoundingClientRect
                     newX newY width height m panelId)) /\
  (let m := play [CreatePanel (panel_at "a" 10 0 300 200);
                  CreatePanel (panel_at "b" 400 300 300 200)] in
   let page := inline_layout workspace_1000x800 in
   let rules := snap_rules workspace_1000x800 page 4 300 300 200 m "b" in
   head rules = Some (mkRule AxisX 4 0 0) /\
   rule_matches (snapThreshold m) (mkRule AxisX 4 0 0) = true /\
   last_match (snapThreshold m) AxisX rules = Some (mkRule AxisX (-6) 10 310) /\
   Qabs 4 < Qabs (-6) /\
   snapX (calculateSnap workspace_1000x800 page m "b" 4 300 300 200) = 10).
Proof.
  split.
  - intros. rewrite calculateSnap_fold. apply fold_rules_last_match.
  - repeat split; vm_compute; reflexivity.
Qed.

(** C3: what the code does in the scenario.  A panel with [minWidth = 200]
    at (100, 100, 300, 200) is resized by its [w] handle.  With [dx = -50]
    it gets width 350 and left 50.  With [dx = +150] the width is clamped
    to 200 and the left is put back to the left of the start of the
    session, 100: the east edge, which was at 400, is then at 300. *)
Theorem resize_west_scenario :
  let page := inline_layout workspace_1000x800 in
  let m := play [CreatePanel (mkConfig "a" "Panel" (Some 100) (Some 100)
                                       (Some 300) (Some 200) (Some 200) None
                                       None None);
                 HandleMouseDown (mkMouse 100 150) 0 dir_w] in
  let grown := handleMouseMove workspace_1000x800 page m (mkMouse 50 150) in
  let clamped := handleMouseMove workspace_1000x800 page grown (mkMouse 250 150) in
  style <$> document m !! 0%nat = Some (mkBounds 100 100 300 200) /\
  style <$> document grown !! 0%nat = Some (mkBounds 50 100 350 200) /\
  style <$> document clamped !! 0%nat = Some (mkBounds 100 100 200 200) /\
  100 + 300 == 400 /\ 50 + 350 == 400 /\ ~ 100 + 200 == 400.
Proof. repeat split; vm_compute; congruence. Qed.

(** Once the width asked for is at or below the minimum, the [w] handle
    leaves the panel at the left of the start of the session. *)
Lemma resize_west_left_when_clamped rs ev :
  rs_direction rs = dir_w ->
  rs_startWidth rs - (clientX ev - rs_startX rs) <= rs_minWidth rs ->
  resize_bounds rs ev
  = mkBounds (rs_startLeft rs) (rs_startTop rs) (rs_minWidth rs) (rs_startHeight rs).
Proof.
  intros Hdir Hle. unfold resize_bounds. rewrite Hdir. cbn.
  assert (Math_max (rs_minWidth rs)
            (rs_startWidth rs - (clientX ev - rs_startX rs)) = rs_minWidth rs) as ->.
  { unfold Math_max, Qmax, GenericMinMax.gmax.
    destruct (rs_minWidth rs ?= _) eqn:Hcmp; try reflexivity.
    apply Qlt_alt in Hcmp. lra. }
  assert (Qltb (rs_minWidth rs) (rs_minWidth rs) = false) as ->; [|reflexivity].
  unfold Qltb. apply negb_false_iff, Qle_bool_iff, Qle_refl.
Qed.

(** C4: what the code does.  [closePanel], [toggleMaximize], [minimizePanel]
    and [showPanel] return at once for an id that is not registered.
    [focusPanel] first removes the [focused] class from every registered
    panel and only then looks the id up: for an unknown id it returns
    normally, but the panel that had the focus has lost its [focused] class
    while [activePanel] still names it. *)
Theorem focusPanel_unknown_id_clears_focus :
  (forall getBoundingClientRect m id,
     Map_get (panels m) id = None ->
     closePanel getBoundingClientRect m id = m /\
     toggleMaximize m id = Returns m /\
     minimizePanel m id = m /\
     showPanel m id = m /\
     focusPanel m id = with_document (unfocus_all (panels m) (document m)) m) /\
  (let page := inline_layout workspace_1000x800 in
   let m := play [CreatePanel (panel_at "a" 50 50 300 200); FocusPanel "a"] in
   let m' := focusPanel m "ghost" in
   Map_get (panels m) "ghost" = None /\
   perform workspace_1000x800 page m (FocusPanel "ghost") = Returns m' /\
   (focused ∘ classList) <$> document m !! 0%nat = Some true /\
   (focused ∘ classList) <$> document m' !! 0%nat = Some false /\
   activePanel m' = Some "a" /\
   m' <> m).
Proof.
  split.
  - intros gbcr m id Hget.
    unfold closePanel, toggleMaximize, minimizePanel, showPanel, focusPanel.
    cbn. by rewrite Hget.
  - repeat split; try (vm_compute; reflexivity).
    vm_compute. discriminate.
Qed.

(** * Further properties of the engine *)

(** ** Snapping *)

Lemma last_match_spec thr a rules rule :
  last_match thr a rules = Some rule ->
  rule ∈ rules /\ on_axis a rule = true /\ rule_matches thr rule = true.
Proof.
  unfold last_match. intros H. apply last_Some in H as [l' Hl'].
  assert (In rule (List.filter (fun r => on_axis a r && rule_matches thr r) rules))
    as Hin by (rewrite Hl'; apply in_or_app; right; by left).
  apply filter_In in Hin as [Hin Hb]. apply andb_true_iff in Hb as [? ?].
  split; [by apply list_elem_of_In|done].
Qed.

(** Every rule moves the panel, along its axis, by exactly the gap it
    compares with the threshold. *)
Lemma snap_rule_target workspaceRect getBoundingClientRect newX newY width height
    m panelId rule :
  rule ∈ snap_rules workspaceRect getBoundingClientRect newX newY width height
           m panelId ->
  match rule_axis rule with
  | AxisX => rule_snap rule == newX - rule_gap rule
  | AxisY => rule_snap rule == newY - rule_gap rule
  end.
Proof.
  unfold snap_rules. rewrite elem_of_app. intros [Hin|Hin].
  - unfold workspace_rules in Hin.
    repeat (apply elem_of_cons in Hin as [->|Hin]; [cbn; ring|]).
    by apply elem_of_nil in Hin.
  - apply list_elem_of_In, in_flat_map in Hin as ([[[pLeft pTop] pRight] pBottom] & _ & Hin).
    apply list_elem_of_In in Hin. unfold sibling_rules in Hin.
    repeat (apply elem_of_cons in Hin as [->|Hin]; [cbn; ring|]).
    by apply elem_of_nil in Hin.
Qed.

Lemma Qltb_lt a b : Qltb a b = true <-> a < b.
Proof.
  unfold Qltb. rewrite negb_true_iff. split.
  - intros H. apply Qnot_le_lt. intros Hle. apply Qle_bool_iff in Hle. congruence.
  - intros H. destruct (Qle_bool b a) eqn:Hb; [|done].
    apply Qle_bool_iff in Hb. lra.
Qed.

(** X1.  Snapping never moves the panel far: on each axis [calculateSnap]
    either reports no snap and returns the candidate coordinate as it is,
    or reports a snap and returns a coordinate less than the threshold away
    from the candidate. *)
Theorem calculateSnap_within_threshold workspaceRect getBoundingClientRect
    m panelId newX newY width height :
  let snap := calculateSnap workspaceRect getBoundingClientRect m panelId
                            newX newY width height in
  (if snappedV snap then Qabs (snapX snap - newX) < snapThreshold m
   else snapX snap = newX) /\
  (if snappedH snap then Qabs (snapY snap - newY) < snapThreshold m
   else snapY snap = newY).
Proof.
  intros snap. subst snap. rewrite calculateSnap_fold, fold_rules_last_match.
  unfold last_match_wins. cbn.
  split.
  - destruct (last_match (snapThreshold m) AxisX _) as [rule|] eqn:Hlast; cbn; [|done].
    apply last_match_spec in Hlast as (Hin & Hax & Hm).
    apply snap_rule_target in Hin. unfold on_axis in Hax.
    destruct (rule_axis rule); [|discriminate].
    apply Qltb_lt in Hm. unfold Math_abs in Hm.
    assert (rule_snap rule - newX == - rule_gap rule) as Heq by (rewrite Hin; ring).
    apply Qabs_wd in Heq. pose proof (Qabs_opp (rule_gap rule)) as Hopp.
    apply Qle_lt_trans with (Qabs (rule_gap rule)); [|done].
    apply Qle_lteq. right. by apply Qeq_trans with (Qabs (- rule_gap rule)).
  - destruct (last_match (snapThreshold m) AxisY _) as [rule|] eqn:Hlast; cbn; [|done].
    apply last_match_spec in Hlast as (Hin & Hax & Hm).
    apply snap_rule_target in Hin. unfold on_axis in Hax.
    destruct (rule_axis rule); [discriminate|].
    apply Qltb_lt in Hm. unfold Math_abs in Hm.
    assert (rule_snap rule - newY == - rule_gap rule) as Heq by (rewrite Hin; ring).
    apply Qabs_wd in Heq. pose proof (Qabs_opp (rule_gap rule)) as Hopp.
    apply Qle_lt_trans with (Qabs (rule_gap rule)); [|done].
    apply Qle_lteq. right. by apply Qeq_trans with (Qabs (- rule_gap rule)).
Qed.

(** ** Resizing *)

Lemma Math_max_above a b : a < b -> Math_max a b = b.
Proof.
  intros H. unfold Math_max, Qmax, GenericMinMax.gmax.
  assert ((a ?= b) = Lt) as -> by (by apply Qlt_alt). reflexivity.
Qed.

Lemma Math_max_below a b : b <= a -> Math_max a b = a.
Proof.
  intros H. unfold Math_max, Qmax, GenericMinMax.gmax.
  destruct (a ?= b) eqn:Hcmp; try reflexivity.
  apply Qlt_alt in Hcmp. lra.
Qed.

(** X2.  What a resize move leaves alone.  A handle without [w] in its
    name does not move the left of the panel, one without [n] does not move
    its top; a handle with neither [e] nor [w] keeps the width of the start
    of the session, one with neither [s] nor [n] keeps the height.  While
    the width asked for through a [w] handle is above the minimum, the east
    edge stays where it was, and likewise the south edge for an [n]
    handle. *)
Theorem resize_bounds_keeps_the_other_edges rs ev :
  let direction := direction_name (rs_direction rs) in
  let b := resize_bounds rs ev in
  let dx := clientX ev - rs_startX rs in
  let dy := clientY ev - rs_startY rs in
  (includes direction "w" = false -> left_px b = rs_startLeft rs) /\
  (includes direction "n" = false -> top_px b = rs_startTop rs) /\
  (includes direction "e" = false -> includes direction "w" = false ->
   width_px b = rs_startWidth rs) /\
  (includes direction "s" = false -> includes direction "n" = false ->
   height_px b = rs_startHeight rs) /\
  (includes direction "w" = true -> rs_minWidth rs < rs_startWidth rs - dx ->
   left_px b + width_px b == rs_startLeft rs + rs_startWidth rs) /\
  (includes direction "n" = true -> rs_minHeight rs < rs_startHeight rs - dy ->
   top_px b + height_px b == rs_startTop rs + rs_startHeight rs).
Proof.
  intros direction b dx dy. subst direction b dx dy. unfold resize_bounds.
  destruct (rs_direction rs); cbn; repeat split; try done;
    intros _ Habove;
    rewrite (Math_max_above _ _ Habove), (proj2 (Qltb_lt _ _) Habove); ring.
Qed.

(** ** Stacking order *)

Lemma stacked_alter doc top f r :
  (forall el, zIndex (f el) = zIndex el) ->
  stacked doc top -> stacked (alter f r doc) top.
Proof.
  intros Hf [Hd Hr Hb]. split; [| |done].
  - intros r1 r2 el1 el2 z H1 H2 Hz1 Hz2.
    destruct (lookup_alter_Some _ _ _ _ _ H1) as (e1 & He1 & [->|[_ ->]]);
      destruct (lookup_alter_Some _ _ _ _ _ H2) as (e2 & He2 & [->|[_ ->]]);
      rewrite ?Hf in *; eauto.
  - intros j el z H Hz.
    destruct (lookup_alter_Some _ _ _ _ _ H) as (e & He & [->|[_ ->]]);
      rewrite ?Hf in *; eauto.
Qed.

Lemma stacked_unfocus ps doc top : stacked doc top -> stacked (unfocus_all ps doc) top.
Proof.
  unfold unfocus_all. revert doc.
  induction ps as [|entry ps IH]; simpl; intros doc H; [done|].
  by apply IH, stacked_alter.
Qed.

Lemma stacked_raise doc top r :
  stacked doc top -> stacked (alter (with_zIndex (top + 1)) r doc) (top + 1).
Proof.
  intros [Hd Hr Hb]. split; [| |lia].
  - intros r1 r2 el1 el2 z H1 H2 Hz1 Hz2.
    destruct (lookup_alter_Some _ _ _ _ _ H1) as (e1 & He1 & [->|[<- ->]]);
      destruct (lookup_alter_Some _ _ _ _ _ H2) as (e2 & He2 & [->|[<- ->]]);
      try done.
    + eauto.
    + injection Hz2 as <-. specialize (Hr _ _ _ He1 Hz1). lia.
    + injection Hz1 as <-. specialize (Hr _ _ _ He2 Hz2). lia.
  - intros j el z H Hz.
    destruct (lookup_alter_Some _ _ _ _ _ H) as (e & He & [->|[_ ->]]).
    + specialize (Hr _ _ _ He Hz). lia.
    + injection Hz as <-. lia.
Qed.

Lemma stacked_create doc top id b cl h :
  stacked doc top -> stacked (doc ++ [mkElement id b None cl h true]) top.
Proof.
  intros [Hd Hr Hb].
  assert (forall r el z, (doc ++ [mkElement id b None cl h true]) !! r = Some el ->
            zIndex el = Some z -> doc !! r = Some el) as Hold.
  { intros r el z H Hz. apply lookup_app_Some in H as [H|[_ H]]; [done|].
    apply list_lookup_singleton_Some in H as [_ <-]. discriminate. }
  split; [| |done].
  - intros r1 r2 el1 el2 z H1 H2 Hz1 Hz2. eauto.
  - intros r el z H Hz. eauto.
Qed.

(** Peels the updates that leave [zIndex] alone off a stacking goal. *)
Ltac stacking :=
  repeat first
    [ assumption
    | apply stacked_alter; [solve [intros; reflexivity]|]
    | apply stacked_unfocus ].

Lemma stacked_focusPanel m id :
  stacked (document m) (topZIndex m) ->
  stacked (document (focusPanel m id)) (topZIndex (focusPanel m id)).
Proof.
  unfold focusPanel. intros H. cbn.
  destruct (Map_get (panels m) id) as [data|]; cbn; [|by stacking].
  apply stacked_alter; [done|]. apply stacked_raise. by stacking.
Qed.

Lemma stacked_perform workspaceRect getBoundingClientRect m a :
  stacked (document m) (topZIndex m) ->
  stacked (document (final (perform workspaceRect getBoundingClientRect m a)))
          (topZIndex (final (perform workspaceRect getBoundingClientRect m a))).
Proof.
  intros H. destruct a; unfold perform; cbn [final].
  - unfold createPanel. cbn. by apply stacked_create.
  - unfold closePanel. destruct (Map_get (panels m) id); cbn; by stacking.
  - unfold showPanel. destruct (Map_get (panels m) id) as [data|]; [|done].
    apply stacked_focusPanel. cbn. by stacking.
  - unfold minimizePanel. destruct (Map_get (panels m) id); cbn; by stacking.
  - unfold toggleMaximize. destruct (Map_get (panels m) id) as [data|]; [|done].
    destruct (maximized (state data)).
    + destruct (prevBounds (state data)); cbn; by stacking.
    + destruct (document m !! element data); cbn; by stacking.
  - by apply stacked_focusPanel.
  - done.
  - unfold loadPanelStates. by destruct (localStorage m) as [[|doc]|].
  - apply stacked_focusPanel. unfold startDrag.
    apply (stacked_focusPanel m (bound_id m panel)) in H.
    destruct (document (focusPanel m (bound_id m panel)) !! panel); cbn; by stacking.
  - unfold startResize.
    apply (stacked_focusPanel m (bound_id m panel)) in H.
    destruct (document (focusPanel m (bound_id m panel)) !! panel); [|done].
    destruct (Map_get (panels (focusPanel m (bound_id m panel))) _); cbn; by stacking.
  - by apply stacked_focusPanel.
  - unfold handleMouseMove, handleDrag, handleResize.
    destruct (dragState m) as [ds|].
    + destruct (snappedV _), (snappedH _); cbn; by stacking.
    + destruct (resizeState m); cbn; by stacking.
  - unfold handleMouseUp.
    destruct (dragState m); cbn; destruct (resizeState m); cbn; by stacking.
Qed.

Lemma topZIndex_perform workspaceRect getBoundingClientRect m a :
  (topZIndex m <= topZIndex (final (perform workspaceRect getBoundingClientRect m a)))%Z.
Proof.
  assert (forall m id, (topZIndex m <= topZIndex (focusPanel m id))%Z) as Hfocus.
  { intros m0 id. unfold focusPanel. cbn. destruct (Map_get (panels m0) id); cbn; lia. }
  destruct a; unfold perform; cbn [final]; try apply Hfocus; try (cbn; lia).
  - unfold closePanel. destruct (Map_get (panels m) id); cbn; lia.
  - unfold showPanel. destruct (Map_get (panels m) id) as [data|]; [|lia].
    etransitivity; [|apply Hfocus]. cbn. lia.
  - unfold minimizePanel. destruct (Map_get (panels m) id); cbn; lia.
  - unfold toggleMaximize. destruct (Map_get (panels m) id) as [data|]; [|cbn; lia].
    destruct (maximized (state data)).
    + destruct (prevBounds (state data)); cbn; lia.
    + destruct (document m !! element data); cbn; lia.
  - unfold loadPanelStates. destruct (localStorage m) as [[|doc]|]; cbn; lia.
  - etransitivity; [|apply Hfocus]. unfold startDrag.
    specialize (Hfocus m (bound_id m panel)).
    destruct (document (focusPanel m (bound_id m panel)) !! panel); cbn; lia.
  - unfold startResize. specialize (Hfocus m (bound_id m panel)).
    destruct (document (focusPanel m (bound_id m panel)) !! panel); [|cbn; lia].
    destruct (Map_get (panels (focusPanel m (bound_id m panel))) _); cbn; lia.
  - unfold handleMouseMove, handleDrag, handleResize.
    destruct (dragState m) as [ds|].
    + destruct (snappedV _), (snappedH _); cbn; lia.
    + destruct (resizeState m); cbn; lia.
  - unfold handleMouseUp.
    destruct (dragState m); cbn; destruct (resizeState m); cbn; lia.
Qed.

(** X3.  The stacking order.  In every state the engine reaches, no two
    panel elements have the same [zIndex], and every [zIndex] that was
    assigned lies above the base value 100 and at most at [topZIndex]; and
    no action ever lowers [topZIndex]. *)
Theorem zIndex_unique_and_monotone workspaceRect getBoundingClientRect allowed
    storage m :
  reachable_by workspaceRect getBoundingClientRect allowed storage m ->
  (forall r1 r2 el1 el2 z,
     document m !! r1 = Some el1 -> document m !! r2 = Some el2 ->
     zIndex el1 = Some z -> zIndex el2 = Some z -> r1 = r2) /\
  (forall r el z,
     document m !! r = Some el -> zIndex el = Some z ->
     (baseZIndex m < z <= topZIndex m)%Z) /\
  (forall a,
     (topZIndex m
      <= topZIndex (final (perform workspaceRect getBoundingClientRect m a)))%Z).
Proof.
  intros Hreach.
  assert (stacked (document m) (topZIndex m) /\ baseZIndex m = 100%Z) as [[Hd Hr Hb] Hbase].
  { induction Hreach as [|m a Hreach [IH IHb] Ha].
    - unfold new_PanelManager, loadPanelStates.
      assert (stacked [] 100) as H0.
      { split; [| |lia]; intros *; by rewrite lookup_nil. }
      by destruct storage as [[|doc]|].
    - split; [by apply stacked_perform|].
      rewrite <- IHb. clear.
      destruct a; unfold perform; cbn [final]; try reflexivity.
      + unfold closePanel. by destruct (Map_get (panels m) id).
      + unfold showPanel, focusPanel. destruct (Map_get (panels m) id); [|done]. cbn.
        by destruct (Map_get _ id).
      + unfold minimizePanel. by destruct (Map_get (panels m) id).
      + unfold toggleMaximize. destruct (Map_get (panels m) id) as [data|]; [|done].
        destruct (maximized (state data)).
        * by destruct (prevBounds (state data)).
        * by destruct (document m !! element data).
      + unfold focusPanel. cbn. by destruct (Map_get (panels m) id).
      + unfold loadPanelStates. by destruct (localStorage m) as [[|doc]|].
      + unfold startDrag, focusPanel. cbn.
        destruct (Map_get (panels m) (bound_id m panel)); cbn;
          destruct (_ !! panel); cbn; by destruct (Map_get _ _).
      + unfold startResize, focusPanel. cbn.
        destruct (Map_get (panels m) (bound_id m panel)) eqn:Hget; cbn;
          destruct (_ !! panel); cbn; rewrite ?Hget; reflexivity.
      + unfold focusPanel. cbn. by destruct (Map_get (panels m) _).
      + unfold handleMouseMove, handleDrag, handleResize.
        destruct (dragState m) as [ds|].
        * by destruct (snappedV _), (snappedH _).
        * by destruct (resizeState m).
      + unfold handleMouseUp.
        destruct (dragState m); cbn; by destruct (resizeState m). }
  split; [exact Hd|]. split; [|intros; apply topZIndex_perform].
  intros r el z H Hz. rewrite Hbase. eauto.
Qed.

Lemma zIndex_unique_and_monotone_witness :
  let m := play [CreatePanel (panel_at "a" 50 50 300 200);
                 CreatePanel (panel_at "b" 400 50 300 200);
                 FocusPanel "a"; FocusPanel "b"; FocusPanel "a"] in
  (forall r el z, document m !! r = Some el -> zIndex el = Some z ->
                  (baseZIndex m < z <= topZIndex m)%Z) /\
  (topZIndex m
   <= topZIndex (final (perform workspace_1000x800
                          (inline_layout workspace_1000x800) m (ShowPanel "b"))))%Z.
Proof.
  intros m.
  destruct (zIndex_unique_and_monotone workspace_1000x800
              (inline_layout workspace_1000x800) enabled None m)
    as (_ & Hrange & Hmono); [subst m; played|].
  split; [exact Hrange | apply Hmono].
Defined.

(** ** Focus *)

Lemma focus_alter ps doc active f r :
  (forall el, focused (classList (f el)) = true -> focused (classList el) = true) ->
  focus_follows_active ps doc active ->
  focus_follows_active ps (alter f r doc) active.
Proof.
  intros Hf H id data el' Hin Hlook Hfoc.
  destruct (lookup_alter_Some _ _ _ _ _ Hlook) as (el & Hl & [->|[_ ->]]); eauto.
Qed.

Lemma focus_unfocus ps' ps doc active :
  focus_follows_active ps doc active ->
  focus_follows_active ps (unfocus_all ps' doc) active.
Proof.
  unfold unfocus_all. revert doc.
  induction ps' as [|entry ps' IH]; simpl; intros doc H; [done|].
  apply IH, focus_alter; [|done]. intros el; cbn. discriminate.
Qed.

Lemma focus_set_state ps doc active id data st :
  NoDup ps.*1 -> Map_get ps id = Some data ->
  focus_follows_active ps doc active ->
  focus_follows_active (Map_set ps id (with_state st data)) doc active.
Proof.
  intros Hnd Hget H id' data' el Hin Hlook Hfoc.
  apply elem_of_Map_set in Hin as [[-> ->]|[_ Hin]]; [|eauto|done].
  apply Map_get_elem_of in Hget. eauto.
Qed.

Lemma focus_delete ps doc active id :
  focus_follows_active ps doc active ->
  focus_follows_active (Map_delete ps id) doc active.
Proof.
  intros H id' data' el Hin. apply elem_of_Map_delete in Hin as [Hin _]. eauto.
Qed.

Lemma focus_create ps doc top rs active id c b h :
  consistent ps doc top rs ->
  focus_follows_active ps doc active ->
  focus_follows_active
    (Map_set ps id (mkPanelData (length doc) c (mkPanelState false false None)))
    (doc ++ [mkElement id b None (mkClassList false false false false false) h true])
    active.
Proof.
  intros Hwf H id' data' el Hin Hlook Hfoc.
  apply elem_of_Map_set in Hin as [[-> ->]|[_ Hin]]; [| |apply Hwf].
  - cbn in Hlook. rewrite lookup_app_r, Nat.sub_diag in Hlook by lia.
    injection Hlook as <-. discriminate.
  - destruct (elements_exist _ _ _ _ Hwf _ _ Hin) as (el0 & Hl0 & _).
    rewrite (lookup_app_l_Some _ _ _ _ Hl0) in Hlook. injection Hlook as <-. eauto.
Qed.

(** Peels the updates that give no element the [focused] class off a goal. *)
Ltac focusing :=
  repeat first
    [ assumption
    | apply focus_alter; [solve [let H := fresh in intros ? H; exact H]|]
    | apply focus_unfocus
    | apply focus_delete ].

Lemma focus_focusPanel m id : wf m -> focus_ok (focusPanel m id).
Proof.
  intros Hwf. unfold focus_ok, focusPanel. cbn.
  destruct (Map_get (panels m) id) as [data|] eqn:Hget; cbn.
  - intros id' data' el' Hin Hlook Hfoc.
    destruct (decide (element data' = element data)) as [Heq|Hne].
    + by destruct (registered_by_element m id data id' data' Hwf Hget Hin Heq) as [-> _].
    + rewrite !list_lookup_alter_ne in Hlook by done.
      by rewrite (unfocus_all_unfocused _ _ _ _ _ Hin Hlook) in Hfoc.
  - intros id' data' el' Hin Hlook Hfoc.
    by rewrite (unfocus_all_unfocused _ _ _ _ _ Hin Hlook) in Hfoc.
Qed.

Lemma focus_perform workspaceRect getBoundingClientRect m a :
  wf m -> focus_ok m ->
  focus_ok (final (perform workspaceRect getBoundingClientRect m a)).
Proof.
  intros Hwf H. destruct a; unfold perform; cbn [final].
  - unfold focus_ok, createPanel. cbn.
    by apply focus_create with (top := topZIndex m) (rs := resizeState m).
  - unfold focus_ok, closePanel. destruct (Map_get (panels m) id); cbn; by focusing.
  - apply (wf_showPanel m id) in Hwf as Hwf'. unfold showPanel in *.
    destruct (Map_get (panels m) id) as [data|] eqn:Hget; [|done].
    apply focus_focusPanel. unfold wf. cbn.
    apply consistent_set_state; [done| |].
    + cbn. apply (maximized_has_prevBounds _ _ _ _ Hwf id). by apply Map_get_elem_of.
    + by apply consistent_alter; [apply tame_set_hidden|].
  - unfold focus_ok, minimizePanel.
    destruct (Map_get (panels m) id) as [data|] eqn:Hget; [|done]. cbn.
    apply focus_set_state; [apply Hwf|done|by focusing].
  - unfold focus_ok, toggleMaximize.
    destruct (Map_get (panels m) id) as [data|] eqn:Hget; [|done].
    destruct (maximized (state data)).
    + destruct (prevBounds (state data)); [|done]. cbn.
      apply focus_set_state; [apply Hwf|done|by focusing].
    + destruct (document m !! element data); [|done]. cbn.
      apply focus_set_state; [apply Hwf|done|by focusing].
  - by apply focus_focusPanel.
  - done.
  - unfold loadPanelStates. by destruct (localStorage m) as [[|doc]|].
  - apply focus_focusPanel. by apply wf_startDrag.
  - pose proof (focus_focusPanel m (bound_id m panel) Hwf) as H1.
    unfold startResize.
    destruct (document (focusPanel m (bound_id m panel)) !! panel); [|done].
    destruct (Map_get (panels (focusPanel m (bound_id m panel))) _); [|done].
    unfold focus_ok in *. cbn. by focusing.
  - by apply focus_focusPanel.
  - unfold focus_ok, handleMouseMove, handleDrag, handleResize.
    destruct (dragState m) as [ds|].
    + destruct (snappedV _), (snappedH _); cbn; by focusing.
    + destruct (resizeState m); cbn; by focusing.
  - unfold focus_ok, handleMouseUp.
    destruct (dragState m); cbn; destruct (resizeState m); cbn; by focusing.
Qed.

(** X4.  In every state the engine reaches, a registered panel that has
    the [focused] class is the panel [activePanel] names; so at most one
    registered panel has the class. *)
Theorem focused_panel_is_active workspaceRect getBoundingClientRect allowed
    storage m :
  reachable_by workspaceRect getBoundingClientRect allowed storage m ->
  (forall id data el,
     Map_get (panels m) id = Some data ->
     document m !! element data = Some el ->
     focused (classList el) = true ->
     activePanel m = Some id) /\
  (forall id1 data1 el1 id2 data2 el2,
     Map_get (panels m) id1 = Some data1 ->
     document m !! element data1 = Some el1 ->
     focused (classList el1) = true ->
     Map_get (panels m) id2 = Some data2 ->
     document m !! element data2 = Some el2 ->
     focused (classList el2) = true ->
     id1 = id2).
Proof.
  intros Hreach.
  assert (focus_ok m) as H.
  { induction Hreach as [|m a Hreach IH Ha].
    - unfold focus_ok, new_PanelManager, loadPanelStates.
      assert (focus_follows_active [] [] None) as H0
        by (intros id data el Hin; by apply elem_of_nil in Hin).
      by destruct storage as [[|doc]|].
    - apply focus_perform; [|done]. by apply reachable_by_wf in Hreach. }
  assert (forall id data el,
            Map_get (panels m) id = Some data ->
            document m !! element data = Some el ->
            focused (classList el) = true -> activePanel m = Some id) as Hactive.
  { intros id data el Hget. apply H. by apply Map_get_elem_of. }
  split; [exact Hactive|].
  intros id1 data1 el1 id2 data2 el2 Hg1 Hl1 Hf1 Hg2 Hl2 Hf2.
  pose proof (Hactive _ _ _ Hg1 Hl1 Hf1). pose proof (Hactive _ _ _ Hg2 Hl2 Hf2).
  congruence.
Qed.

Lemma focused_panel_is_active_witness :
  let m := play [CreatePanel (panel_at "a" 50 50 300 200);
                 CreatePanel (panel_at "b" 400 50 300 200);
                 FocusPanel "a"; PanelMouseDown 1] in
  activePanel m = Some "b".
Proof.
  intros m.
  destruct (focused_panel_is_active workspace_1000x800
              (inline_layout workspace_1000x800) enabled None m)
    as [Hactive _]; [subst m; played|].
  eapply (Hactive "b"); vm_compute; reflexivity.
Defined.

(** ** Feedback of a drag *)

Lemma focusPanel_feedback m id :
  dragState (focusPanel m id) = dragState m /\
  bodyCursor (focusPanel m id) = bodyCursor m /\
  guideV (focusPanel m id) = guideV m /\
  guideH (focusPanel m id) = guideH m.
Proof. unfold focusPanel. cbn. by destruct (Map_get (panels m) id). Qed.

Lemma drag_feedback_same m m' :
  dragState m' = dragState m /\ bodyCursor m' = bodyCursor m /\
  guideV m' = guideV m /\ guideH m' = guideH m ->
  drag_feedback m -> drag_feedback m'.
Proof. unfold drag_feedback. by intros (-> & -> & -> & ->). Qed.

Lemma drag_feedback_perform workspaceRect getBoundingClientRect m a :
  drag_feedback m ->
  drag_feedback (final (perform workspaceRect getBoundingClientRect m a)).
Proof.
  intros H. destruct a; unfold perform; cbn [final];
    try (by apply (drag_feedback_same m)).
  - apply (drag_feedback_same m); [|done].
    unfold closePanel. by destruct (Map_get (panels m) id).
  - apply (drag_feedback_same m); [|done].
    unfold showPanel. destruct (Map_get (panels m) id); [|done].
    by destruct (focusPanel_feedback
                   (with_panels
                      (Map_set (panels (update_element (set_hidden false) (element p) m))
                         id (with_state
                               (mkPanelState false (maximized (state p))
                                  (prevBounds (state p))) p))
                      (update_element (set_hidden false) (element p) m)) id)
      as (-> & -> & -> & ->).
  - apply (drag_feedback_same m); [|done].
    unfold minimizePanel. by destruct (Map_get (panels m) id).
  - apply (drag_feedback_same m); [|done].
    unfold toggleMaximize. destruct (Map_get (panels m) id) as [data|]; [|done].
    destruct (maximized (state data)).
    + by destruct (prevBounds (state data)).
    + by destruct (document m !! element data).
  - apply (drag_feedback_same m); [apply focusPanel_feedback|done].
  - apply (drag_feedback_same m); [|done].
    unfold loadPanelStates. by destruct (localStorage m) as [[|doc]|].
  - apply (drag_feedback_same (startDrag workspaceRect getBoundingClientRect m ev panel
                                 (bound_id m panel))); [apply focusPanel_feedback|].
    unfold startDrag.
    destruct (document (focusPanel m (bound_id m panel)) !! panel).
    + reflexivity.
    + by apply (drag_feedback_same m); [apply focusPanel_feedback|].
  - apply (drag_feedback_same m); [|done].
    unfold startResize.
    destruct (focusPanel_feedback m (bound_id m panel)) as (Hd & Hc & Hv & Hh).
    destruct (document (focusPanel m (bound_id m panel)) !! panel); [|done].
    by destruct (Map_get (panels (focusPanel m (bound_id m panel))) _).
  - apply (drag_feedback_same m); [apply focusPanel_feedback|done].
  - unfold drag_feedback in *. unfold handleMouseMove.
    destruct (dragState m) as [ds|] eqn:Hds.
    + unfold handleDrag. destruct (snappedV _), (snappedH _); cbn; by rewrite Hds.
    + destruct (resizeState m); cbn; by rewrite ?Hds.
  - unfold drag_feedback in *. unfold handleMouseUp.
    destruct (dragState m) as [ds|]; cbn; [by destruct (resizeState m)|].
    by destruct (resizeState m).
Qed.

(** X5.  In every state the engine reaches, [document.body]'s cursor is
    [move] exactly while a drag session is active and is reset otherwise,
    and outside a drag session both snap guide lines are hidden. *)
Theorem drag_feedback_only_while_dragging workspaceRect getBoundingClientRect
    allowed storage m :
  reachable_by workspaceRect getBoundingClientRect allowed storage m ->
  (is_Some (dragState m) -> bodyCursor m = "move") /\
  (dragState m = None ->
   bodyCursor m = "" /\
   visible (guideV m) = false /\ visible (guideH m) = false).
Proof.
  intros Hreach.
  assert (drag_feedback m) as H.
  { induction Hreach as [|m a Hreach IH Ha].
    - unfold drag_feedback, new_PanelManager, loadPanelStates.
      by destruct storage as [[|doc]|].
    - by apply drag_feedback_perform. }
  unfold drag_feedback in H. destruct (dragState m).
  - split; [done|discriminate].
  - split; [by intros [? ?]|done].
Qed.

Lemma drag_feedback_only_while_dragging_witness :
  let m := play [CreatePanel (panel_at "a" 50 50 300 200);
                 HeaderMouseDown (mkMouse 100 60) 0;
                 MouseMove (mkMouse 60 60)] in
  bodyCursor m = "move".
Proof.
  intros m.
  destruct (drag_feedback_only_while_dragging workspace_1000x800
              (inline_layout workspace_1000x800) enabled None m)
    as [Hmove _]; [subst m; played|].
  apply Hmove. eexists. vm_compute. reflexivity.
Defined.

(** ** Panels that are no snap targets *)

Lemma Map_delete_absent {V} (ps : list (string * V)) k :
  k ∉ ps.*1 -> Map_delete ps k = ps.
Proof.
  induction ps as [|[k0 v0] ps IH]; [done|].
  rewrite fmap_cons, not_elem_of_cons. cbn. intros [Hne Hk].
  destruct (String.eqb_spec k0 k) as [->|_]; [done|]. by rewrite IH.
Qed.

Lemma omap_set_delete {V X} (F F' : string * V -> option X) ps id v' :
  NoDup ps.*1 -> F' (id, v') = None ->
  (forall k v, (k, v) ∈ ps -> k <> id -> F' (k, v) = F (k, v)) ->
  omap F' (Map_set ps id v') = omap F (Map_delete ps id).
Proof.
  intros Hnd Hid. induction ps as [|[k0 v0] ps IH]; intros Hext.
  - cbn. by rewrite Hid.
  - rewrite fmap_cons in Hnd. apply NoDup_cons in Hnd as [Hk0 Hnd]. cbn in Hk0.
    cbn [Map_set Map_delete].
    destruct (String.eqb_spec k0 id) as [->|Hne].
    + rewrite (Map_delete_absent ps id Hk0). cbn. rewrite Hid.
      apply list_omap_ext. apply Forall2_same_length_lookup. split; [done|].
      intros i [k v] [k1 v1] H1 H2. rewrite H1 in H2. injection H2 as <- <-.
      apply Hext; [apply elem_of_cons; right; by eapply list_elem_of_lookup_2|].
      intros ->. apply Hk0. apply list_elem_of_fmap. exists (id, v).
      split; [done|by eapply list_elem_of_lookup_2].
    + cbn. rewrite (Hext k0 v0); [|apply elem_of_cons; by left|done].
      rewrite IH; [done|done|].
      intros k v Hin. apply Hext. apply elem_of_cons. by right.
Qed.

Lemma sibling_edges_without workspaceRect getBoundingClientRect m m' id data
    data' panelId :
  wf m -> Map_get (panels m) id = Some data ->
  panels m' = Map_set (panels m) id data' -> element data' = element data ->
  (forall r, r <> element data -> document m' !! r = document m !! r) ->
  (forall el', document m' !! element data = Some el' ->
     hidden (classList el') || maximizedClass (classList el') = true) ->
  sibling_edges workspaceRect getBoundingClientRect m' panelId
  = sibling_edges workspaceRect getBoundingClientRect
      (with_panels (Map_delete (panels m) id) m) panelId.
Proof.
  intros Hwf Hget Hps Hel Hdoc Hhid. unfold sibling_edges. rewrite Hps. cbn.
  apply omap_set_delete; [apply Hwf| |].
  - cbn. destruct (String.eqb id panelId); [done|]. rewrite Hel.
    destruct (document m' !! element data) as [el'|] eqn:Hl; [|done].
    by rewrite (Hhid el' eq_refl).
  - intros k v Hin Hne. cbn.
    destruct (String.eqb k panelId); [done|].
    rewrite Hdoc; [done|]. intros Heq.
    by destruct (registered_by_element m id data k v Hwf Hget Hin Heq).
Qed.

(** X6.  A minimized panel and a maximized panel are no snap targets: for
    whichever panel is moved, [calculateSnap] gives, once a panel is
    minimized or maximized, what it gives when that panel is not in the
    registry at all. *)
Theorem hidden_or_maximized_is_no_snap_target workspaceRect getBoundingClientRect
    allowed storage m id data :
  reachable_by workspaceRect getBoundingClientRect allowed storage m ->
  Map_get (panels m) id = Some data ->
  forall panelId newX newY width height,
    let without := with_panels (Map_delete (panels m) id) m in
    let snap m := calculateSnap workspaceRect getBoundingClientRect m panelId
                                newX newY width height in
    snap (minimizePanel m id) = snap without /\
    (maximized (state data) = false ->
     snap (final (toggleMaximize m id)) = snap without).
Proof.
  intros Hreach Hget panelId newX newY width height without snap.
  pose proof (reachable_by_wf _ _ _ _ _ Hreach) as Hwf.
  destruct (elements_exist _ _ _ _ Hwf _ _ (Map_get_elem_of _ _ _ Hget))
    as (el & Hel & _).
  subst snap. cbn beta. rewrite !calculateSnap_fold. unfold snap_rules.
  split.
  - rewrite (sibling_edges_without _ _ m (minimizePanel m id) id data
               (with_state (mkPanelState true (maximized (state data))
                              (prevBounds (state data))) data) panelId Hwf Hget).
    + unfold minimizePanel. by rewrite Hget.
    + unfold minimizePanel. by rewrite Hget.
    + done.
    + intros r Hr. unfold minimizePanel. rewrite Hget. cbn.
      by apply list_lookup_alter_ne.
    + intros el'. unfold minimizePanel. rewrite Hget. cbn.
      rewrite list_lookup_alter_eq, Hel. by intros [= <-].
  - intros Hmax.
    rewrite (sibling_edges_without _ _ m (final (toggleMaximize m id)) id data
               (with_state (mkPanelState (minimized (state data)) true
                              (Some (style el))) data) panelId Hwf Hget).
    + unfold toggleMaximize. by rewrite Hget, Hmax, Hel.
    + unfold toggleMaximize. by rewrite Hget, Hmax, Hel.
    + done.
    + intros r Hr. unfold toggleMaximize. rewrite Hget, Hmax, Hel. cbn.
      by apply list_lookup_alter_ne.
    + intros el'. unfold toggleMaximize. rewrite Hget, Hmax, Hel. cbn.
      rewrite list_lookup_alter_eq, Hel. intros [= <-]. cbn. apply orb_true_r.
Qed.

Lemma hidden_or_maximized_is_no_snap_target_witness :
  let m := play [CreatePanel (panel_at "a" 50 50 300 200);
                 CreatePanel (panel_at "b" 400 50 300 200)] in
  let snap m := calculateSnap workspace_1000x800 (inline_layout workspace_1000x800)
                              m "a" 95 50 300 200 in
  snap (minimizePanel m "b") = snap (with_panels (Map_delete (panels m) "b") m).
Proof.
  intros m snap.
  assert (reachable workspace_1000x800 (inline_layout workspace_1000x800) None m)
    as Hreach by (subst m; played).
  assert (Map_get (panels m) "b"
          = Some (mkPanelData 1 (mkPanelConfig "b" "Panel" 200 150 true true)
                    (mkPanelState false false None))) as Hget
    by (vm_compute; reflexivity).
  clearbody m.
  destruct (hidden_or_maximized_is_no_snap_target workspace_1000x800
              (inline_layout workspace_1000x800) enabled None m "b" _ Hreach Hget
              "a" 95 50 300 200) as [Hsnap _].
  exact Hsnap.
Defined.

(** ** What is persisted *)

Lemma insert_index_order {V} (m : list (string * V)) i k v :
  array_index k = Some i -> object_order m.*1 ->
  object_order (Obj_insert_index i k v m).*1.
Proof.
  intros Hk. induction m as [|[k0 v0] m IH]; intros Hm.
  - cbn. by rewrite Hk.
  - cbn [Obj_insert_index]. rewrite fmap_cons in Hm. cbn [object_order fst] in Hm.
    destruct (array_index k0) as [j|] eqn:Hk0.
    + destruct Hm as [Hlater Hm]. destruct (N.ltb_spec j i) as [Hlt|Hge].
      * rewrite fmap_cons. cbn [object_order fst]. rewrite Hk0.
        split; [|by apply IH].
        destruct (insert_index_keys m i k v) as (before & after & Hsplit & -> & _).
        rewrite Hsplit in Hlater. apply Forall_app in Hlater as [Hb Ha].
        apply Forall_app. split; [done|]. apply Forall_cons. split; [|done].
        rewrite Hk. lia.
      * rewrite !fmap_cons. cbn [object_order fst]. rewrite Hk, Hk0.
        split; [|by split].
        apply Forall_cons. rewrite Hk0. split; [done|].
        eapply Forall_impl; [exact Hlater|]. cbn. intros k'.
        destruct (array_index k'); [lia|done].
    + rewrite !fmap_cons. cbn [object_order fst]. rewrite Hk, Hk0.
      split; [|done]. apply Forall_cons. rewrite Hk0. split; [done|].
      eapply Forall_impl; [exact Hm|]. cbn. intros k'. unfold is_index.
      by destruct (array_index k').
Qed.

Lemma object_order_snoc keys k :
  array_index k = None -> object_order keys -> object_order (keys ++ [k]).
Proof.
  intros Hk. induction keys as [|k0 keys IH]; intros H.
  - cbn. by rewrite Hk.
  - cbn [app object_order] in *. destruct (array_index k0).
    + destruct H as [Hlater H]. split; [|by apply IH].
      apply Forall_app. split; [done|]. apply Forall_singleton. by rewrite Hk.
    + apply Forall_app. split; [done|]. apply Forall_singleton.
      unfold is_index. by rewrite Hk.
Qed.

Lemma object_order_Obj_set {V} (m : list (string * V)) k v :
  object_order m.*1 -> object_order (Obj_set m k v).*1.
Proof.
  intros Hm. unfold Obj_set. destruct (String.eqb k "__proto__"); [done|].
  destruct (array_index k) as [i|] eqn:Hk, (Map_get m k) eqn:Hget;
    rewrite ?Map_set_keys, ?Hget; try done.
  - by apply insert_index_order.
  - by apply object_order_snoc.
Qed.

(** The keys that are not array indices are listed in the order they were
    created. *)
Lemma names_Obj_set {V} (m : list (string * V)) k v :
  k ∉ m.*1 ->
  List.filter (fun k' => negb (is_index k')) (Obj_set m k v).*1
  = List.filter (fun k' => negb (is_index k')) m.*1
    ++ (if negb (is_index k) && stored_id k then [k] else []).
Proof.
  intros Hfresh. apply Map_get_None in Hfresh.
  unfold Obj_set, stored_id.
  destruct (String.eqb k "__proto__"); cbn [negb];
    [by rewrite andb_false_r, app_nil_r|].
  rewrite andb_true_r, Hfresh. unfold is_index at 3.
  destruct (array_index k) as [i|] eqn:Hk; cbn [negb].
  - rewrite app_nil_r.
    destruct (insert_index_keys m i k v) as (before & after & -> & -> & _).
    rewrite !List.filter_app. cbn [List.filter]. unfold is_index at 2.
    by rewrite Hk.
  - rewrite Map_set_keys, Hfresh, List.filter_app. cbn [List.filter].
    unfold is_index at 2. by rewrite Hk.
Qed.

Lemma save_fold_keys getBoundingClientRect (ps : list (string * PanelData))
    (doc : list Element) (acc : Layout) :
  NoDup ps.*1 ->
  (forall k, k ∈ ps.*1 -> k ∉ acc.*1) ->
  (forall k d, (k, d) ∈ ps -> is_Some (doc !! element d)) ->
  NoDup acc.*1 -> object_order acc.*1 ->
  let saved :=
    fold_left (fun (states : Layout) (entry : string * PanelData) =>
      let '(id, data) := entry in
      match doc !! element data with
      | None => states
      | Some el => Obj_set states id (snapshot getBoundingClientRect el data)
      end) ps acc in
  NoDup saved.*1 /\ object_order saved.*1 /\
  List.filter (fun k => negb (is_index k)) saved.*1
  = List.filter (fun k => negb (is_index k)) acc.*1
    ++ List.filter (fun k => negb (is_index k) && stored_id k) ps.*1.
Proof.
  revert acc. induction ps as [|[k0 d0] ps IH]; intros acc Hnd Hfresh Hel Hacc Hord.
  - cbn. by rewrite app_nil_r.
  - rewrite fmap_cons in Hnd. apply NoDup_cons in Hnd as [Hk0 Hnd]. cbn in Hk0.
    cbn [fold_left].
    destruct (Hel k0 d0) as [el Hl]; [apply elem_of_cons; by left|]. rewrite Hl.
    assert (k0 ∉ acc.*1) as Hk0acc
      by (apply Hfresh; rewrite fmap_cons; apply elem_of_cons; by left).
    set (acc' := Obj_set acc k0 (snapshot getBoundingClientRect el d0)).
    destruct (IH acc') as (Hnd' & Hord' & Hnames); [done| | | | |].
    + intros k Hk.
      assert (k ∉ acc.*1) as Hkacc
        by (apply Hfresh; rewrite fmap_cons; apply elem_of_cons; by right).
      subst acc'.
      destruct (Obj_set_keys acc k0 (snapshot getBoundingClientRect el d0))
        as [->|(_ & _ & before & after & Hsplit & ->)]; [done|].
      rewrite Hsplit in Hkacc. apply not_elem_of_app in Hkacc as [Hb Ha].
      apply not_elem_of_app. split; [done|]. apply not_elem_of_cons.
      split; [by intros ->|done].
    + intros k d Hin. apply (Hel k d). apply elem_of_cons. by right.
    + by apply NoDup_Obj_set.
    + by apply object_order_Obj_set.
    + split; [done|]. split; [done|].
      rewrite Hnames. subst acc'. rewrite names_Obj_set by done.
      rewrite fmap_cons. cbn [List.filter fst]. rewrite <- app_assoc.
      by destruct (negb (is_index k0) && stored_id k0).
Qed.

(** X7.  The persisted document mirrors the registry.  After
    [savePanelStates] the stored document has one entry for every registered
    id other than [__proto__], and for no other id.  Its entries are in the
    order of the own keys of an object: first the ids that are array
    indices, ascending, then the other ids in registry order.  After a load,
    [getSavedState] answers an entry exactly for the ids stored, a member of
    [Object.prototype] for an id that is not stored and names one, and
    [undefined] for every other id. *)
Theorem saved_ids_are_the_registered_ids workspaceRect getBoundingClientRect
    allowed storage m :
  reachable_by workspaceRect getBoundingClientRect allowed storage m ->
  exists doc,
    localStorage (savePanelStates getBoundingClientRect m) = Some (Json doc) /\
    NoDup doc.*1 /\
    (forall id,
       id ∈ doc.*1 <-> is_Some (Map_get (panels m) id) /\ id <> "__proto__") /\
    object_order doc.*1 /\
    List.filter (fun id => negb (is_index id)) doc.*1
    = List.filter (fun id => negb (is_index id) && stored_id id) (panels m).*1 /\
    (forall id,
       let loaded :=
         getSavedState
           (loadPanelStates (savePanelStates getBoundingClientRect m)) id in
       ((exists sv, loaded = Some (Entry sv)) <-> id ∈ doc.*1) /\
       (loaded = Some (Inherited id)
        <-> (id ∉ doc.*1) /\ id ∈ Object_prototype) /\
       (loaded = None <-> (id ∉ doc.*1) /\ id ∉ Object_prototype)).
Proof.
  intros Hreach. pose proof (reachable_by_wf _ _ _ _ _ Hreach) as Hwf.
  unfold savePanelStates. cbn -[existsb]. eexists. split; [reflexivity|].
  destruct (save_fold_keys getBoundingClientRect (panels m) (document m) [])
    as (Hnd & Hord & Hnames).
  { apply Hwf. }
  { intros; apply not_elem_of_nil. }
  { intros k d Hin. destruct (elements_exist _ _ _ _ Hwf _ _ Hin) as (el & -> & _).
    eauto. }
  { apply NoDup_nil_2. }
  { exact I. }
  unfold snapshot in *.
  pose proof (fun id => save_fold_get getBoundingClientRect (panels m)
                          (document m) [] id (ids_unique _ _ _ _ Hwf)) as Hfold.
  unfold snapshot in Hfold. cbn [Map_get] in Hfold.
  match type of Hnd with NoDup (?d).*1 => set (doc := d) in * end.
  assert (forall id,
            id ∈ doc.*1 <-> is_Some (Map_get (panels m) id) /\ id <> "__proto__")
    as Hmem.
  { intros id. rewrite <- Map_get_is_Some, (Hfold id).
    destruct (Map_get (panels m) id) as [data|] eqn:Hget.
    - destruct (elements_exist _ _ _ _ Hwf _ _ (Map_get_elem_of _ _ _ Hget))
        as (el & -> & _).
      destruct (String.eqb_spec id "__proto__") as [->|Hne].
      + split; [by intros [? ?]|by intros [_ ?]].
      + split; [intros _; split; [by eexists|done]|by eexists].
    - split; [by intros [? ?]|by intros [[? ?] _]]. }
  split; [exact Hnd|]. split; [exact Hmem|]. split; [exact Hord|].
  split; [exact Hnames|].
  intros id. unfold getSavedState, loadPanelStates. cbn -[existsb]. fold doc.
  assert (existsb (String.eqb id) Object_prototype = true <-> id ∈ Object_prototype)
    as Hproto.
  { rewrite existsb_exists. split.
    - intros (x & Hx & Heq). apply String.eqb_eq in Heq as ->.
      by apply list_elem_of_In.
    - intros Hin. exists id. split; [by apply list_elem_of_In|apply String.eqb_refl]. }
  destruct (Map_get doc id) as [sv|] eqn:Hdoc.
  - assert (id ∈ doc.*1) as Hin by (apply Map_get_is_Some; rewrite Hdoc; by eexists).
    split; [|split].
    + split; [done|]. intros _. by exists sv.
    + split; [done|]. by intros [? _].
    + split; [done|]. by intros [? _].
  - apply Map_get_None in Hdoc.
    destruct (existsb (String.eqb id) Object_prototype) eqn:Hex.
    + assert (id ∈ Object_prototype) as Hin by (by apply Hproto).
      split; [|split].
      * split; [by intros [sv ?]|done].
      * done.
      * split; [done|]. by intros [_ ?].
    + assert (id ∉ Object_prototype) as Hout
        by (intros Hin; apply Hproto in Hin; congruence).
      split; [|split].
      * split; [by intros [sv ?]|done].
      * split; [done|]. by intros [_ ?].
      * done.
Qed.

Lemma saved_ids_are_the_registered_ids_witness :
  let m := play [CreatePanel (panel_at "b" 50 50 300 200);
                 CreatePanel (panel_at "2" 400 50 300 200);
                 CreatePanel (panel_at "__proto__" 20 20 300 200);
                 CreatePanel (panel_at "10" 400 300 300 200);
                 CreatePanel (panel_at "a" 50 300 300 200);
                 ClosePanel "a"] in
  exists doc,
    localStorage (savePanelStates (inline_layout workspace_1000x800) m)
    = Some (Json doc) /\
    doc.*1 = ["2"; "10"; "b"] /\
    object_order doc.*1 /\
    getSavedState
      (loadPanelStates (savePanelStates (inline_layout workspace_1000x800) m)) "a"
    = None.
Proof.
  intros m.
  destruct (saved_ids_are_the_registered_ids workspace_1000x800
              (inline_layout workspace_1000x800) enabled None m)
    as (doc & Hdoc & _ & Hmem & Hord & _ & Hload); [subst m; played|].
  exists doc. split; [exact Hdoc|].
  assert (doc.*1 = ["2"; "10"; "b"]) as Hkeys.
  { vm_compute in Hdoc. injection Hdoc as <-. reflexivity. }
  split; [exact Hkeys|]. split; [exact Hord|].
  apply (Hload "a"). rewrite Hkeys. split.
  - rewrite !elem_of_cons, elem_of_nil. intros [H|[H|[H|[]]]]; discriminate H.
  - unfold Object_prototype. rewrite !elem_of_cons, elem_of_nil.
    intros H. repeat (destruct H as [H|H]; [discriminate H|]). done.
Defined.

(** ** Closing a panel *)

(** X8.  [closePanel] on a registered id removes the panel from the
    registry and leaves every other registration as it was, takes its
    element out of the page, and stores a layout that has no entry for the
    id.  It does not touch the layout loaded in memory, and closing again
    changes nothing. *)
Theorem closePanel_removes_and_persists workspaceRect getBoundingClientRect
    allowed storage m id data :
  reachable_by workspaceRect getBoundingClientRect allowed storage m ->
  Map_get (panels m) id = Some data ->
  let m' := closePanel getBoundingClientRect m id in
  Map_get (panels m') id = None /\
  (forall id2, id2 <> id -> Map_get (panels m') id2 = Map_get (panels m) id2) /\
  (exists el, document m' !! element data = Some el /\ inPage el = false) /\
  (exists doc, localStorage m' = Some (Json doc) /\ Map_get doc id = None) /\
  savedStates m' = savedStates m /\
  closePanel getBoundingClientRect m' id = m'.
Proof.
  intros Hreach Hget m'. pose proof (reachable_by_wf _ _ _ _ _ Hreach) as Hwf.
  destruct (elements_exist _ _ _ _ Hwf _ _ (Map_get_elem_of _ _ _ Hget))
    as (el & Hel & _).
  assert (Map_get (panels m') id = None) as Hgone.
  { subst m'. unfold closePanel. rewrite Hget. cbn.
    by rewrite Map_get_delete, String.eqb_refl. }
  split; [exact Hgone|]. split; [|split; [|split; [|split]]].
  - intros id2 Hne. subst m'. unfold closePanel. rewrite Hget. cbn.
    rewrite Map_get_delete. by destruct (String.eqb_spec id id2).
  - exists (removed el). subst m'. unfold closePanel. rewrite Hget. cbn.
    by rewrite list_lookup_alter_eq, Hel.
  - subst m'. unfold closePanel. rewrite Hget. cbn.
    eexists. split; [reflexivity|].
    etransitivity;
      [apply (save_fold_get getBoundingClientRect (Map_delete (panels m) id));
       by apply NoDup_Map_delete, Hwf|].
    by rewrite Map_get_delete, String.eqb_refl.
  - subst m'. unfold closePanel. by rewrite Hget.
  - unfold closePanel at 1. by rewrite Hgone.
Qed.

Lemma closePanel_removes_and_persists_witness :
  let m := play [CreatePanel (panel_at "a" 50 50 300 200);
                 CreatePanel (panel_at "b" 400 50 300 200)] in
  let m' := closePanel (inline_layout workspace_1000x800) m "a" in
  Map_get (panels m') "a" = None /\
  closePanel (inline_layout workspace_1000x800) m' "a" = m'.
Proof.
  intros m m'.
  destruct (closePanel_removes_and_persists workspace_1000x800
              (inline_layout workspace_1000x800) enabled None m "a"
              (mkPanelData 0 (mkPanelConfig "a" "Panel" 200 150 true true)
                 (mkPanelState false false None)))
    as (Hgone & _ & _ & _ & _ & Hagain).
  - subst m. played.
  - vm_compute. reflexivity.
  - split; [exact Hgone | exact Hagain].
Defined.

(** ** Creating a panel *)

(** X9.  [createPanel] returns a new element that is in the page, carries
    the id, is neither focused nor stacked, and is registered under the id
    with a fresh state; it leaves every existing element and every other
    registration as they were.  An id that is new goes to the end of the
    registry order; an id that is already registered keeps its place and is
    overwritten without notice: its former element stays in the page and is
    no longer the element of any registered panel. *)
Theorem createPanel_registers_or_overwrites workspaceRect getBoundingClientRect
    allowed storage m cfg :
  reachable_by workspaceRect getBoundingClientRect allowed storage m ->
  let m' := fst (createPanel m cfg) in
  let panel := snd (createPanel m cfg) in
  (exists el,
     document m' !! panel = Some el /\ el_id el = c_id cfg /\ inPage el = true /\
     focused (classList el) = false /\ zIndex el = None) /\
  (forall r el, document m !! r = Some el -> document m' !! r = Some el) /\
  (exists data',
     Map_get (panels m') (c_id cfg) = Some data' /\ element data' = panel /\
     state data' = mkPanelState false false None) /\
  (forall id2, id2 <> c_id cfg ->
     Map_get (panels m') id2 = Map_get (panels m) id2) /\
  (panels m').*1
  = match Map_get (panels m) (c_id cfg) with
    | Some _ => (panels m).*1
    | None => (panels m).*1 ++ [c_id cfg]
    end /\
  (forall data0, Map_get (panels m) (c_id cfg) = Some data0 ->
     forall id' data', Map_get (panels m') id' = Some data' ->
       element data' <> element data0).
Proof.
  intros Hreach m' panel. pose proof (reachable_by_wf _ _ _ _ _ Hreach) as Hwf.
  subst m' panel. unfold createPanel. cbn.
  split; [|split; [|split; [|split; [|split]]]].
  - eexists. rewrite lookup_app_r, Nat.sub_diag by lia. by repeat split.
  - intros r el. apply lookup_app_l_Some.
  - eexists. rewrite Map_get_set, String.eqb_refl. by repeat split.
  - intros id2 Hne. rewrite Map_get_set. by destruct (String.eqb_spec (c_id cfg) id2).
  - apply Map_set_keys.
  - intros data0 Hget0 id' data'. rewrite Map_get_set.
    destruct (elements_exist _ _ _ _ Hwf _ _ (Map_get_elem_of _ _ _ Hget0))
      as (el0 & Hel0 & _).
    apply lookup_lt_Some in Hel0.
    destruct (String.eqb_spec (c_id cfg) id') as [<-|Hne].
    + intros [= <-]. cbn. lia.
    + intros Hget' Heq.
      destruct (registered_by_element m (c_id cfg) data0 id' data' Hwf Hget0
                  (Map_get_elem_of _ _ _ Hget') Heq). done.
Qed.

Lemma createPanel_registers_or_overwrites_witness :
  let m := play [CreatePanel (panel_at "a" 50 50 300 200);
                 CreatePanel (panel_at "b" 400 50 300 200)] in
  let m' := fst (createPanel m (panel_at "a" 10 10 300 200)) in
  (panels m').*1 = (panels m).*1 /\
  forall id' data', Map_get (panels m') id' = Some data' -> element data' <> 0%nat.
Proof.
  intros m m'.
  destruct (createPanel_registers_or_overwrites workspace_1000x800
              (inline_layout workspace_1000x800) enabled None m
              (panel_at "a" 10 10 300 200))
    as (_ & _ & _ & _ & Hkeys & Horphan); [subst m; played|].
  split; [exact Hkeys|].
  apply (Horphan (mkPanelData 0 (mkPanelConfig "a" "Panel" 200 150 true true)
                    (mkPanelState false false None))).
  vm_compute. reflexivity.
Defined.

(** ** Errors *)

(** X10.  The only action that raises.  In a state the engine reaches, a
    call or an event ends with a [TypeError] exactly when it is a press on
    a resize handle of an element whose id is no longer registered; the
    error then leaves the engine as [focusPanel] of that id left it, with
    no resize session.  In particular [toggleMaximize] never meets a
    maximized panel without saved bounds. *)
Theorem only_a_press_on_an_orphan_handle_raises workspaceRect
    getBoundingClientRect allowed storage m a :
  reachable_by workspaceRect getBoundingClientRect allowed storage m ->
  enabled m a ->
  forall m',
    perform workspaceRect getBoundingClientRect m a = Throws m' <->
    exists ev panel direction,
      a = HandleMouseDown ev panel direction /\
      Map_get (panels m) (bound_id m panel) = None /\
      m' = focusPanel m (bound_id m panel).
Proof.
  intros Hreach Hen m'. pose proof (reachable_by_wf _ _ _ _ _ Hreach) as Hwf.
  split.
  - destruct a; unfold perform; try discriminate.
    + unfold toggleMaximize.
      destruct (Map_get (panels m) id) as [data|] eqn:Hget; [|discriminate].
      destruct (maximized (state data)) eqn:Hmax.
      * destruct (maximized_has_prevBounds _ _ _ _ Hwf id data
                    (Map_get_elem_of _ _ _ Hget) Hmax) as [prev ->]. discriminate.
      * destruct (document m !! element data); discriminate.
    + unfold startResize.
      destruct (document (focusPanel m (bound_id m panel)) !! panel); [|discriminate].
      rewrite focusPanel_panels.
      destruct (Map_get (panels m) (bound_id m panel)) eqn:Hget; [discriminate|].
      intros [= <-]. by exists ev, panel, direction.
  - intros (ev & panel & direction & -> & Hget & ->).
    destruct Hen as (el & Hel & _). unfold perform, startResize.
    destruct (document (focusPanel m (bound_id m panel)) !! panel) eqn:Hl.
    + by rewrite focusPanel_panels, Hget.
    + exfalso. apply lookup_ge_None in Hl. apply lookup_lt_Some in Hel.
      assert (length (document (focusPanel m (bound_id m panel)))
              = length (document m)) as Hlen; [|lia].
      unfold focusPanel. cbn. rewrite Hget. cbn. clear.
      unfold unfocus_all. generalize (document m).
      induction (panels m) as [|entry ps IH]; intros doc; [done|].
      cbn. by rewrite IH, length_alter.
Qed.

Lemma only_a_press_on_an_orphan_handle_raises_witness :
  let m := play [CreatePanel (panel_at "p" 50 50 300 200);
                 CreatePanel (panel_at "p" 400 50 300 200);
                 ClosePanel "p"] in
  perform workspace_1000x800 (inline_layout workspace_1000x800) m
          (HandleMouseDown (mkMouse 350 100) 0 dir_e)
  = Throws (focusPanel m "p").
Proof.
  intros m.
  apply (only_a_press_on_an_orphan_handle_raises workspace_1000x800
           (inline_layout workspace_1000x800) enabled None m
           (HandleMouseDown (mkMouse 350 100) 0 dir_e)).
  - subst m. played.
  - eexists. repeat split; vm_compute; reflexivity.
  - eexists _, _, _. split; [reflexivity|]. split; vm_compute; reflexivity.
Defined.

(** ** What moves a panel *)

Lemma keeps_boxes_refl doc : keeps_boxes doc doc.
Proof. intros r el H. eauto. Qed.

Lemma keeps_boxes_alter doc doc' f r :
  (forall el, el_id (f el) = el_id el /\ style (f el) = style el) ->
  keeps_boxes doc doc' -> keeps_boxes doc (alter f r doc').
Proof.
  intros Hf H j el Hl. destruct (H j el Hl) as (el1 & Hl1 & Hid & Hst).
  destruct (lookup_alter_keeps f doc' r j el1 Hl1) as (el' & Hl' & [->|[_ ->]]).
  - eauto.
  - exists (f el1). destruct (Hf el1) as [-> ->]. eauto.
Qed.

Lemma keeps_boxes_unfocus ps doc doc' :
  keeps_boxes doc doc' -> keeps_boxes doc (unfocus_all ps doc').
Proof.
  unfold unfocus_all. revert doc'.
  induction ps as [|entry ps IH]; simpl; intros doc' H; [done|].
  by apply IH, keeps_boxes_alter.
Qed.

Lemma keeps_boxes_app doc doc' extra :
  keeps_boxes doc doc' -> keeps_boxes doc (doc' ++ extra).
Proof.
  intros H j el Hl. destruct (H j el Hl) as (el1 & Hl1 & ? & ?).
  exists el1. split; [by apply lookup_app_l_Some|done].
Qed.

(** Peels the updates that keep id and rectangle off a goal. *)
Ltac boxes :=
  repeat first
    [ apply keeps_boxes_refl
    | apply keeps_boxes_alter; [solve [intros; split; reflexivity]|]
    | apply keeps_boxes_unfocus
    | apply keeps_boxes_app ].

Lemma keeps_boxes_focusPanel m id doc :
  keeps_boxes doc (document m) -> keeps_boxes doc (document (focusPanel m id)).
Proof.
  intros H. unfold focusPanel. cbn.
  destruct (Map_get (panels m) id); cbn;
    repeat first
      [ assumption
      | apply keeps_boxes_alter; [solve [intros; split; reflexivity]|]
      | apply keeps_boxes_unfocus ].
Qed.

(** X11.  A panel's rectangle changes only where it is written.  Whatever
    the action, an existing element stays an element with the same id, and
    its rectangle is the same afterwards unless the action is a pointer
    move serving a session on that element, or a [toggleMaximize] that
    restores the maximized panel of that element.  A pointer move that
    serves a drag leaves the width and the height as they are. *)
Theorem geometry_changes_only_where_written workspaceRect getBoundingClientRect
    m a r el :
  document m !! r = Some el ->
  exists el',
    document (final (perform workspaceRect getBoundingClientRect m a)) !! r
    = Some el' /\
    el_id el' = el_id el /\
    (style el' = style el \/ writes_geometry m a r) /\
    (forall ev, a = MouseMove ev -> is_Some (dragState m) ->
       width_px (style el') = width_px (style el) /\
       height_px (style el') = height_px (style el)).
Proof.
  intros Hel.
  assert (keeps_boxes (document m)
            (document (final (perform workspaceRect getBoundingClientRect m a))) ->
          (forall ev, a <> MouseMove ev) ->
          exists el',
            document (final (perform workspaceRect getBoundingClientRect m a)) !! r
            = Some el' /\
            el_id el' = el_id el /\
            (style el' = style el \/ writes_geometry m a r) /\
            (forall ev, a = MouseMove ev -> is_Some (dragState m) ->
               width_px (style el') = width_px (style el) /\
               height_px (style el') = height_px (style el))) as Hkept.
  { intros Hk Hmove. destruct (Hk r el Hel) as (el' & Hl' & Hid & Hst).
    exists el'. split; [done|]. split; [done|]. split; [by left|].
    intros ev ->. by destruct (Hmove ev). }
  destruct a.
  1-4, 6-11, 13: (apply Hkept; [|discriminate]).
  all: unfold perform; cbn [final].
  - unfold createPanel. cbn. by boxes.
  - unfold closePanel. destruct (Map_get (panels m) id); cbn; by boxes.
  - unfold showPanel. destruct (Map_get (panels m) id); [|by boxes].
    apply keeps_boxes_focusPanel. cbn. by boxes.
  - unfold minimizePanel. destruct (Map_get (panels m) id); cbn; by boxes.
  - by apply keeps_boxes_focusPanel, keeps_boxes_refl.
  - by boxes.
  - unfold loadPanelStates. destruct (localStorage m) as [[|doc]|]; by boxes.
  - apply keeps_boxes_focusPanel. unfold startDrag.
    pose proof (keeps_boxes_focusPanel m (bound_id m panel) _
                  (keeps_boxes_refl (document m))) as H1.
    destruct (document (focusPanel m (bound_id m panel)) !! panel); cbn; [|done].
    by apply keeps_boxes_alter.
  - unfold startResize.
    pose proof (keeps_boxes_focusPanel m (bound_id m panel) _
                  (keeps_boxes_refl (document m))) as H1.
    destruct (document (focusPanel m (bound_id m panel)) !! panel); [|done].
    destruct (Map_get (panels (focusPanel m (bound_id m panel))) _); cbn; [|done].
    by apply keeps_boxes_alter.
  - by apply keeps_boxes_focusPanel, keeps_boxes_refl.
  - unfold handleMouseUp.
    destruct (dragState m); cbn; destruct (resizeState m); cbn; by boxes.
  - assert (forall doc', keeps_boxes (document m) doc' ->
              exists el',
                doc' !! r = Some el' /\ el_id el' = el_id el /\
                (style el' = style el \/ writes_geometry m (ToggleMaximize id) r) /\
                (forall ev, ToggleMaximize id = MouseMove ev -> is_Some (dragState m) ->
                   width_px (style el') = width_px (style el) /\
                   height_px (style el') = height_px (style el))) as Hdirect.
    { intros doc' Hk. destruct (Hk r el Hel) as (el' & ? & ? & ?).
      exists el'. split; [done|]. split; [done|]. split; [by left|discriminate]. }
    unfold toggleMaximize.
    destruct (Map_get (panels m) id) as [data|] eqn:Hget; [|apply Hdirect; by boxes].
    destruct (maximized (state data)) eqn:Hmax.
    + destruct (prevBounds (state data)) as [prev|] eqn:Hprev;
        [|apply Hdirect; by boxes].
      cbn. destruct (decide (r = element data)) as [->|Hne].
      * rewrite list_lookup_alter_eq, list_lookup_alter_eq, Hel. cbn.
        eexists. split; [reflexivity|]. split; [reflexivity|].
        split; [right; by exists data|discriminate].
      * rewrite !list_lookup_alter_ne by done. exists el.
        split; [done|]. split; [done|]. split; [by left|discriminate].
    + destruct (document m !! element data); cbn; apply Hdirect; by boxes.
  - unfold handleMouseMove, writes_geometry.
    destruct (dragState m) as [ds|].
    + unfold handleDrag.
      assert (exists el',
                alter (set_left_top
                         (snapX (calculateSnap workspaceRect getBoundingClientRect m
                                   (drag_id ds)
                                   (drag_startLeft ds + (clientX ev - drag_startX ds))
                                   (drag_startTop ds + (clientY ev - drag_startY ds))
                                   (drag_width ds) (drag_height ds)))
                         (snapY (calculateSnap workspaceRect getBoundingClientRect m
                                   (drag_id ds)
                                   (drag_startLeft ds + (clientX ev - drag_startX ds))
                                   (drag_startTop ds + (clientY ev - drag_startY ds))
                                   (drag_width ds) (drag_height ds))))
                  (drag_panel ds) (document m) !! r = Some el' /\
                el_id el' = el_id el /\
                (style el' = style el \/ r = drag_panel ds) /\
                width_px (style el') = width_px (style el) /\
                height_px (style el') = height_px (style el)) as (el' & Hl' & Hid & Hst & Hw & Hh).
      { destruct (decide (r = drag_panel ds)) as [->|Hne].
        - rewrite list_lookup_alter_eq, Hel. cbn. eexists. split; [reflexivity|].
          repeat split. by right.
        - rewrite list_lookup_alter_ne by done. exists el. repeat split; try done.
          by left. }
      exists el'. split; [|by repeat split].
      by destruct (snappedV _), (snappedH _).
    + destruct (resizeState m) as [rs|].
      * unfold handleResize. cbn.
        destruct (decide (r = rs_panel rs)) as [->|Hne].
        -- rewrite list_lookup_alter_eq, Hel. cbn. eexists. split; [reflexivity|].
           split; [reflexivity|]. split; [by right|]. by intros ? _ [? ?].
        -- rewrite list_lookup_alter_ne by done. exists el.
           repeat split; try done. by left.
      * exists el. repeat split; try done. by left.
Qed.

Lemma geometry_changes_only_where_written_witness :
  let m := play [CreatePanel (panel_at "a" 50 50 300 200);
                 CreatePanel (panel_at "b" 400 50 300 200);
                 HeaderMouseDown (mkMouse 100 60) 0] in
  exists el',
    document (final (perform workspace_1000x800 (inline_layout workspace_1000x800)
                       m (MouseMove (mkMouse 160 90)))) !! 1%nat = Some el' /\
    style el' = mkBounds 400 50 300 200.
Proof.
  intros m.
  destruct (geometry_changes_only_where_written workspace_1000x800
              (inline_layout workspace_1000x800) m (MouseMove (mkMouse 160 90)) 1
              (mkElement "b" (mkBounds 400 50 300 200) None
                 (mkClassList false false false false false) true true))
    as (el' & Hel' & _ & [Hstyle|Hwrites] & _).
  - vm_compute. reflexivity.
  - exists el'. split; [exact Hel' | exact Hstyle].
  - vm_compute in Hwrites. discriminate Hwrites.
Defined.

(** ** What never changes *)

Lemma Map_get_set_state ps id0 (d0 : PanelData) st id data data' :
  Map_get ps id0 = Some d0 ->
  Map_get ps id = Some data ->
  Map_get (Map_set ps id0 (with_state st d0)) id = Some data' ->
  config data' = config data /\ element data' = element data.
Proof.
  intros H0 H. rewrite Map_get_set.
  destruct (String.eqb_spec id0 id) as [->|_].
  - intros [= <-]. rewrite H0 in H. by injection H as <-.
  - rewrite H. by intros [= <-].
Qed.

(** X12.  The constraints and flags of a panel are set once.  Whatever
    the action, a panel that is registered before and after it has the same
    [config] and the same element, unless the action is a [createPanel]
    with its id. *)
Theorem config_is_set_once workspaceRect getBoundingClientRect m a id data data' :
  Map_get (panels m) id = Some data ->
  Map_get (panels (final (perform workspaceRect getBoundingClientRect m a))) id
  = Some data' ->
  (config data' = config data /\ element data' = element data) \/
  (exists cfg, a = CreatePanel cfg /\ c_id cfg = id).
Proof.
  intros Hget.
  assert (forall m0 id0, panels m0 = panels m ->
            Map_get (panels (focusPanel m0 id0)) id = Some data' ->
            config data' = config data /\ element data' = element data) as Hfocus.
  { intros m0 id0 Hps. rewrite focusPanel_panels, Hps, Hget. by intros [= <-]. }
  destruct a; unfold perform; cbn [final].
  - unfold createPanel. cbn. rewrite Map_get_set.
    destruct (String.eqb_spec (c_id cfg) id) as [<-|_].
    + intros _. right. by exists cfg.
    + rewrite Hget. intros [= <-]. by left.
  - left. revert H. unfold closePanel.
    destruct (Map_get (panels m) id0) eqn:H0; cbn;
      [rewrite Map_get_delete; destruct (String.eqb id0 id); [done|]|];
      rewrite Hget; by intros [= <-].
  - left. revert H. unfold showPanel.
    destruct (Map_get (panels m) id0) as [d0|] eqn:H0;
      [|rewrite Hget; by intros [= <-]].
    rewrite focusPanel_panels. cbn. by apply Map_get_set_state.
  - left. revert H. unfold minimizePanel.
    destruct (Map_get (panels m) id0) as [d0|] eqn:H0;
      [|rewrite Hget; by intros [= <-]].
    cbn. by apply Map_get_set_state.
  - left. revert H. unfold toggleMaximize.
    destruct (Map_get (panels m) id0) as [d0|] eqn:H0;
      [|cbn; rewrite Hget; by intros [= <-]].
    destruct (maximized (state d0)).
    + destruct (prevBounds (state d0)); cbn;
        [by apply Map_get_set_state|rewrite Hget; by intros [= <-]].
    + destruct (document m !! element d0); cbn;
        [by apply Map_get_set_state|rewrite Hget; by intros [= <-]].
  - left. by apply (Hfocus m id0).
  - left. revert H. cbn. rewrite Hget. by intros [= <-].
  - left. revert H. unfold loadPanelStates.
    destruct (localStorage m) as [[|doc]|]; cbn; rewrite Hget; by intros [= <-].
  - left. refine (Hfocus _ (bound_id m panel) _ H).
    unfold startDrag. rewrite <- (focusPanel_panels m (bound_id m panel)).
    by destruct (document (focusPanel m (bound_id m panel)) !! panel).
  - left. revert H. unfold startResize.
    destruct (document (focusPanel m (bound_id m panel)) !! panel);
      [|cbn; by apply (Hfocus m)].
    destruct (Map_get (panels (focusPanel m (bound_id m panel))) _); cbn;
      by apply (Hfocus m).
  - left. by apply (Hfocus m (bound_id m panel)).
  - left. revert H. unfold handleMouseMove, handleDrag, handleResize.
    destruct (dragState m) as [ds|].
    + destruct (snappedV _), (snappedH _); cbn; rewrite Hget; by intros [= <-].
    + destruct (resizeState m); cbn; rewrite Hget; by intros [= <-].
  - left. revert H. unfold handleMouseUp.
    destruct (dragState m); cbn; destruct (resizeState m); cbn;
      rewrite Hget; by intros [= <-].
Qed.

Lemma config_is_set_once_witness :
  let m := play [CreatePanel (panel_at "a" 50 50 300 200)] in
  let data' := mkPanelData 0 (mkPanelConfig "a" "Panel" 200 150 true true)
                 (mkPanelState false true (Some (mkBounds 50 50 300 200))) in
  Map_get (panels (final (perform workspace_1000x800
                            (inline_layout workspace_1000x800) m
                            (ToggleMaximize "a")))) "a" = Some data' /\
  ((config data' = mkPanelConfig "a" "Panel" 200 150 true true /\
    element data' = 0%nat) \/
   exists cfg, ToggleMaximize "a" = CreatePanel cfg /\ c_id cfg = "a").
Proof.
  intros m data'.
  assert (Map_get (panels (final (perform workspace_1000x800
                                    (inline_layout workspace_1000x800) m
                                    (ToggleMaximize "a")))) "a" = Some data')
    as Hget by (vm_compute; reflexivity).
  split; [exact Hget|].
  apply (config_is_set_once workspace_1000x800
           (inline_layout workspace_1000x800) m (ToggleMaximize "a") "a"
           (mkPanelData 0 (mkPanelConfig "a" "Panel" 200 150 true true)
              (mkPanelState false false None)) data');
    [vm_compute; reflexivity | exact Hget].
Defined.

(** X13.  The layout held in memory changes only when it is loaded.  No
    action other than [loadPanelStates] changes what [getSavedState]
    answers, a save included; and a load replaces the layout by the stored
    document when that parses, and leaves it alone when the storage is empty
    or unparsable. *)
Theorem saved_layout_changes_only_on_load workspaceRect getBoundingClientRect m a :
  let m' := final (perform workspaceRect getBoundingClientRect m a) in
  match a with
  | LoadPanelStates =>
      savedStates m' = match localStorage m with
                       | Some (Json doc) => Some doc
                       | _ => savedStates m
                       end
  | _ => forall id, getSavedState m' id = getSavedState m id
  end.
Proof.
  assert (forall m0 id, savedStates (focusPanel m0 id) = savedStates m0) as Hfocus.
  { intros m0 id. unfold focusPanel. cbn. by destruct (Map_get (panels m0) id). }
  destruct a; cbn zeta; unfold perform; cbn [final];
    try (intros id0; unfold getSavedState;
         match goal with
         | |- match savedStates ?x with _ => _ end = _ =>
             cut (savedStates x = savedStates m); [by intros ->|]
         end).
  - done.
  - unfold closePanel. by destruct (Map_get (panels m) id).
  - unfold showPanel. destruct (Map_get (panels m) id); [|done]. by rewrite Hfocus.
  - unfold minimizePanel. by destruct (Map_get (panels m) id).
  - unfold toggleMaximize. destruct (Map_get (panels m) id) as [data|]; [|done].
    destruct (maximized (state data)).
    + by destruct (prevBounds (state data)).
    + by destruct (document m !! element data).
  - by rewrite Hfocus.
  - done.
  - unfold loadPanelStates. by destruct (localStorage m) as [[|doc]|].
  - rewrite Hfocus. unfold startDrag. rewrite <- (Hfocus m (bound_id m panel)).
    by destruct (document (focusPanel m (bound_id m panel)) !! panel).
  - unfold startResize. rewrite <- (Hfocus m (bound_id m panel)).
    destruct (document (focusPanel m (bound_id m panel)) !! panel); [|done].
    by destruct (Map_get (panels (focusPanel m (bound_id m panel))) _).
  - by rewrite Hfocus.
  - unfold handleMouseMove, handleDrag, handleResize.
    destruct (dragState m) as [ds|].
    + by destruct (snappedV _), (snappedH _).
    + by destruct (resizeState m).
  - unfold handleMouseUp. destruct (dragState m); cbn; by destruct (resizeState m).
Qed.

(** ** The end of a session *)

Lemma with_localStorage_same l m : localStorage m = l -> with_localStorage l m = m.
Proof. intros <-. by destruct m. Qed.

(** X14.  A pointer-up always leaves the engine idle.  When a session was
    active, the layout it stores is the snapshot of the state it leaves:
    saving again straight away changes nothing.  When no session was
    active, a pointer-up and a pointer move change nothing at all. *)
Theorem pointer_up_ends_the_session_and_saves workspaceRect getBoundingClientRect m :
  let m' := handleMouseUp getBoundingClientRect m in
  idle m' /\
  panels m' = panels m /\
  (~ idle m -> savePanelStates getBoundingClientRect m' = m') /\
  (idle m ->
   m' = m /\
   forall ev, handleMouseMove workspaceRect getBoundingClientRect m ev = m).
Proof.
  intros m'. subst m'. split; [by split|]. split; [|split].
  - unfold handleMouseUp. destruct (dragState m); cbn; by destruct (resizeState m).
  - intros Hbusy. unfold handleMouseUp.
    destruct (dragState m) as [ds|] eqn:Hd; cbn;
      destruct (resizeState m) as [rs|] eqn:Hr; cbn; try reflexivity.
    by destruct Hbusy.
  - intros [Hd Hr]. unfold handleMouseUp, handleMouseMove. rewrite Hd, Hr.
    split; [|done]. destruct m. cbn in *. by subst.
Qed.

(** * The callers *)

(** ** The viewport panel *)

(** X15.  With no layout saved for it, the viewport panel is created half
    as wide as the workspace, at most 800 wide, centred and shifted 100 to
    the left, with a minimum width of 400 and without a close button: its
    width is at least its minimum width exactly when the workspace is at
    least 800 wide. *)
Theorem viewport_default_width workspaceRect m :
  getSavedState m "viewport-panel" = None ->
  exists data el,
    Map_get (panels (createViewportPanel workspaceRect m)) "viewport-panel"
    = Some data /\
    document (createViewportPanel workspaceRect m) !! element data = Some el /\
    minWidth (config data) = 400 /\ closable (config data) = false /\
    width_px (style el) = Math_min 800 (rect_width workspaceRect * (1 # 2)) /\
    (minWidth (config data) <= width_px (style el)
     <-> 800 <= rect_width workspaceRect) /\
    left_px (style el) + width_px (style el) / 2
    == rect_width workspaceRect / 2 - 100.
Proof.
  intros Hsaved. unfold createViewportPanel, createPanel. rewrite Hsaved. cbn.
  eexists _, _. rewrite Map_get_set, String.eqb_refl.
  split; [reflexivity|]. cbn. rewrite lookup_app_r, Nat.sub_diag by lia.
  split; [reflexivity|]. cbn. split; [reflexivity|]. split; [reflexivity|].
  split; [reflexivity|]. split.
  - unfold Math_min. rewrite Q.min_glb_iff. split; [intros [_ H]|intros H; split]; lra.
  - field.
Qed.

Lemma viewport_default_width_witness :
  exists data el,
    Map_get (panels (createViewportPanel workspace_1000x800 (new_PanelManager None)))
            "viewport-panel" = Some data /\
    document (createViewportPanel workspace_1000x800 (new_PanelManager None))
      !! element data = Some el /\
    width_px (style el) = Math_min 800 (rect_width workspace_1000x800 * (1 # 2)).
Proof.
  destruct (viewport_default_width workspace_1000x800 (new_PanelManager None))
    as (data & el & Hget & Hel & _ & _ & Hwidth & _); [reflexivity|].
  exists data, el. split; [exact Hget|]. split; [exact Hel | exact Hwidth].
Defined.

(** ** The tree-count shortcut *)

Lemma next_level_in_levels current :
  (exists next, next_level current = Some next /\ next ∈ levels) /\
  ((forall level, level ∈ levels -> ~ level == current) ->
   next_level current = Some 25).
Proof.
  split.
  - unfold next_level, levels. cbn [indexOf].
    destruct (Qeq_bool 25 current); [eexists; split; [reflexivity|]; (rewrite !elem_of_cons; tauto)|].
    destruct (Qeq_bool 50 current); [eexists; split; [reflexivity|]; (rewrite !elem_of_cons; tauto)|].
    destruct (Qeq_bool 100 current); [eexists; split; [reflexivity|]; (rewrite !elem_of_cons; tauto)|].
    destruct (Qeq_bool 175 current); [eexists; split; [reflexivity|]; (rewrite !elem_of_cons; tauto)|].
    destruct (Qeq_bool 300 current); eexists; (split; [reflexivity|]); (rewrite !elem_of_cons; tauto).
  - intros Hout. unfold next_level, levels. cbn [indexOf].
    assert (forall level, level ∈ levels -> Qeq_bool level current = false) as Hne.
    { intros level Hin. destruct (Qeq_bool level current) eqn:Heq; [|done].
      apply Qeq_bool_iff in Heq. by destruct (Hout level Hin). }
    unfold levels in Hne. rewrite !Hne by (rewrite !elem_of_cons; tauto). reflexivity.
Qed.

(** X16.  The tree-count shortcut.  The [keydown] listener asks the scene
    for trees exactly when the key is [t] or [T] and the [contentEditable]
    property of the active element is not ['true']: with the focus in the
    code area it asks for nothing.  When it asks, it asks for one of the five
    levels: from a level the next one, from the last one the first, and from
    any other tree count the first level, 25.  The [T] key leaves the engine
    as it is. *)
Theorem T_shortcut_cycles_the_levels key contentEditable current m :
  let asked := fst (keydown key contentEditable current m) in
  (is_Some asked
   <-> (key = "t" \/ key = "T") /\ contentEditable <> Some "true") /\
  (forall next,
     asked = Some next -> next ∈ levels /\ next_level current = Some next) /\
  (is_Some asked ->
   (forall level, level ∈ levels -> ~ level == current) ->
   asked = Some 25) /\
  next_level <$> levels = [Some 50; Some 100; Some 175; Some 300; Some 25] /\
  (key = "t" \/ key = "T" ->
   snd (keydown key contentEditable current m) = Returns m).
Proof.
  destruct (next_level_in_levels current) as [(next0 & Hnext0 & Hin0) Hother].
  assert (String.eqb key "t" || String.eqb key "T" = true
          <-> key = "t" \/ key = "T") as Hkey.
  { rewrite orb_true_iff, !String.eqb_eq. tauto. }
  assert (negb (match contentEditable with
                | Some value => String.eqb value "true"
                | None => false
                end) = true <-> contentEditable <> Some "true") as Hguard.
  { destruct contentEditable as [value|]; [|done].
    rewrite negb_true_iff. destruct (String.eqb_spec value "true") as [->|Hne].
    - split; [done|]. by intros H.
    - split; [|done]. intros _ [= ->]. done. }
  unfold keydown. cbn [fst snd].
  destruct (String.eqb key "t" || String.eqb key "T") eqn:HT.
  - destruct (negb _) eqn:HG.
    + rewrite Hnext0.
      split; [split; [intros _; split; [by apply Hkey|by apply Hguard]|by eexists]|].
      split; [by intros next [= <-]|].
      split; [intros _ Hout; by rewrite <- Hnext0, Hother|].
      split; [reflexivity|]. intros Hpressed.
      by destruct Hpressed as [->| ->].
    + split.
      { split; [by intros [? ?]|]. intros [_ Hce]. apply Hguard in Hce. congruence. }
      split; [done|]. split; [by intros [? ?]|].
      split; [reflexivity|]. intros Hpressed.
      by destruct Hpressed as [->| ->].
  - split.
    { split; [by intros [? ?]|]. intros [Hpressed _]. apply Hkey in Hpressed.
      congruence. }
    split; [done|]. split; [by intros [? ?]|].
    split; [reflexivity|]. intros Hpressed. apply Hkey in Hpressed. congruence.
Qed.

(** ** The profiler *)

Lemma Qle_bool_false a b : Qle_bool a b = false <-> b < a.
Proof.
  split.
  - intros H. apply Qnot_le_lt. intros Hle. apply Qle_bool_iff in Hle. congruence.
  - intros H. destruct (Qle_bool a b) eqn:Hb; [|done].
    apply Qle_bool_iff in Hb. lra.
Qed.

Lemma Qltb_false a b : Qltb a b = false <-> b <= a.
Proof. unfold Qltb. rewrite negb_false_iff. apply Qle_bool_iff. Qed.

(** X17.  The health of a metric has three bands and is monotone.  A frame
    rate is [healthy] from 45 up, [warning] from 30 up and [critical]
    below; memory and draw calls are [healthy] below their green threshold
    (300, 50), [warning] below their yellow one (350, 80) and [critical]
    from there on.  A higher frame rate is never classed worse, and a higher
    memory use or draw-call count is never classed better. *)
Theorem health_bands_are_monotone metric v1 v2 :
  v1 <= v2 ->
  let class v := health_class (getHealthStatus metric v) in
  (match metric with
   | metric_fps => (severity (class v2) <= severity (class v1))%nat
   | _ => (severity (class v1) <= severity (class v2))%nat
   end) /\
  (match metric with
   | metric_fps =>
       (class v1 = "healthy" <-> 45 <= v1) /\
       (class v1 = "warning" <-> 30 <= v1 < 45) /\
       (class v1 = "critical" <-> v1 < 30)
   | _ =>
       (class v1 = "healthy" <-> v1 < green (thresholds metric)) /\
       (class v1 = "warning"
        <-> green (thresholds metric) <= v1 < yellow (thresholds metric)) /\
       (class v1 = "critical" <-> yellow (thresholds metric) <= v1)
   end).
Proof.
  intros Hle class. subst class. cbn beta.
  destruct metric; unfold getHealthStatus; cbn [thresholds green yellow].
  - destruct (Qle_bool 45 v1) eqn:H1, (Qle_bool 30 v1) eqn:H2,
      (Qle_bool 45 v2) eqn:H3, (Qle_bool 30 v2) eqn:H4;
      rewrite ?Qle_bool_iff, ?Qle_bool_false in *; cbn;
      repeat split; intros; try discriminate; try lia; try lra.
  - destruct (Qltb v1 300) eqn:H1, (Qltb v1 350) eqn:H2,
      (Qltb v2 300) eqn:H3, (Qltb v2 350) eqn:H4;
      rewrite ?Qltb_lt, ?Qltb_false in *; cbn;
      repeat split; intros; try discriminate; try lia; try lra.
  - destruct (Qltb v1 50) eqn:H1, (Qltb v1 80) eqn:H2,
      (Qltb v2 50) eqn:H3, (Qltb v2 80) eqn:H4;
      rewrite ?Qltb_lt, ?Qltb_false in *; cbn;
      repeat split; intros; try discriminate; try lia; try lra.
Qed.

Lemma health_bands_are_monotone_witness :
  (severity (health_class (getHealthStatus metric_fps 50))
   <= severity (health_class (getHealthStatus metric_fps 20)))%nat.
Proof.
  refine (proj1 (health_bands_are_monotone metric_fps 20 50 _)).
  vm_compute. discriminate.
Defined.

Lemma filter_other_handle (base : list nat) h :
  h ∉ base ->
  List.filter (fun h' => negb (h' =? h)%nat) (base ++ [h]) = base.
Proof.
  intros Hnot. rewrite List.filter_app. cbn. rewrite Nat.eqb_refl. cbn.
  rewrite app_nil_r. induction base as [|b base IH]; [done|].
  apply not_elem_of_cons in Hnot as [Hne Hnot]. cbn.
  destruct (Nat.eqb_spec b h) as [->|_]; [done|]. cbn. by rewrite IH.
Qed.

Lemma timers_ok_start base m t vp :
  timers_ok base t vp ->
  let '(m', t', vp') := startUpdates (m, t, vp) in
  m' = m /\ timers_ok base t' vp' /\ is_Some (vp_updateInterval vp') /\
  vp_visible vp' = vp_visible vp.
Proof.
  intros [Hpos Hbelow Hnodup Hsplit Hown]. unfold startUpdates, own_interval in *.
  destruct (vp_updateInterval vp) as [h|] eqn:Hh; cbn [truthy].
  - specialize (Hown h eq_refl).
    destruct (Nat.eqb_spec h 0) as [->|_]; [lia|]. cbn.
    split; [done|]. split; [|by rewrite Hh].
    split; unfold own_interval; rewrite ?Hh; try done.
    intros ? [= <-]. lia.
  - cbn. split; [done|]. split; [|split; [by eexists|done]].
    rewrite app_nil_r in Hsplit.
    split; cbn; unfold own_interval; cbn.
    + lia.
    + apply Forall_app. split; [|apply Forall_singleton; lia].
      eapply Forall_impl; [exact Hbelow|]. cbn. lia.
    + apply NoDup_app. split; [done|]. split; [|apply NoDup_singleton].
      intros h Hin Hh'. apply list_elem_of_singleton in Hh' as ->.
      rewrite Forall_forall in Hbelow. specialize (Hbelow _ Hin). lia.
    + by rewrite Hsplit.
    + intros ? [= <-]. lia.
Qed.

Lemma timers_ok_stop base m t vp :
  timers_ok base t vp ->
  let '(m', t', vp') := stopUpdates (m, t, vp) in
  m' = m /\ timers_ok base t' vp' /\ vp_updateInterval vp' = None /\
  vp_visible vp' = vp_visible vp.
Proof.
  intros [Hpos Hbelow Hnodup Hsplit Hown]. unfold stopUpdates, own_interval in *.
  destruct (vp_updateInterval vp) as [h|] eqn:Hh; cbn [truthy].
  - specialize (Hown h eq_refl).
    destruct (Nat.eqb_spec h 0) as [->|_]; [lia|]. cbn.
    split; [done|]. split; [|done].
    assert (h ∉ base) as Hnot.
    { rewrite Hsplit in Hnodup. apply NoDup_app in Hnodup as (_ & Hdis & _).
      intros Hin. apply (Hdis _ Hin). apply list_elem_of_singleton. done. }
    assert (List.filter (fun h' => negb (h' =? h)%nat) (intervals t) = base)
      as Hfilter by (rewrite Hsplit; by apply filter_other_handle).
    split; cbn; unfold own_interval; cbn; rewrite ?Hfilter.
    + done.
    + rewrite Hsplit in Hbelow. by apply Forall_app in Hbelow as [? _].
    + rewrite Hsplit in Hnodup. by apply NoDup_app in Hnodup as (? & _).
    + by rewrite app_nil_r.
    + done.
  - split; [done|]. split; [|by rewrite Hh].
    split; unfold own_interval; rewrite ?Hh; done.
Qed.

Lemma timers_ok_same_interval base t vp vp' :
  vp_updateInterval vp' = vp_updateInterval vp ->
  timers_ok base t vp -> timers_ok base t vp'.
Proof.
  intros Heq [Hpos Hbelow Hnodup Hsplit Hown].
  split; unfold own_interval in *; rewrite ?Heq; done.
Qed.

Lemma VisualProfiler_show_starts m t vp :
  exists m' vp0,
    VisualProfiler_show (m, t, vp) = startUpdates (m', t, vp0) /\
    vp_updateInterval vp0 = vp_updateInterval vp /\ vp_visible vp0 = true.
Proof.
  unfold VisualProfiler_show. cbn [vp_panel vp_container vp_panelManager].
  destruct (vp_panel vp), (vp_container vp); by eexists _, _.
Qed.

Lemma VisualProfiler_hide_stops m t vp :
  exists m' vp0,
    VisualProfiler_hide (m, t, vp) = stopUpdates (m', t, vp0) /\
    vp_updateInterval vp0 = vp_updateInterval vp /\ vp_visible vp0 = false.
Proof.
  unfold VisualProfiler_hide. cbn [vp_panel vp_container vp_panelManager].
  destruct (vp_panel vp), (vp_container vp); by eexists _, _.
Qed.

Lemma timers_ok_call base m t vp c :
  timers_ok base t vp ->
  let '(_, t', vp') := profiler_call (m, t, vp) c in
  timers_ok base t' vp' /\
  match c with
  | CallShow | CallStartUpdates => is_Some (vp_updateInterval vp')
  | CallHide | CallStopUpdates => vp_updateInterval vp' = None
  end.
Proof.
  intros Hok. destruct c; cbn [profiler_call].
  - destruct (VisualProfiler_show_starts m t vp) as (m' & vp0 & -> & Heq & _).
    pose proof (timers_ok_start base m' t vp0
                  (timers_ok_same_interval base t vp vp0 Heq Hok)) as H.
    destruct (startUpdates (m', t, vp0)) as [[? ?] ?]. tauto.
  - destruct (VisualProfiler_hide_stops m t vp) as (m' & vp0 & -> & Heq & _).
    pose proof (timers_ok_stop base m' t vp0
                  (timers_ok_same_interval base t vp vp0 Heq Hok)) as H.
    destruct (stopUpdates (m', t, vp0)) as [[? ?] ?]. tauto.
  - pose proof (timers_ok_start base m t vp Hok) as H.
    destruct (startUpdates (m, t, vp)) as [[? ?] ?]. tauto.
  - pose proof (timers_ok_stop base m t vp Hok) as H.
    destruct (stopUpdates (m, t, vp)) as [[? ?] ?]. tauto.
Qed.

(** X18.  The profiler holds at most one interval.  In a page whose
    interval handles are positive, distinct and below the next handle to be
    given out, whatever sequence of [show], [hide], [startUpdates] and
    [stopUpdates] is called on a profiler that holds no interval at first,
    the intervals of the page are afterwards those there were before,
    untouched and in their order, followed by the one the profiler holds, if
    it holds one: a second [startUpdates] or [show] starts no second
    interval, and [stopUpdates] and [hide] clear the one started.  After
    [show] or [startUpdates] the profiler holds an interval, after [hide] or
    [stopUpdates] it holds none. *)
Theorem profiler_holds_at_most_one_interval m t vp calls :
  (0 < nextHandle t)%nat ->
  Forall (fun h => (h < nextHandle t)%nat) (intervals t) ->
  NoDup (intervals t) ->
  vp_updateInterval vp = None ->
  let '(_, t', vp') := profiler_calls (m, t, vp) calls in
  intervals t' = intervals t ++ own_interval vp' /\
  (length (own_interval vp') <= 1)%nat /\
  match last calls with
  | Some (CallShow | CallStartUpdates) => is_Some (vp_updateInterval vp')
  | Some (CallHide | CallStopUpdates) => vp_updateInterval vp' = None
  | None => vp_updateInterval vp' = None
  end.
Proof.
  intros Hpos Hbelow Hnodup Hnone.
  assert (timers_ok (intervals t) t vp) as Hok.
  { split; unfold own_interval; rewrite ?Hnone, ?app_nil_r; done. }
  assert (let '(_, t', vp') := profiler_calls (m, t, vp) calls in
          timers_ok (intervals t) t' vp' /\
          match last calls with
          | Some (CallShow | CallStartUpdates) => is_Some (vp_updateInterval vp')
          | Some (CallHide | CallStopUpdates) => vp_updateInterval vp' = None
          | None => vp_updateInterval vp' = None
          end) as H.
  { unfold profiler_calls.
    induction calls as [|c calls IH] using rev_ind; [by cbn|].
    rewrite fold_left_app, last_snoc. cbn [fold_left].
    destruct (fold_left profiler_call calls (m, t, vp)) as [[m1 t1] vp1].
    destruct IH as [Hok1 _].
    pose proof (timers_ok_call (intervals t) m1 t1 vp1 c Hok1) as Hc.
    destruct (profiler_call (m1, t1, vp1) c) as [[m2 t2] vp2].
    destruct Hc as [Hok2 Hc]. split; [done|]. by destruct c. }
  destruct (profiler_calls (m, t, vp) calls) as [[m' t'] vp'].
  destruct H as [Hok' Hlast]. split; [apply Hok'|]. split; [|done].
  unfold own_interval. destruct (vp_updateInterval vp'); cbn; lia.
Qed.

Lemma profiler_holds_at_most_one_interval_witness :
  let t := mkTimers 4 [1; 3]%nat in
  let vp := mkProfiler false None (Some true) false None in
  let '(_, t', vp') :=
    profiler_calls (new_PanelManager None, t, vp)
                   [CallShow; CallStartUpdates; CallHide; CallShow] in
  intervals t' = intervals t ++ own_interval vp' /\
  (length (own_interval vp') <= 1)%nat /\
  is_Some (vp_updateInterval vp').
Proof.
  apply (profiler_holds_at_most_one_interval (new_PanelManager None)
           (mkTimers 4 [1; 3]%nat) (mkProfiler false None (Some true) false None)
           [CallShow; CallStartUpdates; CallHide; CallShow]).
  - cbn. lia.
  - cbn. repeat constructor; lia.
  - cbn. repeat constructor; rewrite ?elem_of_cons, ?elem_of_nil; lia.
  - reflexivity.
Defined.

Lemma stopUpdates_spec m t vp :
  exists t' vp',
    stopUpdates (m, t, vp) = (m, t', vp') /\
    nextHandle t' = nextHandle t /\
    truthy (vp_updateInterval vp') = false /\
    vp_panelManager vp' = vp_panelManager vp /\ vp_panel vp' = vp_panel vp /\
    vp_container vp' = vp_container vp /\ vp_visible vp' = vp_visible vp.
Proof.
  unfold stopUpdates.
  destruct (vp_updateInterval vp) as [h|] eqn:Hh;
    [destruct (truthy (Some h)) eqn:Ht|];
    eexists _, _; (split; [reflexivity|]); cbn; rewrite ?Hh; done.
Qed.

Lemma startUpdates_spec m t vp :
  (0 < nextHandle t)%nat ->
  exists t' vp',
    startUpdates (m, t, vp) = (m, t', vp') /\
    truthy (vp_updateInterval vp') = true /\
    vp_panelManager vp' = vp_panelManager vp /\ vp_panel vp' = vp_panel vp /\
    vp_container vp' = vp_container vp /\ vp_visible vp' = vp_visible vp.
Proof.
  intros Hpos. unfold startUpdates.
  destruct (truthy (vp_updateInterval vp)) eqn:Ht;
    eexists _, _; (split; [reflexivity|]); cbn; rewrite ?Ht; repeat split.
  by destruct (Nat.eqb_spec (nextHandle t) 0); [lia|].
Qed.

(** X19.  Hiding and showing the profiler drives its panel.  With the
    panel [profiler-panel] registered and its element in the page, [hide]
    minimizes it (the [minimized] flag and the [hidden] class are set) and
    stops the updates; a following [show] clears both, focuses the panel and
    starts the updates again.  The rectangle of the panel is the same
    throughout, and after [show] its [maximized] flag and saved bounds are
    what they were before [hide]. *)
Theorem profiler_hide_then_show m t vp r data el :
  vp_panelManager vp = true ->
  vp_panel vp = Some r ->
  Map_get (panels m) "profiler-panel" = Some data ->
  document m !! element data = Some el ->
  (0 < nextHandle t)%nat ->
  let '(m1, t1, vp1) := VisualProfiler_hide (m, t, vp) in
  let '(m2, t2, vp2) := VisualProfiler_show (m1, t1, vp1) in
  (exists data1 el1,
     Map_get (panels m1) "profiler-panel" = Some data1 /\
     document m1 !! element data = Some el1 /\
     element data1 = element data /\
     minimized (state data1) = true /\
     hidden (classList el1) = true /\
     style el1 = style el) /\
  vp_visible vp1 = false /\ truthy (vp_updateInterval vp1) = false /\
  (exists data2 el2,
     Map_get (panels m2) "profiler-panel" = Some data2 /\
     document m2 !! element data = Some el2 /\
     element data2 = element data /\
     minimized (state data2) = false /\
     maximized (state data2) = maximized (state data) /\
     prevBounds (state data2) = prevBounds (state data) /\
     hidden (classList el2) = false /\
     focused (classList el2) = true /\
     style el2 = style el) /\
  activePanel m2 = Some "profiler-panel" /\
  vp_visible vp2 = true /\ truthy (vp_updateInterval vp2) = true.
Proof.
  intros Hpm Hpanel Hget Hel Hpos.
  unfold VisualProfiler_hide. cbn [vp_panel vp_container vp_panelManager].
  rewrite Hpanel, Hpm.
  destruct (stopUpdates_spec (minimizePanel m "profiler-panel") t
              (mkProfiler true (Some r) (vp_container vp) false
                          (vp_updateInterval vp)))
    as (t1 & vp1 & -> & Hnext & Hoff & Hpm1 & Hpanel1 & _ & Hvis1).
  cbn in Hpm1, Hpanel1, Hvis1.
  unfold VisualProfiler_show. cbn [vp_panel vp_container vp_panelManager].
  rewrite Hpanel1, Hpm1.
  destruct (startUpdates_spec (showPanel (minimizePanel m "profiler-panel")
                                 "profiler-panel") t1
              (mkProfiler true (Some r) (vp_container vp1) true
                          (vp_updateInterval vp1)))
    as (t2 & vp2 & -> & Hon & _ & _ & _ & Hvis2); [lia|].
  cbn in Hvis2.
  set (data1 := with_state (mkPanelState true (maximized (state data))
                              (prevBounds (state data))) data).
  assert (Map_get (panels (minimizePanel m "profiler-panel")) "profiler-panel"
          = Some data1 /\
          document (minimizePanel m "profiler-panel")
          = alter (set_hidden true) (element data) (document m)) as [Hget1 Hdoc1].
  { unfold minimizePanel. rewrite Hget. cbn.
    by rewrite Map_get_set, String.eqb_refl. }
  split.
  { eexists _, _. split; [exact Hget1|].
    rewrite Hdoc1, list_lookup_alter_eq, Hel. cbn. done. }
  split; [done|]. split; [done|].
  destruct (showPanel_known _ _ _ Hget1) as (Hps & _ & Hactive & Hdoc2).
  split; [|done].
  assert (alter (set_hidden false) (element data1)
            (document (minimizePanel m "profiler-panel")) !! element data
          = Some (set_hidden false (set_hidden true el))) as Hlook
    by (by rewrite Hdoc1; cbn; rewrite !list_lookup_alter_eq, Hel).
  destruct (unfocus_all_keeps
              (Map_set (panels (minimizePanel m "profiler-panel")) "profiler-panel"
                 (with_state (mkPanelState false (maximized (state data1))
                                (prevBounds (state data1))) data1))
              _ _ _ Hlook) as (el2 & Hel2 & Hk2).
  eexists _, _. rewrite Hps, Map_get_set, String.eqb_refl.
  split; [reflexivity|].
  change (element data1) with (element data) in Hel2, Hdoc2.
  rewrite Hdoc2, !list_lookup_alter_eq, Hel2. cbn.
  split; [reflexivity|].
  by destruct Hk2 as [->| ->].
Qed.

Lemma profiler_hide_then_show_witness :
  let '(m, t, vp) :=
    VisualProfiler_createPanel 1280
      (new_PanelManager None, mkTimers 1 [], mkProfiler true None None false None) in
  let '(m1, t1, vp1) := VisualProfiler_hide (m, t, vp) in
  let '(m2, t2, vp2) := VisualProfiler_show (m1, t1, vp1) in
  activePanel m2 = Some "profiler-panel" /\
  vp_visible vp2 = true /\ truthy (vp_updateInterval vp2) = true.
Proof.
  pose proof (profiler_hide_then_show
                (fst (createPanel (new_PanelManager None)
                        (mkConfig "profiler-panel" "Performance"
                           (Some 1000) (Some 50) (Some 260) (Some 480)
                           (Some 220) (Some 300) None None)))
                (mkTimers 1 []) (mkProfiler true (Some 0%nat) None false None)
                0%nat
                (mkPanelData 0 (mkPanelConfig "profiler-panel" "Performance"
                                  220 300 true true)
                   (mkPanelState false false None))
                (mkElement "profiler-panel" (mkBounds 1000 50 260 480) None
                   (mkClassList false false false false false) true true)
                eq_refl eq_refl eq_refl eq_refl (Nat.lt_0_1)) as H.
  vm_compute in H. vm_compute. tauto.
Defined.

(** ** The console of the code editor *)

Lemma limit_lines_children nodes :
  children (limit_lines nodes)
  = drop (length (children nodes) - 50) (children nodes).
Proof.
  induction nodes as [|node rest IH]; [done|].
  cbn [limit_lines].
  destruct (Nat.ltb_spec 50 (length (children (node :: rest)))) as [Hlt|Hle].
  - rewrite IH. unfold children in *. cbn [List.filter] in *.
    destruct (is_line node); [|done].
    cbn [length] in *.
    replace (S (length (List.filter is_line rest)) - 50)%nat
      with (S (length (List.filter is_line rest) - 50)) by lia.
    done.
  - by replace (length (children (node :: rest)) - 50)%nat with 0%nat by lia.
Qed.

Lemma limit_lines_suffix nodes :
  exists removed, nodes = removed ++ limit_lines nodes.
Proof.
  induction nodes as [|node rest [removed IH]]; [by exists []|].
  cbn [limit_lines].
  destruct (50 <? length (children (node :: rest)))%nat.
  - exists (node :: removed). cbn. by rewrite <- IH.
  - by exists [].
Qed.

Lemma limit_lines_last nodes line :
  is_line line = true -> last nodes = Some line ->
  last (limit_lines nodes) = Some line.
Proof.
  intros Hline. induction nodes as [|node rest IH]; [done|].
  intros Hlast. cbn [limit_lines].
  destruct (Nat.ltb_spec 50 (length (children (node :: rest)))) as [Hlt|Hle];
    [|done].
  destruct rest as [|node' rest]; [|by apply IH].
  unfold children in Hlt. cbn in Hlt. destruct (is_line node); cbn in Hlt; lia.
Qed.

(** X20.  The console keeps the last 50 lines.  After [log(type, message)]
    the lines of the console are the last 50 of the lines it had followed by
    the new one, so there are at most 50 and none is dropped while there are
    fewer; the new line is the last node; and what is removed is removed
    from the front: the nodes left are a tail of the nodes there were
    followed by the new line. *)
Theorem log_keeps_the_last_50_lines nodes type message :
  let line := ConsoleLine type message in
  let nodes' := CodeEditor_log nodes type message in
  children nodes'
  = drop (length (children nodes) + 1 - 50) (children nodes ++ [line]) /\
  (length (children nodes') <= 50)%nat /\
  ((length (children nodes) < 50)%nat ->
   nodes' = nodes ++ [line]) /\
  last nodes' = Some line /\
  exists removed, nodes ++ [line] = removed ++ nodes'.
Proof.
  intros line nodes'. subst nodes'. unfold CodeEditor_log. fold line.
  assert (children (nodes ++ [line]) = children nodes ++ [line]) as Hch
    by (unfold children; by rewrite List.filter_app).
  assert (children (limit_lines (nodes ++ [line]))
          = drop (length (children nodes) + 1 - 50) (children nodes ++ [line]))
    as Hkept.
  { rewrite limit_lines_children, Hch, length_app. done. }
  split; [exact Hkept|]. split; [|split; [|split]].
  - rewrite Hkept, length_drop, length_app. cbn. lia.
  - intros Hfew. destruct (nodes ++ [line]) as [|node rest] eqn:Heq; [done|].
    cbn [limit_lines]. rewrite Hch, length_app. cbn [length].
    by destruct (Nat.ltb_spec 50 (length (children nodes) + 1)); [lia|].
  - apply limit_lines_last; [done|]. apply last_snoc.
  - apply limit_lines_suffix.
Qed.

(** * Registered panels are in the page *)

Lemma in_page_alter ps doc f r :
  (forall el, inPage el = true -> inPage (f el) = true) ->
  registered_in_page ps doc -> registered_in_page ps (alter f r doc).
Proof.
  intros Hf H id data el' Hin Hlook.
  destruct (lookup_alter_Some _ _ _ _ _ Hlook) as (el & Hl & [->|[_ ->]]); eauto.
Qed.

Lemma in_page_unfocus ps' ps doc :
  registered_in_page ps doc -> registered_in_page ps (unfocus_all ps' doc).
Proof.
  unfold unfocus_all. revert doc.
  induction ps' as [|entry ps' IH]; simpl; intros doc H; [done|].
  apply IH, in_page_alter; [|done]. by intros el.
Qed.

Lemma in_page_set_state ps doc id data st :
  NoDup ps.*1 -> Map_get ps id = Some data ->
  registered_in_page ps doc ->
  registered_in_page (Map_set ps id (with_state st data)) doc.
Proof.
  intros Hnd Hget H id' data' el Hin Hlook.
  apply elem_of_Map_set in Hin as [[-> ->]|[_ Hin]]; [|eauto|done].
  apply Map_get_elem_of in Hget. eauto.
Qed.

Lemma in_page_create ps doc top rs id c b z cl h :
  consistent ps doc top rs ->
  registered_in_page ps doc ->
  registered_in_page
    (Map_set ps id (mkPanelData (length doc) c (mkPanelState false false None)))
    (doc ++ [mkElement id b z cl h true]).
Proof.
  intros Hwf H id' data' el Hin Hlook.
  apply elem_of_Map_set in Hin as [[-> ->]|[_ Hin]]; [| |apply Hwf].
  - cbn in Hlook. rewrite lookup_app_r, Nat.sub_diag in Hlook by lia.
    by injection Hlook as <-.
  - destruct (elements_exist _ _ _ _ Hwf _ _ Hin) as (el0 & Hl0 & _).
    rewrite (lookup_app_l_Some _ _ _ _ Hl0) in Hlook. injection Hlook as <-. eauto.
Qed.

(** Peels the updates that take no element out of the page off a goal. *)
Ltac in_page :=
  repeat first
    [ assumption
    | apply in_page_alter; [solve [let H := fresh in intros ? H; exact H]|]
    | apply in_page_unfocus ].

Lemma in_page_focusPanel m id :
  registered_in_page (panels m) (document m) ->
  registered_in_page (panels (focusPanel m id)) (document (focusPanel m id)).
Proof.
  intros H. unfold focusPanel. cbn.
  destruct (Map_get (panels m) id); cbn; by in_page.
Qed.

Lemma in_page_perform workspaceRect getBoundingClientRect m a :
  wf m -> registered_in_page (panels m) (document m) ->
  let m' := final (perform workspaceRect getBoundingClientRect m a) in
  registered_in_page (panels m') (document m').
Proof.
  intros Hwf H. destruct a; unfold perform; cbn [final]; cbn zeta.
  - unfold createPanel. cbn.
    by apply in_page_create with (top := topZIndex m) (rs := resizeState m).
  - unfold closePanel.
    destruct (Map_get (panels m) id) as [data|] eqn:Hget; [|done]. cbn.
    intros id' data' el' Hin Hlook.
    apply elem_of_Map_delete in Hin as [Hin Hne].
    destruct (decide (element data' = element data)) as [Heq|Hr].
    + by destruct (registered_by_element m id data id' data' Hwf Hget Hin Heq).
    + rewrite list_lookup_alter_ne in Hlook by done. eauto.
  - unfold showPanel.
    destruct (Map_get (panels m) id) as [data|] eqn:Hget; [|done].
    apply in_page_focusPanel. cbn.
    apply in_page_set_state; [apply Hwf|done|by in_page].
  - unfold minimizePanel.
    destruct (Map_get (panels m) id) as [data|] eqn:Hget; [|done]. cbn.
    apply in_page_set_state; [apply Hwf|done|by in_page].
  - unfold toggleMaximize.
    destruct (Map_get (panels m) id) as [data|] eqn:Hget; [|done].
    destruct (maximized (state data)).
    + destruct (prevBounds (state data)); [|done]. cbn.
      apply in_page_set_state; [apply Hwf|done|by in_page].
    + destruct (document m !! element data); [|done]. cbn.
      apply in_page_set_state; [apply Hwf|done|by in_page].
  - by apply in_page_focusPanel.
  - done.
  - unfold loadPanelStates. by destruct (localStorage m) as [[|doc]|].
  - apply in_page_focusPanel. unfold startDrag.
    pose proof (in_page_focusPanel m (bound_id m panel) H) as H1.
    destruct (document (focusPanel m (bound_id m panel)) !! panel); [|done].
    cbn. by in_page.
  - pose proof (in_page_focusPanel m (bound_id m panel) H) as H1.
    unfold startResize.
    destruct (document (focusPanel m (bound_id m panel)) !! panel); [|done].
    destruct (Map_get (panels (focusPanel m (bound_id m panel))) _); [|done].
    cbn. by in_page.
  - by apply in_page_focusPanel.
  - unfold handleMouseMove, handleDrag, handleResize.
    destruct (dragState m) as [ds|].
    + destruct (snappedV _), (snappedH _); cbn; by in_page.
    + destruct (resizeState m); cbn; by in_page.
  - unfold handleMouseUp.
    destruct (dragState m); cbn; destruct (resizeState m); cbn; by in_page.
Qed.

(** X21.  In every state the engine reaches, every registered panel has
    its element in the page, and that element carries the panel's id: an
    element that [closePanel] took out of the page is the element of no
    registered panel. *)
Theorem registered_panels_are_in_the_page workspaceRect getBoundingClientRect
    allowed storage m :
  reachable_by workspaceRect getBoundingClientRect allowed storage m ->
  (forall id data,
     Map_get (panels m) id = Some data ->
     exists el, document m !! element data = Some el /\
                el_id el = id /\ inPage el = true) /\
  (forall r el,
     document m !! r = Some el -> inPage el = false ->
     forall id data, Map_get (panels m) id = Some data -> element data <> r).
Proof.
  intros Hreach.
  pose proof (reachable_by_wf _ _ _ _ _ Hreach) as Hwf.
  assert (registered_in_page (panels m) (document m)) as Hin.
  { induction Hreach as [|m a Hreach IH Ha].
    - unfold new_PanelManager, loadPanelStates.
      destruct storage as [[|doc]|]; cbn; intros id data el Hin;
        by apply elem_of_nil in Hin.
    - apply in_page_perform; [by eapply reachable_by_wf|].
      apply IH. by eapply reachable_by_wf. }
  split.
  - intros id data Hget. apply Map_get_elem_of in Hget.
    destruct (elements_exist _ _ _ _ Hwf _ _ Hget) as (el & Hel & Hid).
    exists el. split; [done|]. split; [done|]. by eapply Hin.
  - intros r el Hel Hout id data Hget <-. apply Map_get_elem_of in Hget.
    rewrite (Hin _ _ _ Hget Hel) in Hout. discriminate.
Qed.

Lemma registered_panels_are_in_the_page_witness :
  let m := play [CreatePanel (panel_at "a" 50 50 300 200);
                 CreatePanel (panel_at "b" 400 50 300 200);
                 ClosePanel "a"; ShowPanel "b"] in
  exists el, document m !! 1%nat = Some el /\ el_id el = "b" /\ inPage el = true.
Proof.
  intros m.
  destruct (registered_panels_are_in_the_page workspace_1000x800
              (inline_layout workspace_1000x800) enabled None m)
    as [Hin _]; [subst m; played|].
  apply (Hin "b" (mkPanelData 1 (mkPanelConfig "b" "Panel" 200 150 true true)
                    (mkPanelState false false None))).
  vm_compute. reflexivity.
Defined.

(** * The path of a drag *)

Lemma keeps_ids_refl doc : keeps_ids doc doc.
Proof. intros r el H. eauto. Qed.

Lemma keeps_ids_alter doc doc' f r :
  (forall el, el_id (f el) = el_id el) ->
  keeps_ids doc doc' -> keeps_ids doc (alter f r doc').
Proof.
  intros Hf H j el Hl. destruct (H j el Hl) as (el1 & Hl1 & Hid).
  destruct (lookup_alter_keeps f doc' r j el1 Hl1) as (el' & Hl' & [->|[_ ->]]).
  - eauto.
  - exists (f el1). by rewrite Hf.
Qed.

Lemma keeps_ids_unfocus ps doc doc' :
  keeps_ids doc doc' -> keeps_ids doc (unfocus_all ps doc').
Proof.
  unfold unfocus_all. revert doc'.
  induction ps as [|entry ps IH]; simpl; intros doc' H; [done|].
  by apply IH, keeps_ids_alter.
Qed.

Lemma keeps_ids_app doc doc' extra :
  keeps_ids doc doc' -> keeps_ids doc (doc' ++ extra).
Proof.
  intros H j el Hl. destruct (H j el Hl) as (el1 & Hl1 & ?).
  exists el1. split; [by apply lookup_app_l_Some|done].
Qed.

(** Peels the updates that keep the id of an element off a goal. *)
Ltac ids :=
  repeat first
    [ assumption
    | apply keeps_ids_refl
    | apply keeps_ids_alter; [solve [intros; reflexivity]|]
    | apply keeps_ids_unfocus
    | apply keeps_ids_app ].

Lemma keeps_ids_focusPanel m id doc :
  keeps_ids doc (document m) -> keeps_ids doc (document (focusPanel m id)).
Proof.
  intros H. unfold focusPanel. cbn.
  destruct (Map_get (panels m) id); cbn; by ids.
Qed.

Lemma perform_keeps_ids workspaceRect getBoundingClientRect m a :
  keeps_ids (document m)
    (document (final (perform workspaceRect getBoundingClientRect m a))).
Proof.
  destruct a; unfold perform; cbn [final].
  - unfold createPanel. cbn. by ids.
  - unfold closePanel. destruct (Map_get (panels m) id); cbn; by ids.
  - unfold showPanel. destruct (Map_get (panels m) id); [|by ids].
    apply keeps_ids_focusPanel. cbn. by ids.
  - unfold minimizePanel. destruct (Map_get (panels m) id); cbn; by ids.
  - unfold toggleMaximize. destruct (Map_get (panels m) id) as [data|]; [|by ids].
    destruct (maximized (state data)).
    + destruct (prevBounds (state data)); cbn; by ids.
    + destruct (document m !! element data); cbn; by ids.
  - apply keeps_ids_focusPanel. by ids.
  - by ids.
  - unfold loadPanelStates. destruct (localStorage m) as [[|doc]|]; by ids.
  - apply keeps_ids_focusPanel. unfold startDrag.
    pose proof (keeps_ids_focusPanel m (bound_id m panel) _
                  (keeps_ids_refl (document m))) as H1.
    destruct (document (focusPanel m (bound_id m panel)) !! panel); cbn; by ids.
  - unfold startResize.
    pose proof (keeps_ids_focusPanel m (bound_id m panel) _
                  (keeps_ids_refl (document m))) as H1.
    destruct (document (focusPanel m (bound_id m panel)) !! panel); [|done].
    destruct (Map_get (panels (focusPanel m (bound_id m panel))) _); cbn; by ids.
  - apply keeps_ids_focusPanel. by ids.
  - unfold handleMouseMove, handleDrag, handleResize.
    destruct (dragState m) as [ds|].
    + destruct (snappedV _), (snappedH _); cbn; by ids.
    + destruct (resizeState m); cbn; by ids.
  - unfold handleMouseUp.
    destruct (dragState m); cbn; destruct (resizeState m); cbn; by ids.
Qed.

Lemma drag_bound_perform workspaceRect getBoundingClientRect m a :
  drag_bound m ->
  drag_bound (final (perform workspaceRect getBoundingClientRect m a)).
Proof.
  intros H.
  pose proof (perform_keeps_ids workspaceRect getBoundingClientRect m a) as Hids.
  assert (dragState (final (perform workspaceRect getBoundingClientRect m a))
          = dragState m ->
          drag_bound (final (perform workspaceRect getBoundingClientRect m a)))
    as Hsame.
  { intros Heq ds Hd. rewrite Heq in Hd. destruct (H ds Hd) as (el & Hel & Hid).
    destruct (Hids _ _ Hel) as (el' & Hel' & Hid'). exists el'. split; [done|].
    congruence. }
  destruct (starts_session a) eqn:Hs.
  - destruct a; try discriminate.
    + destruct (document (focusPanel m (bound_id m panel)) !! panel) as [el0|] eqn:Hl0.
      * intros ds Hd. unfold perform in Hd. cbn [final] in Hd.
        rewrite (proj1 (focusPanel_sessions _ _)) in Hd.
        unfold startDrag in Hd. rewrite Hl0 in Hd. cbn in Hd.
        injection Hd as <-. cbn [drag_panel drag_id].
        destruct (focusPanel_lookup _ _ _ _ Hl0) as (el & Hel & _).
        destruct (Hids _ _ Hel) as (el' & Hel' & Hid'). exists el'. split; [done|].
        unfold bound_id. by rewrite Hel.
      * apply Hsame. unfold perform. cbn [final].
        rewrite (proj1 (focusPanel_sessions _ _)). unfold startDrag. rewrite Hl0.
        apply focusPanel_sessions.
    + apply Hsame. apply startResize_dragState.
  - assert (a = MouseUp \/ a <> MouseUp) as [->|Hup]
      by (destruct a; first [by left | by right]).
    + intros ds Hd. discriminate Hd.
    + apply Hsame. by apply sessions_kept.
Qed.

Lemma reachable_by_drag_bound workspaceRect getBoundingClientRect allowed storage m :
  reachable_by workspaceRect getBoundingClientRect allowed storage m -> drag_bound m.
Proof.
  induction 1 as [|m a Hreach IH Ha].
  - unfold new_PanelManager, loadPanelStates.
    destruct storage as [[|doc]|]; intros ds Hd; discriminate Hd.
  - by apply drag_bound_perform.
Qed.

Lemma fold_left_ext_elem_of {A B} (f g : A -> B -> A) (l : list B) (a : A) :
  (forall x acc, x ∈ l -> f acc x = g acc x) ->
  fold_left f l a = fold_left g l a.
Proof.
  revert a. induction l as [|x l IH]; intros a H; [done|]. cbn.
  rewrite (H x a) by apply list_elem_of_here.
  apply IH. intros y acc Hy. apply H. by apply list_elem_of_further.
Qed.

(** [calculateSnap] reads the registry, the threshold and the elements of
    the panels other than the one that is moved. *)
Lemma calculateSnap_reads workspaceRect getBoundingClientRect m m' panelId
    newX newY width height :
  panels m' = panels m -> snapThreshold m' = snapThreshold m ->
  (forall id data, (id, data) ∈ panels m -> id <> panelId ->
     document m' !! element data = document m !! element data) ->
  calculateSnap workspaceRect getBoundingClientRect m' panelId newX newY width height
  = calculateSnap workspaceRect getBoundingClientRect m panelId newX newY width height.
Proof.
  intros Hps Hthr Hdoc. unfold calculateSnap. rewrite Hps, Hthr.
  apply fold_left_ext_elem_of. intros [id data] acc Hin. unfold snap_to_panel.
  destruct (String.eqb_spec id panelId) as [_|Hne]; [done|].
  by rewrite (Hdoc id data Hin Hne).
Qed.

Lemma alter_set_left_top_twice x1 y1 x2 y2 r (doc : list Element) :
  alter (set_left_top x2 y2) r (alter (set_left_top x1 y1) r doc)
  = alter (set_left_top x2 y2) r doc.
Proof.
  apply list_eq. intros j. destruct (decide (j = r)) as [->|Hne].
  - rewrite !list_lookup_alter_eq. by destruct (doc !! r).
  - by rewrite !list_lookup_alter_ne.
Qed.

(** X22.  Where a dragged panel is depends on where the pointer is, not on
    the way it took.  During a drag session of a state the engine reaches,
    a pointer move after any other pointer move leaves the page, and the
    guide lines shown, as the move alone would: the panel does not stick to
    an edge it snapped to earlier, and does not drift. *)
Theorem drag_is_path_independent workspaceRect getBoundingClientRect allowed
    storage m ev1 ev2 :
  reachable_by workspaceRect getBoundingClientRect allowed storage m ->
  is_Some (dragState m) ->
  let move m ev := handleMouseMove workspaceRect getBoundingClientRect m ev in
  document (move (move m ev1) ev2) = document (move m ev2) /\
  visible (guideV (move (move m ev1) ev2)) = visible (guideV (move m ev2)) /\
  visible (guideH (move (move m ev1) ev2)) = visible (guideH (move m ev2)) /\
  panels (move (move m ev1) ev2) = panels m /\
  dragState (move (move m ev1) ev2) = dragState m.
Proof.
  intros Hreach [ds Hd] move. subst move. cbn beta.
  pose proof (reachable_by_wf _ _ _ _ _ Hreach) as Hwf.
  destruct (reachable_by_drag_bound _ _ _ _ _ Hreach ds Hd) as (el & Hel & Hid).
  assert (forall m1 ev, dragState m1 = Some ds ->
            handleMouseMove workspaceRect getBoundingClientRect m1 ev
            = handleDrag workspaceRect getBoundingClientRect m1 ds ev) as Hmove
    by (intros m1 ev H1; unfold handleMouseMove; by rewrite H1).
  assert (forall m1 ev,
            let m2 := handleDrag workspaceRect getBoundingClientRect m1 ds ev in
            let snap := calculateSnap workspaceRect getBoundingClientRect m1
                          (drag_id ds)
                          (drag_startLeft ds + (clientX ev - drag_startX ds))
                          (drag_startTop ds + (clientY ev - drag_startY ds))
                          (drag_width ds) (drag_height ds) in
            document m2
            = alter (set_left_top (snapX snap) (snapY snap)) (drag_panel ds)
                    (document m1) /\
            visible (guideV m2) = snappedV snap /\
            visible (guideH m2) = snappedH snap /\
            panels m2 = panels m1 /\ dragState m2 = dragState m1 /\
            snapThreshold m2 = snapThreshold m1) as Hdrag.
  { intros m1 ev. unfold handleDrag. cbn zeta.
    by destruct (snappedV _), (snappedH _). }
  rewrite (Hmove m ev1 Hd), (Hmove m ev2 Hd).
  destruct (Hdrag m ev1) as (Hdoc1 & _ & _ & Hps1 & Hd1 & Hthr1).
  rewrite Hmove by (by rewrite Hd1).
  destruct (Hdrag (handleDrag workspaceRect getBoundingClientRect m ds ev1) ev2)
    as (Hdoc12 & HV12 & HH12 & Hps12 & Hd12 & _).
  destruct (Hdrag m ev2) as (Hdoc2 & HV2 & HH2 & _ & _ & _).
  assert (forall x y w h,
            calculateSnap workspaceRect getBoundingClientRect
              (handleDrag workspaceRect getBoundingClientRect m ds ev1)
              (drag_id ds) x y w h
            = calculateSnap workspaceRect getBoundingClientRect m
                (drag_id ds) x y w h) as Hsnap.
  { intros x y w h. apply calculateSnap_reads; [done|done|].
    intros id data Hin Hne. rewrite Hdoc1. apply list_lookup_alter_ne.
    intros Heq.
    destruct (elements_exist _ _ _ _ Hwf _ _ Hin) as (el' & Hel' & Hid').
    rewrite Heq, Hel' in Hel. injection Hel as ->. congruence. }
  rewrite Hsnap in Hdoc12, HV12, HH12.
  rewrite Hdoc12, HV12, HH12, Hdoc2, HV2, HH2, Hdoc1, Hps12, Hd12, Hps1, Hd1.
  by rewrite alter_set_left_top_twice.
Qed.

Lemma drag_is_path_independent_witness :
  let m := play [CreatePanel (panel_at "a" 50 50 300 200);
                 CreatePanel (panel_at "b" 400 50 300 200);
                 HeaderMouseDown (mkMouse 100 60) 0] in
  document (handleMouseMove workspace_1000x800 (inline_layout workspace_1000x800)
              (handleMouseMove workspace_1000x800 (inline_layout workspace_1000x800)
                 m (mkMouse 145 60)) (mkMouse 300 400))
  = document (handleMouseMove workspace_1000x800 (inline_layout workspace_1000x800)
                m (mkMouse 300 400)).
Proof.
  intros m.
  assert (reachable workspace_1000x800 (inline_layout workspace_1000x800) None m)
    as Hreach by (subst m; played).
  assert (is_Some (dragState m)) as Hdrag by (eexists; vm_compute; reflexivity).
  clearbody m.
  destruct (drag_is_path_independent workspace_1000x800
              (inline_layout workspace_1000x800) enabled None m
              (mkMouse 145 60) (mkMouse 300 400) Hreach Hdrag) as [Hdoc _].
  exact Hdoc.
Defined.
